(** * Context-query server and media-ingestion server: a shallow embedding

    This development embeds the retrieval core of the repository
    (the MCP stdio server [mcp-server/index.js], whose refactored twin groups
    the same functions in the static classes [FileService],
    [AnthropicService], [ContextBuilder], [ResponseBuilder] and
    [QueryService], and the ingestion server [web-server/index.js]) and
    proves properties of it.

    Modelling conventions.
    - A JavaScript string is a [string]: the UTF-8 text of the value.  All
      patterns the code searches for are ASCII, so searching bytes and
      searching code units agree.  [trim] and the regular expression know
      the multi-byte white space and line terminators.  [toLowerCase]
      maps the ASCII letters and [localeCompare] compares character codes:
      both are exact on ASCII letters, digits and [-], the alphabet of the
      file names the ingestion server writes for the usual media types.
      A statement that depends on one of them outside this alphabet says
      so in a hypothesis ([isAscii], [validTimestamp]).
    - A file is a sequence of bytes, again a [string]; reading or writing
      with the ['utf8'] encoding is the identity, which is exact on
      well-formed UTF-8 ([wellFormedUtf8]).
    - [async] functions are run to completion one after the other: a
      computation is a function from the world (file system, clock, logs,
      trace of I/O requests) to an outcome and a new world.  A rejected
      promise or a thrown [Error] is the outcome [Thrown] carrying the
      message; effects that happened before the throw stay in the world.
    - Everything outside the process (environment variables, the time zone,
      the remote reasoning API) is a field of [Host]. *)

From Stdlib Require Import List String Ascii ZArith Lia Bool Arith.
From Stdlib Require Import Sorting.Sorted Sorting.Permutation.
Import ListNotations.

Local Open Scope list_scope.
Local Open Scope string_scope.

(* ================================================================== *)
(** * Part I: definitions                                              *)
(* ================================================================== *)

(** ** JavaScript strings and the library functions the code calls *)

Module JS.

(** A string given by the codes of its bytes. *)
Definition bytes (l : list nat) : string :=
  string_of_list_ascii (map ascii_of_nat l).

Fixpoint drop (n : nat) (s : string) : string :=
  match n, s with
  | O, _ => s
  | S n', String _ s' => drop n' s'
  | S _, EmptyString => EmptyString
  end.

Fixpoint rev (s : string) : string :=
  match s with
  | EmptyString => EmptyString
  | String c s' => rev s' ++ String c EmptyString
  end.

Fixpoint repeat (c : ascii) (n : nat) : string :=
  match n with
  | O => EmptyString
  | S n' => String c (repeat c n')
  end.

Fixpoint allChars (p : ascii -> bool) (s : string) : bool :=
  match s with
  | EmptyString => true
  | String c s' => p c && allChars p s'
  end.

(** [s.startsWith(p)] *)
Definition startsWith (s p : string) : bool := String.prefix p s.

(** [s.endsWith(suf)]: [s] is [suf], or its tail ends with [suf]. *)
Fixpoint endsWith (s suf : string) : bool :=
  (s =? suf) ||
  match s with
  | EmptyString => false
  | String _ s' => endsWith s' suf
  end.

(** [s.replace(pat, rep)] with a string pattern: the first occurrence
    only. *)
Fixpoint replace (pat rep s : string) : string :=
  if String.prefix pat s then rep ++ drop (String.length pat) s
  else match s with
       | EmptyString => EmptyString
       | String c s' => String c (replace pat rep s')
       end.

(** [s.split(sep)] for a one-character separator. *)
Fixpoint split (sep : ascii) (s : string) : list string :=
  match s with
  | EmptyString => [EmptyString]
  | String c s' =>
      if Ascii.eqb c sep then EmptyString :: split sep s'
      else match split sep s' with
           | h :: t => String c h :: t
           | [] => [String c EmptyString]
           end
  end.

(** [parts.join(sep)] *)
Definition join (sep : string) (parts : list string) : string :=
  String.concat sep parts.

(** [s.padStart(n, c)] for a one-character filler. *)
Definition padStart (n : nat) (c : ascii) (s : string) : string :=
  repeat c (n - String.length s) ++ s.

(** [s.substring(n)] *)
Definition substring (n : nat) (s : string) : string := drop n s.

Definition isUpper (c : ascii) : bool :=
  let n := nat_of_ascii c in (65 <=? n)%nat && (n <=? 90)%nat.

Definition isLower (c : ascii) : bool :=
  let n := nat_of_ascii c in (97 <=? n)%nat && (n <=? 122)%nat.

Definition lowerChar (c : ascii) : ascii :=
  if isUpper c then ascii_of_nat (nat_of_ascii c + 32) else c.

Definition upperChar (c : ascii) : ascii :=
  if isLower c then ascii_of_nat (nat_of_ascii c - 32) else c.

(** [s.toLowerCase()], for a text of ASCII characters: the letters [A]
    to [Z] are mapped, every other byte is kept.  The engine also maps
    the capital letters outside ASCII. *)
Fixpoint toLowerCase (s : string) : string :=
  match s with
  | EmptyString => EmptyString
  | String c s' => String (lowerChar c) (toLowerCase s')
  end.

(** The decimal digit of a number below ten. *)
Definition digitChar (d : Z) : ascii :=
  ascii_of_nat (48 + Z.to_nat d).

Fixpoint digitsAcc (fuel : nat) (n : Z) (acc : string) : string :=
  let acc' := String (digitChar (n mod 10)) acc in
  match fuel with
  | O => acc'
  | S fuel' => if (n <? 10)%Z then acc' else digitsAcc fuel' (n / 10) acc'
  end.

(** [String(n)], also the text of [n] in a template literal, for an
    integer [n]. *)
Definition numberToString (n : Z) : string :=
  if (n <? 0)%Z
  then String "-" (digitsAcc (Z.to_nat (- n)) (- n) EmptyString)
  else digitsAcc (Z.to_nat n) n EmptyString.

(** The UTF-16 code units of the character a UTF-8 byte begins: none for
    a continuation byte, two for the first byte of a four-byte encoding,
    one otherwise. *)
Definition codeUnits (c : ascii) : nat :=
  let n := nat_of_ascii c in
  if (n <? 128)%nat then 1
  else if (n <? 192)%nat then 0
  else if (n <? 240)%nat then 1
  else 2.

(** [s.length]: the number of UTF-16 code units of the text. *)
Fixpoint length (s : string) : nat :=
  match s with
  | EmptyString => 0
  | String c s' => codeUnits c + length s'
  end.

(** [a.localeCompare(b)], as the sign of the result, for texts over the
    alphabet of timestamps (digits and [-]): there the collation order is
    the order of the character codes.  On other texts the collation of
    the engine decides (it puts [a] before [B]). *)
Definition localeCompare (a b : string) : comparison := String.compare a b.


(** *** [trim]

    White space and line terminators as [String.prototype.trim] strips
    them, by their UTF-8 encodings: one byte (TAB, LF, VT, FF, CR, SP),
    two bytes (U+00A0) and three bytes (U+1680, U+2000 to U+200A, U+2028,
    U+2029, U+202F, U+205F, U+3000, U+FEFF). *)

Definition code (c : ascii) : nat := nat_of_ascii c.

Definition ws1 (c : ascii) : bool :=
  ((9 <=? code c)%nat && (code c <=? 13)%nat) || (code c =? 32)%nat.

Definition ws2 (c1 c2 : ascii) : bool :=
  (code c1 =? 194)%nat && (code c2 =? 160)%nat.

Definition ws3 (c1 c2 c3 : ascii) : bool :=
  ((code c1 =? 225)%nat && (code c2 =? 154)%nat && (code c3 =? 128)%nat)
  || ((code c1 =? 226)%nat && (code c2 =? 128)%nat
      && (((128 <=? code c3)%nat && (code c3 <=? 138)%nat)
          || (code c3 =? 168)%nat || (code c3 =? 169)%nat
          || (code c3 =? 175)%nat))
  || ((code c1 =? 226)%nat && (code c2 =? 129)%nat && (code c3 =? 159)%nat)
  || ((code c1 =? 227)%nat && (code c2 =? 128)%nat && (code c3 =? 128)%nat)
  || ((code c1 =? 239)%nat && (code c2 =? 187)%nat && (code c3 =? 191)%nat).

(** Strips leading white space; [w2] and [w3] recognise the two- and
    three-byte encodings in the order the bytes are met. *)
Fixpoint stripWs (w2 : ascii -> ascii -> bool)
    (w3 : ascii -> ascii -> ascii -> bool) (s : string) : string :=
  match s with
  | String c1 s1 =>
      if ws1 c1 then stripWs w2 w3 s1
      else match s1 with
           | String c2 s2 =>
               if w2 c1 c2 then stripWs w2 w3 s2
               else match s2 with
                    | String c3 s3 =>
                        if w3 c1 c2 c3 then stripWs w2 w3 s3 else s
                    | EmptyString => s
                    end
           | EmptyString => s
           end
  | EmptyString => s
  end.

Definition trimStart (s : string) : string := stripWs ws2 ws3 s.

Definition trimEnd (s : string) : string :=
  rev (stripWs (fun c2 c1 => ws2 c1 c2)
               (fun c3 c2 c1 => ws3 c1 c2 c3) (rev s)).

(** [s.trim()] *)
Definition trim (s : string) : string := trimEnd (trimStart s).

(** *** The citation marker
    [/<relevant_image>(.*?)<\/relevant_image>/i] *)

Definition openTag : string := "<relevant_image>".
Definition closeTag : string := "</relevant_image>".

(** A literal of the pattern matched under the [i] flag: both
    characters are put in upper case; only ASCII letters can match an
    ASCII letter. *)
Fixpoint prefixCI (pat s : string) : bool :=
  match pat, s with
  | EmptyString, _ => true
  | String p pat', String c s' =>
      Ascii.eqb (upperChar p) (upperChar c) && prefixCI pat' s'
  | String _ _, EmptyString => false
  end.

(** The line terminators, which [.] does not match: LF, CR, U+2028 and
    U+2029. *)
Definition lineTerminators : list string :=
  [bytes [10]; bytes [13]; bytes [226; 128; 168]; bytes [226; 128; 169]].

(** A line terminator begins [s]. *)
Definition lineTerminatorAt (s : string) : bool :=
  existsb (fun t => String.prefix t s) lineTerminators.

(** [(.*?)<\/relevant_image>]: the shortest run of characters, none a
    line terminator, that is followed by the closing tag.  Returns the
    run and what follows the closing tag. *)
Fixpoint lazyPayload (s : string) : option (string * string) :=
  if prefixCI closeTag s then
    Some (EmptyString, drop (String.length closeTag) s)
  else
    match s with
    | EmptyString => None
    | String c s' =>
        if lineTerminatorAt s then None
        else match lazyPayload s' with
             | Some (p, r) => Some (String c p, r)
             | None => None
             end
    end.

Definition matchAt (s : string) : option (string * string) :=
  if prefixCI openTag s then lazyPayload (drop (String.length openTag) s)
  else None.

(** The first match of the pattern in [s]: the text before it, the
    capture group, and the text after it. *)
Fixpoint regexExec (s : string) : option (string * string * string) :=
  match matchAt s with
  | Some (p, r) => Some (EmptyString, p, r)
  | None =>
      match s with
      | EmptyString => None
      | String c s' =>
          match regexExec s' with
          | Some (b, p, r) => Some (String c b, p, r)
          | None => None
          end
      end
  end.

(** *** [path] (POSIX) *)

(** The last component of a path, trailing slashes ignored. *)
Definition lastSegment (p : string) : string :=
  last (filter (fun x => negb (x =? EmptyString)) (split "/" p))
       EmptyString.

Fixpoint stripSuffix (suf s : string) : option string :=
  if s =? suf then Some EmptyString
  else match s with
       | EmptyString => None
       | String c s' => option_map (String c) (stripSuffix suf s')
       end.

(** [path.basename(p, ext)] *)
Definition basename (p ext : string) : string :=
  if p =? ext then EmptyString
  else
    let seg := lastSegment p in
    match stripSuffix ext seg with
    | Some b => if b =? EmptyString then seg else b
    | None => seg
    end.

(** Splits at the last occurrence of [c]. *)
Fixpoint splitLast (c : ascii) (s : string) : option (string * string) :=
  match s with
  | EmptyString => None
  | String a s' =>
      match splitLast c s' with
      | Some (b, e) => Some (String a b, e)
      | None => if Ascii.eqb a c then Some (EmptyString, s') else None
      end
  end.

(** [path.extname(p)]: from the last dot of the last component, or the
    empty string when there is no dot, when the only dot leads the
    component, or when the component is [..]. *)
Definition extname (p : string) : string :=
  let seg := lastSegment p in
  match splitLast "." seg with
  | None => EmptyString
  | Some (b, e) =>
      if (b =? EmptyString) || (seg =? "..") then EmptyString
      else String "." e
  end.

End JS.

(** ** Base64, as [Buffer.from(s, 'base64')] and [buf.toString('base64')] *)

Module Base64.

Local Open Scope Z_scope.

Definition byteVal (c : ascii) : Z := Z.of_N (N_of_ascii c).
Definition byteOf (z : Z) : ascii := ascii_of_N (Z.to_N z).

Definition alphabet : string :=
  "ABCDEFGHIJKLMNOPQRSTUVWXYZabcdefghijklmnopqrstuvwxyz0123456789+/".

Definition sextetChar (n : Z) : ascii :=
  match String.get (Z.to_nat n) alphabet with
  | Some c => c
  | None => "="%char
  end.

(** [buf.toString('base64')]: three bytes give four characters; one or
    two trailing bytes are padded with [=]. *)
Fixpoint encode (bs : string) : string :=
  match bs with
  | EmptyString => EmptyString
  | String a EmptyString =>
      let x := byteVal a in
      String (sextetChar (x / 4))
        (String (sextetChar ((x mod 4) * 16)) "==")
  | String a (String b EmptyString) =>
      let x := byteVal a in
      let y := byteVal b in
      String (sextetChar (x / 4))
        (String (sextetChar ((x mod 4) * 16 + y / 16))
           (String (sextetChar ((y mod 16) * 4)) "="))
  | String a (String b (String c rest)) =>
      let x := byteVal a in
      let y := byteVal b in
      let z := byteVal c in
      String (sextetChar (x / 4))
        (String (sextetChar ((x mod 4) * 16 + y / 16))
           (String (sextetChar ((y mod 16) * 4 + z / 64))
              (String (sextetChar (z mod 64)) (encode rest))))
  end.

(** The value of a character of the standard or of the URL-safe
    alphabet. *)
Definition sextetOf (c : ascii) : option Z :=
  let n := Z.of_nat (nat_of_ascii c) in
  if (65 <=? n) && (n <=? 90) then Some (n - 65)
  else if (97 <=? n) && (n <=? 122) then Some (n - 71)
  else if (48 <=? n) && (n <=? 57) then Some (n + 4)
  else if (n =? 43) || (n =? 45) then Some 62
  else if (n =? 47) || (n =? 95) then Some 63
  else None.

(** The decoder is lenient: it skips characters outside the alphabet and
    stops at the first [=]. *)
Fixpoint sextets (s : string) : list Z :=
  match s with
  | EmptyString => []
  | String c s' =>
      if Ascii.eqb c "=" then []
      else match sextetOf c with
           | Some n => n :: sextets s'
           | None => sextets s'
           end
  end.

Fixpoint unsextets (l : list Z) : string :=
  match l with
  | p :: q :: r :: t :: rest =>
      String (byteOf (p * 4 + q / 16))
        (String (byteOf ((q mod 16) * 16 + r / 4))
           (String (byteOf ((r mod 4) * 64 + t)) (unsextets rest)))
  | [p; q; r] =>
      String (byteOf (p * 4 + q / 16))
        (String (byteOf ((q mod 16) * 16 + r / 4)) EmptyString)
  | [p; q] => String (byteOf (p * 4 + q / 16)) EmptyString
  | _ => EmptyString
  end.

(** [Buffer.from(s, 'base64')] *)
Definition decode (s : string) : string := unsextets (sextets s).

End Base64.

(** ** [Date]: the time value and its local calendar fields

    The functions are those of the ECMAScript specification (Day,
    DayFromYear, YearFromTime, MonthFromTime, DateFromTime, ...).  A time
    value is a number of milliseconds since the epoch.  The host's time
    zone is a function [tz] giving, for a time value, the offset of local
    time from UTC in seconds. *)

Module DateTime.

Local Open Scope Z_scope.

Definition msPerDay : Z := 86400000.
Definition msPerHour : Z := 3600000.
Definition msPerMinute : Z := 60000.
Definition msPerSecond : Z := 1000.

Definition Day (t : Z) : Z := t / msPerDay.

Definition DaysInYear (y : Z) : Z :=
  if negb (y mod 4 =? 0) then 365
  else if negb (y mod 100 =? 0) then 366
  else if negb (y mod 400 =? 0) then 365
  else 366.

Definition DayFromYear (y : Z) : Z :=
  365 * (y - 1970) + (y - 1969) / 4 - (y - 1901) / 100 + (y - 1601) / 400.

(** The largest [y] with [DayFromYear y <= d]: the year of the mean
    calendar, corrected by at most one. *)
Definition YearFromDay (d : Z) : Z :=
  let y0 := 1970 + (400 * d) / 146097 in
  if d <? DayFromYear y0 then y0 - 1
  else if DayFromYear (y0 + 1) <=? d then y0 + 1
  else y0.

Definition YearFromTime (t : Z) : Z := YearFromDay (Day t).

Definition InLeapYear (t : Z) : Z :=
  if DaysInYear (YearFromTime t) =? 366 then 1 else 0.

Definition DayWithinYear (t : Z) : Z :=
  Day t - DayFromYear (YearFromTime t).

(** The month of a day of the year, January being 0; [leap] is 1 in a
    leap year. *)
Definition monthOfDay (leap d : Z) : Z :=
  if d <? 31 then 0
  else if d <? 59 + leap then 1
  else if d <? 90 + leap then 2
  else if d <? 120 + leap then 3
  else if d <? 151 + leap then 4
  else if d <? 181 + leap then 5
  else if d <? 212 + leap then 6
  else if d <? 243 + leap then 7
  else if d <? 273 + leap then 8
  else if d <? 304 + leap then 9
  else if d <? 334 + leap then 10
  else 11.

Definition MonthFromTime (t : Z) : Z :=
  monthOfDay (InLeapYear t) (DayWithinYear t).

(** The day of the month, from 1. *)
Definition dateOfDay (leap d : Z) : Z :=
  match monthOfDay leap d with
  | 0 => d + 1
  | 1 => d - 30
  | 2 => d - 58 - leap
  | 3 => d - 89 - leap
  | 4 => d - 119 - leap
  | 5 => d - 150 - leap
  | 6 => d - 180 - leap
  | 7 => d - 211 - leap
  | 8 => d - 242 - leap
  | 9 => d - 272 - leap
  | 10 => d - 303 - leap
  | _ => d - 333 - leap
  end.

Definition DateFromTime (t : Z) : Z :=
  dateOfDay (InLeapYear t) (DayWithinYear t).

Definition HourFromTime (t : Z) : Z := (t / msPerHour) mod 24.
Definition MinFromTime (t : Z) : Z := (t / msPerMinute) mod 60.
Definition SecFromTime (t : Z) : Z := (t / msPerSecond) mod 60.

Section Local.

Variable tz : Z -> Z.

Definition LocalTime (t : Z) : Z := t + msPerSecond * tz t.

Definition getFullYear (d : Z) : Z := YearFromTime (LocalTime d).
Definition getMonth (d : Z) : Z := MonthFromTime (LocalTime d).
Definition getDate (d : Z) : Z := DateFromTime (LocalTime d).
Definition getHours (d : Z) : Z := HourFromTime (LocalTime d).
Definition getMinutes (d : Z) : Z := MinFromTime (LocalTime d).
Definition getSeconds (d : Z) : Z := SecFromTime (LocalTime d).

End Local.

End DateTime.

(** ** The world and computations over it *)

(** A directory entry is a regular file with its bytes, or something that
    cannot be read or written as a file (a subdirectory, a file without
    permission): the operation fails with [err]. *)
Inductive FileNode : Type :=
| Regular (content : string)
| Faulty (err : string).

(** The entries of a directory, in the order [readdir] lists them. *)
Definition Dir : Type := list (string * FileNode).

Inductive DirState : Type :=
| Missing                     (* no such directory: ENOENT *)
| Broken (err : string)       (* exists, but every operation on it fails *)
| Present (entries : Dir).

(** The two category directories, [./transcripts] and [./images] of the
    ingestion server, which the query server reads. *)
Inductive DirName : Type := TRANSCRIPTS_DIR | IMAGES_DIR.

Inductive IoEvent : Type :=
| EvReaddir (d : DirName)
| EvReadFile (d : DirName) (name : string)
| EvMkdir (d : DirName)
| EvWriteFile (d : DirName) (name : string)
| EvFetch.

Record World : Type := mkWorld {
  transcripts : DirState;
  images : DirState;
  clock : Z;                    (* the time value [new Date()] reads *)
  infoLog : list string;        (* logs/mcp-stdio.log *)
  errorLog : list string;       (* logs/mcp-stdio-error.log *)
  trace : list IoEvent          (* file-system and network requests, oldest first *)
}.

Inductive Outcome (A : Type) : Type :=
| Returned (a : A)
| Thrown (message : string).

Arguments Returned {A} a.
Arguments Thrown {A} message.

Definition IO (A : Type) : Type := World -> Outcome A * World.

Definition ret {A} (a : A) : IO A := fun w => (Returned a, w).

Definition throw {A} (message : string) : IO A := fun w => (Thrown message, w).

Definition bind {A B} (c : IO A) (k : A -> IO B) : IO B :=
  fun w =>
    match c w with
    | (Returned a, w') => k a w'
    | (Thrown e, w') => (Thrown e, w')
    end.

(** [try { body } catch (err) { handler }] *)
Definition tryCatch {A} (body : IO A) (handler : string -> IO A) : IO A :=
  fun w =>
    match body w with
    | (Returned a, w') => (Returned a, w')
    | (Thrown e, w') => handler e w'
    end.

Declare Scope io_scope.
Delimit Scope io_scope with io.
Notation "x <- c ;; k" := (bind c (fun x => k))
  (at level 61, c at next level, right associativity) : io_scope.
Notation "c ;; k" := (bind c (fun _ => k))
  (at level 61, right associativity) : io_scope.
Local Open Scope io_scope.

(** The world after a request has been added to the trace. *)
Definition record (ev : IoEvent) (w : World) : World :=
  mkWorld (transcripts w) (images w) (clock w) (infoLog w) (errorLog w)
          (trace w ++ [ev]).

(** Runs every computation of the list, as [Promise.all] awaits promises
    that were all started; the result is the list of values, or the first
    rejection. *)
Fixpoint promiseAll {A} (cs : list (IO A)) : IO (list A) :=
  match cs with
  | [] => ret []
  | c :: cs' =>
      fun w =>
        match c w with
        | (Returned a, w1) =>
            match promiseAll cs' w1 with
            | (Returned l, w2) => (Returned (a :: l), w2)
            | (Thrown e, w2) => (Thrown e, w2)
            end
        | (Thrown e, w1) => (Thrown e, snd (promiseAll cs' w1))
        end
  end.

(** ** The reasoning API and the host *)

Record ContentBlock : Type := mkBlock {
  blockType : string;           (* [type] *)
  blockText : option string     (* [text], when the block has one *)
}.

(** The parsed body of a success response; [None] for a body without
    [content]. *)
Record ApiData : Type := mkApiData { apiContent : option (list ContentBlock) }.

Inductive RequestPart : Type :=
| TextPart (text : string)
| ImagePart (media_type data : string).

Record ApiRequest : Type := mkApiRequest {
  reqModel : string;
  reqMaxTokens : Z;
  reqTemperature : option string;
  reqContent : list RequestPart
}.

(** What [fetch] resolves to: [ok], [status], the body as [await
    resp.text()] gives it and as [await resp.json()] gives it ([None]: the
    body is not JSON and [json()] rejects, with the message
    [respJsonError] of the parser). *)
Record Response : Type := mkResponse {
  respOk : bool;
  respStatus : Z;
  respText : string;
  respJson : option ApiData;
  respJsonError : string
}.

Inductive FetchResult : Type :=
| FetchFailed (message : string)     (* [fetch] itself rejects *)
| Fetched (resp : Response).

Record Host : Type := mkHost {
  ANTHROPIC_API_KEY : option string;           (* process.env.ANTHROPIC_API_KEY *)
  ANTHROPIC_MODEL : option string;             (* process.env.ANTHROPIC_MODEL *)
  remote : ApiRequest -> FetchResult;          (* the service behind [fetch] *)
  utcOffset : Z -> Z;                          (* local time minus UTC, in seconds *)
  dirPath : DirName -> string                  (* absolute path of a directory,
                                                  the same for both servers *)
}.

Definition defaultModel : string := "claude-3-7-sonnet-20250219".

(** [process.env.ANTHROPIC_MODEL ?? 'claude-3-7-sonnet-20250219'] *)
Definition configuredModel (host : Host) : string :=
  match ANTHROPIC_MODEL host with
  | Some m => m
  | None => defaultModel
  end.

(** [!key]: the variable is unset or empty. *)
Definition keyMissing (host : Host) : bool :=
  match ANTHROPIC_API_KEY host with
  | Some k => k =? EmptyString
  | None => true
  end.

(** [await fetch(url, { method: 'POST', ..., body: JSON.stringify(body) })] *)
Definition fetch (host : Host) (req : ApiRequest) : IO Response :=
  fun w =>
    match remote host req with
    | FetchFailed message => (Thrown message, record EvFetch w)
    | Fetched resp => (Returned resp, record EvFetch w)
    end.

(** [await resp.json()] *)
Definition json (resp : Response) : IO ApiData :=
  match respJson resp with
  | Some data => ret data
  | None => throw (respJsonError resp)
  end.

Definition emDash : string := JS.bytes [226; 128; 148].

(** The message of the ingestion server for a response that is not a
    success: status and body around an em dash. *)
Definition apiError (status : Z) (errText : string) : string :=
  "Anthropic API error: " ++ JS.numberToString status ++ " " ++ emDash
    ++ " " ++ errText.

Definition keyMissingMessage : string :=
  "Anthropic API key missing (set ANTHROPIC_API_KEY)".

(** ** The file system *)

Definition dirState (d : DirName) (w : World) : DirState :=
  match d with
  | TRANSCRIPTS_DIR => transcripts w
  | IMAGES_DIR => images w
  end.

Definition setDirState (d : DirName) (st : DirState) (w : World) : World :=
  match d with
  | TRANSCRIPTS_DIR =>
      mkWorld st (images w) (clock w) (infoLog w) (errorLog w) (trace w)
  | IMAGES_DIR =>
      mkWorld (transcripts w) st (clock w) (infoLog w) (errorLog w) (trace w)
  end.

Fixpoint lookupFile (name : string) (d : Dir) : option FileNode :=
  match d with
  | [] => None
  | (n, f) :: d' => if n =? name then Some f else lookupFile name d'
  end.

(** Overwrites the file named [name], or adds it after the entries
    present. *)
Fixpoint storeFile (name content : string) (d : Dir) : Dir :=
  match d with
  | [] => [(name, Regular content)]
  | (n, f) :: d' =>
      if n =? name then (n, Regular content) :: d'
      else (n, f) :: storeFile name content d'
  end.

(** The message of the error Node raises when the system call [syscall]
    finds nothing at [path]. *)
Definition ENOENT (syscall path : string) : string :=
  "ENOENT: no such file or directory, " ++ syscall ++ " '" ++ path ++ "'".

(** [path.join(dir, name)] for a name without slashes. *)
Definition joinPath (host : Host) (d : DirName) (name : string) : string :=
  dirPath host d ++ "/" ++ name.

(** [readdir(dir)] *)
Definition readdir (host : Host) (d : DirName) : IO (list string) :=
  fun w =>
    let w' := record (EvReaddir d) w in
    match dirState d w with
    | Missing => (Thrown (ENOENT "scandir" (dirPath host d)), w')
    | Broken err => (Thrown err, w')
    | Present entries => (Returned (map fst entries), w')
    end.

(** [readFile(path.join(dir, name))]: the bytes of the file. *)
Definition readFile (host : Host) (d : DirName) (name : string) : IO string :=
  fun w =>
    let w' := record (EvReadFile d name) w in
    match dirState d w with
    | Missing => (Thrown (ENOENT "open" (joinPath host d name)), w')
    | Broken err => (Thrown err, w')
    | Present entries =>
        match lookupFile name entries with
        | Some (Regular content) => (Returned content, w')
        | Some (Faulty err) => (Thrown err, w')
        | None => (Thrown (ENOENT "open" (joinPath host d name)), w')
        end
    end.

(** Decoding and encoding of text files.  A text is kept as its UTF-8
    bytes, so both are the identity; this is what Node does on well-formed
    UTF-8, and every text the servers write is well formed.  On bytes that
    are not, Node puts U+FFFD where the model keeps the bytes: statements
    on the content of files that come from elsewhere are made for
    well-formed files. *)
Definition utf8Decode (bs : string) : string := bs.
Definition utf8Encode (text : string) : string := text.

(** [readFile(path.join(dir, name), 'utf8')] *)
Definition readTextFile (host : Host) (d : DirName) (name : string)
  : IO string :=
  bs <- readFile host d name ;; ret (utf8Decode bs).

(** [mkdir(dir, { recursive: true })] *)
Definition mkdirRecursive (d : DirName) : IO unit :=
  fun w =>
    let w' := record (EvMkdir d) w in
    match dirState d w with
    | Missing => (Returned tt, setDirState d (Present []) w')
    | Broken err => (Thrown err, w')
    | Present _ => (Returned tt, w')
    end.

(** [writeFile(path.join(dir, name), bytes)] *)
Definition writeFile (host : Host) (d : DirName) (name content : string)
  : IO unit :=
  fun w =>
    let w' := record (EvWriteFile d name) w in
    match dirState d w with
    | Missing => (Thrown (ENOENT "open" (joinPath host d name)), w')
    | Broken err => (Thrown err, w')
    | Present entries =>
        match lookupFile name entries with
        | Some (Faulty err) => (Thrown err, w')
        | _ => (Returned tt,
                setDirState d (Present (storeFile name content entries)) w')
        end
    end.

(** [new Date()] *)
Definition newDate : IO Z := fun w => (Returned (clock w), w).

(** ** JSON values, as [JSON.parse] returns them *)

Unset Elimination Schemes.
Inductive JVal : Type :=
| JNull
| JBool (b : bool)
| JNum (n : Z)
| JStr (s : string)
| JArr (items : list JVal)
| JObj (fields : list (string * JVal)).
Set Elimination Schemes.

(** The value of the last field named [k]. *)
Fixpoint lookupLast (k : string) (fields : list (string * JVal))
  : option JVal :=
  match fields with
  | [] => None
  | (n, v) :: rest =>
      match lookupLast k rest with
      | Some v' => Some v'
      | None => if n =? k then Some v else None
      end
  end.

(** [body.k]: a [TypeError] on [null], [undefined] ([None]) on the other
    values that are not objects and on objects without the field. *)
Definition getProp (body : JVal) (k : string) : IO (option JVal) :=
  match body with
  | JNull =>
      throw ("Cannot read properties of null (reading '" ++ k ++ "')")
  | JObj fields => ret (lookupLast k fields)
  | _ => ret None
  end.

(** [typeof v === 'string'] *)
Definition isString (v : option JVal) : bool :=
  match v with
  | Some (JStr _) => true
  | _ => false
  end.

(** Truthiness of a value; [None] is [undefined]. *)
Definition truthy (v : option JVal) : bool :=
  match v with
  | None => false
  | Some JNull => false
  | Some (JBool b) => b
  | Some (JNum n) => negb (n =? 0)%Z
  | Some (JStr s) => negb (s =? EmptyString)
  | Some (JArr _) => true
  | Some (JObj _) => true
  end.

Definition nl : string := JS.bytes [10].
Definition dq : string := JS.bytes [34].

(** ** The query server, [mcp-server/index.js] *)

Module McpServer.

Inductive LogFile : Type := LOG_FILE | ERROR_LOG_FILE.

(** [logToFile(message, logFile)]: appends a line to the log.  A failure
    of [appendFile] is caught inside and reported on stderr, so the
    function never throws; the ISO time that prefixes the line is left
    out. *)
Definition logToFile (message : string) (logFile : LogFile) : IO unit :=
  fun w =>
    match logFile with
    | LOG_FILE =>
        (Returned tt,
         mkWorld (transcripts w) (images w) (clock w)
                 (infoLog w ++ [message]) (errorLog w) (trace w))
    | ERROR_LOG_FILE =>
        (Returned tt,
         mkWorld (transcripts w) (images w) (clock w)
                 (infoLog w) (errorLog w ++ [message]) (trace w))
    end.

Definition logError (message : string) : IO unit :=
  logToFile message ERROR_LOG_FILE.

Definition logSection (title content : string) : IO unit :=
  logToFile (nl ++ "===== " ++ title ++ " =====") LOG_FILE ;;
  logToFile content LOG_FILE ;;
  logToFile (JS.repeat "=" (String.length title + 12)) LOG_FILE.

(** [{ filename, content }] *)
Record TextFile : Type := mkTextFile {
  filename : string;
  content : string
}.

(** [Array.prototype.sort(compare)]: a stable sort. *)
Fixpoint insertSorted {A} (compare : A -> A -> comparison) (x : A)
    (l : list A) : list A :=
  match l with
  | [] => [x]
  | y :: l' =>
      match compare x y with
      | Gt => y :: insertSorted compare x l'
      | _ => x :: l
      end
  end.

Fixpoint sort {A} (compare : A -> A -> comparison) (l : list A) : list A :=
  match l with
  | [] => []
  | x :: l' => insertSorted compare x (sort compare l')
  end.

(** The comparison function given to [textFiles.sort]. *)
Definition byTimestamp (a b : string) : comparison :=
  let timestampA := JS.replace ".txt" "" a in
  let timestampB := JS.replace ".txt" "" b in
  JS.localeCompare timestampA timestampB.

(** [readTextFilesFromDir(dir)] *)
Definition readTextFilesFromDir (host : Host) (dir : DirName)
  : IO (list TextFile) :=
  tryCatch
    (files <- readdir host dir ;;
     let textFiles := filter (fun file => JS.endsWith file ".txt") files in
     let textFiles := sort byTimestamp textFiles in
     fileContents <-
       promiseAll
         (map (fun filename =>
                 content <- readTextFile host dir filename ;;
                 ret (mkTextFile filename content))
              textFiles) ;;
     ret fileContents)
    (fun err =>
       logError ("Error reading from " ++ dirPath host dir ++ ": " ++ err) ;;
       ret []).

(** [{ filepath, base64, mediaType }] *)
Record ImageFile : Type := mkImageFile {
  filepath : string;
  base64 : string;
  mediaType : string
}.

(** The media type of an extension, given without its dot and in lower
    case. *)
Definition mediaTypeOfExt (ext : string) : string :=
  if (ext =? "jpg") || (ext =? "jpeg") then "image/jpeg"
  else if ext =? "png" then "image/png"
  else "image/" ++ ext.

(** The test of [files.find] in [getCorrespondingImage]. *)
Definition matchesBaseName (baseName file : string) : bool :=
  JS.startsWith file baseName && negb (JS.endsWith file ".txt").

(** [getCorrespondingImage(textFilename)] *)
Definition getCorrespondingImage (host : Host) (textFilename : string)
  : IO (option ImageFile) :=
  tryCatch
    (let baseName := JS.basename textFilename ".txt" in
     files <- readdir host IMAGES_DIR ;;
     let imageFile := find (matchesBaseName baseName) files in
     match imageFile with
     | None => ret None
     | Some imageFile =>
         if imageFile =? EmptyString then ret None
         else
           let filepath := dirPath host IMAGES_DIR ++ "/" ++ imageFile in
           imageBuffer <- readFile host IMAGES_DIR imageFile ;;
           let base64 := Base64.encode imageBuffer in
           let ext := JS.substring 1 (JS.toLowerCase (JS.extname imageFile)) in
           let mediaType := mediaTypeOfExt ext in
           ret (Some (mkImageFile filepath base64 mediaType))
     end)
    (fun err =>
       logError ("Error getting corresponding image: " ++ err) ;;
       ret None).

Definition instructions : string :=
"<instructions>
You are an AI assistant specialized in analyzing and retrieving information from timestamped transcripts and image descriptions.

Based on the information provided in the <context> tag, please answer the question below. Follow these guidelines:

1. Always provide a complete text answer to the question, explaining what you found in the context.
2. Prioritize more recent information (files with more recent timestamps) when relevant.
3. If one image is particularly relevant to answering this question, specify its timestamp using <relevant_image>timestamp</relevant_image> tags AFTER your complete answer.
</instructions>".

(** The prompt of [askAnthropicWithContext]. *)
Definition constructPrompt (question context : string) : string :=
  "<context>" ++ nl ++ context ++ nl ++ "</context>" ++ nl ++ nl
    ++ instructions ++ nl ++ nl
    ++ "<question>" ++ nl ++ question ++ nl ++ "</question>".

Definition createRequestBody (host : Host) (promptText : string)
  : ApiRequest :=
  mkApiRequest (configuredModel host) 1024 (Some "0.1")
               [TextPart promptText].

(** [{ answer, relevantImageTimestamp }] *)
Record QueryResult : Type := mkQueryResult {
  answer : string;
  relevantImageTimestamp : option string
}.

(** [data?.content?.[0]?.text] *)
Definition firstBlockText (data : ApiData) : option string :=
  match apiContent data with
  | Some (block :: _) => blockText block
  | _ => None
  end.

(** The parsing of the model's text, the end of
    [askAnthropicWithContext]. *)
Definition processResponse (data : ApiData) : IO QueryResult :=
  let contentBlock := firstBlockText data in
  let imageMatch :=
    match contentBlock with
    | Some text => JS.regexExec text
    | None => None
    end in
  let relevantImageTimestamp :=
    match imageMatch with
    | Some (_, group1, _) => Some (JS.trim group1)
    | None => None
    end in
  let cleanedAnswer :=
    match contentBlock with
    | Some text =>
        JS.trim (match JS.regexExec text with
                 | Some (before, _, after) => before ++ after
                 | None => text
                 end)
    | None => "No answer provided."
    end in
  let responseLog :=
    "Text answer: " ++ cleanedAnswer ++ nl ++ "Image timestamp: "
      ++ match relevantImageTimestamp with
         | Some t => if t =? EmptyString then "None" else t
         | None => "None"
         end in
  logSection "PROCESSED RESPONSE FROM CLAUDE" responseLog ;;
  ret (mkQueryResult cleanedAnswer relevantImageTimestamp).

(** The separator of the error message as [index.js] holds it: the bytes
    of an em dash read as Windows-1252 and written again as UTF-8. *)
Definition brokenDash : string :=
  JS.bytes [195; 162; 226; 130; 172; 226; 128; 157].

(** The message for a response that is not a success. *)
Definition apiError (status : Z) (errText : string) : string :=
  "Anthropic API error: " ++ JS.numberToString status ++ " " ++ brokenDash
    ++ " " ++ errText.

(** [askAnthropicWithContext(question, context)] *)
Definition askAnthropicWithContext (host : Host) (question context : string)
  : IO QueryResult :=
  if keyMissing host then throw keyMissingMessage
  else
    let promptText := constructPrompt question context in
    logSection "PROMPT SENT TO CLAUDE" promptText ;;
    let body := createRequestBody host promptText in
    resp <- fetch host body ;;
    if negb (respOk resp) then
      throw (apiError (respStatus resp) (respText resp))
    else
      data <- json resp ;;
      processResponse data.

(** The three parts pushed for one transcript. *)
Definition transcriptBlock (file : TextFile) : list string :=
  let timestamp := JS.replace ".txt" "" (filename file) in
  [ "<transcript timestamp=" ++ dq ++ timestamp ++ dq ++ ">";
    nl ++ content file ++ nl;
    "</transcript>" ].

(** The three parts pushed for one image description. *)
Definition imageDescriptionBlock (file : TextFile) : list string :=
  let timestamp := JS.replace ".txt" "" (filename file) in
  [ "<image_description timestamp=" ++ dq ++ timestamp ++ dq ++ ">";
    nl ++ content file ++ nl;
    "</image_description>" ].

Definition addTranscriptsToContext (contextParts : list string)
    (transcriptFiles : list TextFile) : list string :=
  if (0 <? List.length transcriptFiles)%nat then
    contextParts ++ ["<transcripts>"]
      ++ flat_map transcriptBlock transcriptFiles ++ ["</transcripts>"]
  else contextParts.

Definition addImageDescriptionsToContext (contextParts : list string)
    (imageDescFiles : list TextFile) : list string :=
  if (0 <? List.length imageDescFiles)%nat then
    contextParts ++ ["<image_descriptions>"]
      ++ flat_map imageDescriptionBlock imageDescFiles
      ++ ["</image_descriptions>"]
  else contextParts.

(** The context string of [answerFromContext]. *)
Definition renderContext (transcriptFiles imageDescFiles : list TextFile)
  : string :=
  let contextParts := [] in
  let contextParts := addTranscriptsToContext contextParts transcriptFiles in
  let contextParts :=
    addImageDescriptionsToContext contextParts imageDescFiles in
  JS.join nl contextParts.

(** The first step of [answerFromContext]: both directories are read,
    transcripts first, and the context is rendered.  [index.js] has it
    inline; the refactored file names it [ContextBuilder.buildFullContext]. *)
Definition buildFullContext (host : Host) : IO string :=
  transcriptFiles <- readTextFilesFromDir host TRANSCRIPTS_DIR ;;
  imageDescFiles <- readTextFilesFromDir host IMAGES_DIR ;;
  ret (renderContext transcriptFiles imageDescFiles).

(** A part of the tool result. *)
Inductive ContentPart : Type :=
| ImageContent (data mimeType alt : string)
| TextContent (text : string).

(** [{ content: responseContent }] *)
Record ToolResult : Type := mkToolResult { resultContent : list ContentPart }.

(** The image step of [answerFromContext]: [if (relevantImageTimestamp)
    { ... }]. *)
Definition addImageIfRelevant (host : Host) (responseContent : list ContentPart)
    (relevantImageTimestamp : option string) : IO (list ContentPart) :=
  match relevantImageTimestamp with
  | Some t =>
      if t =? EmptyString then ret responseContent
      else
        image <- getCorrespondingImage host (t ++ ".txt") ;;
        match image with
        | Some image =>
            ret (responseContent
                   ++ [ImageContent (base64 image) (mediaType image)
                                    "Relevant image for your query"])%list
        | None => ret responseContent
        end
  | None => ret responseContent
  end.

(** The last step of [answerFromContext]: the image part, if any, then the
    text part.  Inline in [index.js], [ResponseBuilder.buildResponse] in
    the refactored file. *)
Definition buildResponse (host : Host) (answer : string)
    (relevantImageTimestamp : option string) : IO ToolResult :=
  let responseContent := [] in
  responseContent <-
    addImageIfRelevant host responseContent relevantImageTimestamp ;;
  let responseContent := (responseContent ++ [TextContent answer])%list in
  ret (mkToolResult responseContent).

(** [answerFromContext(params)], with [question] the value of
    [params.question] ([None]: the field is missing). *)
Definition answerFromContext (host : Host) (question : option JVal)
  : IO ToolResult :=
  match question with
  | Some (JStr q) =>
      if negb (truthy question) || negb (isString question) then
        throw "Missing or invalid 'question' parameter"
      else
        fullContext <- buildFullContext host ;;
        r <- askAnthropicWithContext host q fullContext ;;
        buildResponse host (answer r) (relevantImageTimestamp r)
  | _ => throw "Missing or invalid 'question' parameter"
  end.


End McpServer.

(** ** The ingestion server, [web-server/index.js] *)

Module WebServer.

(** What the handler sends: [res.writeHead(status, ...)] and
    [res.end(JSON.stringify(payload))]. *)
Record HttpReply : Type := mkReply {
  statusCode : Z;
  payload : JVal
}.

(** The body of the request as [consumeJSON(req)] finds it. *)
Inductive RequestBody : Type :=
| InvalidJson (message : string)
| JsonBody (body : JVal).

Definition consumeJSON (req : RequestBody) : IO JVal :=
  match req with
  | InvalidJson message => throw message
  | JsonBody body => ret body
  end.

(** [ensureDir(dir)] *)
Definition ensureDir (dir : DirName) : IO unit := mkdirRecursive dir.

(** [pad(n)]: [String(n).padStart(2, '0')] *)
Definition pad (n : Z) : string := JS.padStart 2 "0" (JS.numberToString n).

(** The template literal of [timestampName] for the date [d]. *)
Definition formatTimestamp (host : Host) (d : Z) : string :=
  let tz := utcOffset host in
  JS.numberToString (DateTime.getFullYear tz d) ++ "-"
    ++ pad (DateTime.getMonth tz d + 1) ++ "-"
    ++ pad (DateTime.getDate tz d) ++ "-"
    ++ pad (DateTime.getHours tz d) ++ "-"
    ++ pad (DateTime.getMinutes tz d) ++ "-"
    ++ pad (DateTime.getSeconds tz d).

(** [timestampName()] *)
Definition timestampName (host : Host) : IO string :=
  d <- newDate ;; ret (formatTimestamp host d).

(** [data?.content?.find((c) => c.type === 'text')] *)
Definition findTextBlock (data : ApiData) : option ContentBlock :=
  match apiContent data with
  | Some blocks => find (fun c => blockType c =? "text") blocks
  | None => None
  end.

(** [describeImageWithAnthropic(base64Data, mediaType)] *)
Definition describeImageWithAnthropic (host : Host)
    (base64Data mediaType : string) : IO string :=
  if keyMissing host then throw keyMissingMessage
  else
    let body :=
      mkApiRequest (configuredModel host) 1024 None
        [ImagePart mediaType base64Data;
         TextPart "Please describe this image in detail."] in
    resp <- fetch host body ;;
    if negb (respOk resp) then
      throw (apiError (respStatus resp) (respText resp))
    else
      data <- json resp ;;
      let contentBlock := findTextBlock data in
      ret (match contentBlock with
           | Some block =>
               match blockText block with
               | Some text => text
               | None => "No description returned."
               end
           | None => "No description returned."
           end).

(** [path.relative('.', path.join(dir, name))] *)
Definition relativePath (dir : DirName) (name : string) : string :=
  match dir with
  | TRANSCRIPTS_DIR => "transcripts/" ++ name
  | IMAGES_DIR => "images/" ++ name
  end.

(** [handleTranscriptUpload(body, res)] *)
Definition handleTranscriptUpload (host : Host) (body : JVal)
  : IO HttpReply :=
  ensureDir TRANSCRIPTS_DIR ;;
  baseName <- timestampName host ;;
  let filename := baseName ++ ".txt" in
  transcript <- getProp body "transcript" ;;
  match transcript with
  | Some (JStr text) =>
      writeFile host TRANSCRIPTS_DIR filename (utf8Encode text) ;;
      ret (mkReply 200
             (JObj [("saved", JStr (relativePath TRANSCRIPTS_DIR filename))]))
  | _ => throw "The data argument must be of type string"
  end.

(** [`${x}`] for [x = mediaType.split('/')[1]] *)
Definition templateText (x : option string) : string :=
  match x with
  | Some s => s
  | None => "undefined"
  end.

(** [handleImageUpload(body, res)] *)
Definition handleImageUpload (host : Host) (body : JVal) : IO HttpReply :=
  given <- getProp body "mediaType" ;;
  let mediaType :=
    match given with
    | None | Some JNull => JStr "image/png"
    | Some v => v
    end in
  ensureDir IMAGES_DIR ;;
  baseName <- timestampName host ;;
  match mediaType with
  | JStr mediaType =>
      let imgName :=
        baseName ++ "." ++ templateText (nth_error (JS.split "/" mediaType) 1) in
      let txtName := baseName ++ ".txt" in
      image <- getProp body "image" ;;
      match image with
      | Some (JStr image) =>
          writeFile host IMAGES_DIR imgName (Base64.decode image) ;;
          description <- describeImageWithAnthropic host image mediaType ;;
          writeFile host IMAGES_DIR txtName (utf8Encode description) ;;
          ret (mkReply 200
                 (JObj [("saved_image", JStr (relativePath IMAGES_DIR imgName));
                        ("description_file",
                         JStr (relativePath IMAGES_DIR txtName))]))
      | _ => throw "The first argument must be of type string"
      end
  | _ => throw "mediaType.split is not a function"
  end.

Definition missingFieldMessage : string :=
  "Request must include a " ++ dq ++ "transcript" ++ dq ++ " or " ++ dq
    ++ "image" ++ dq ++ " field.".

(** [handleMediaRequest(req, res)] *)
Definition handleMediaRequest (host : Host) (req : RequestBody)
  : IO HttpReply :=
  tryCatch
    (body <- consumeJSON req ;;
     transcript <- getProp body "transcript" ;;
     if isString transcript then handleTranscriptUpload host body
     else
       image <- getProp body "image" ;;
       if isString image then handleImageUpload host body
       else ret (mkReply 400 (JObj [("error", JStr missingFieldMessage)])))
    (fun err => ret (mkReply 500 (JObj [("error", JStr err)]))).

(** [handleEchoRequest(req, res)] *)
Definition handleEchoRequest (req : RequestBody) : IO HttpReply :=
  tryCatch
    (body <- consumeJSON req ;;
     ret (mkReply 200 (JObj [("received", body)])))
    (fun _ => ret (mkReply 400 (JObj [("error", JStr "Invalid JSON")]))).

(** The callback given to [createServer], from the routing on: [method]
    is [req.method] and [pathname] the path of [req.url].  The two lines
    it writes to the console are left out. *)
Definition requestListener (host : Host) (method pathname : string)
    (req : RequestBody) : IO HttpReply :=
  if (method =? "POST") && (pathname =? "/echo") then
    handleEchoRequest req
  else if (method =? "POST") && (pathname =? "/media") then
    handleMediaRequest host req
  else ret (mkReply 404 (JObj [("error", JStr "Not found")])).

End WebServer.

(** ** The glasses, [Speech] and [CameraOutput] *)

Module Speech.

Definition MIN_TRANSCRIPT_LENGTH : nat := 5.

(** [AsrModule.TranscriptionUpdateEvent] *)
Record TranscriptionUpdateEvent : Type := mkUpdate {
  text : string;
  isFinal : bool
}.

(** The body [sendTranscriptionToLocalServer(transcript)] posts to
    [/media]. *)
Definition sendTranscriptionToLocalServer (transcript : string) : JVal :=
  JObj [("transcript", JStr transcript)].

(** [onTranscriptionUpdate(eventArgs)].  [transcriptionText] is the text
    of the component that shows the transcription, [None] when no
    component is assigned.  The result is the text shown afterwards and
    the body posted to the server, if one is.  The lines printed are left
    out. *)
Definition onTranscriptionUpdate (transcriptionText : option string)
    (eventArgs : TranscriptionUpdateEvent) : option string * option JVal :=
  let transcriptionText :=
    match transcriptionText with
    | Some _ => Some (text eventArgs)
    | None => None
    end in
  if isFinal eventArgs then
    let transcriptText := JS.trim (text eventArgs) in
    if (MIN_TRANSCRIPT_LENGTH <=? JS.length transcriptText)%nat then
      (transcriptionText, Some (sendTranscriptionToLocalServer transcriptText))
    else (transcriptionText, None)
  else (transcriptionText, None).

End Speech.

Module CameraOutput.

(** The body [sendToLocalServer(base64Image)] posts to [/media]. *)
Definition sendToLocalServer (base64Image : string) : JVal :=
  JObj [("image", JStr base64Image); ("mediaType", JStr "image/jpeg")].

End CameraOutput.


(** ** Vocabulary of the statements *)

(** The worlds agree on the files and on the clock; logs and trace may
    differ. *)
Definition sameFiles (w w' : World) : Prop :=
  transcripts w' = transcripts w /\ images w' = images w /\ clock w' = clock w.

(** The names of the text files of a directory, in listing order. *)
Definition textNames (entries : Dir) : list string :=
  filter (fun file => JS.endsWith file ".txt") (map fst entries).

Definition readableb (entries : Dir) (name : string) : bool :=
  match lookupFile name entries with
  | Some (Regular _) => true
  | _ => false
  end.

Definition fileBytes (entries : Dir) (name : string) : string :=
  match lookupFile name entries with
  | Some (Regular bytes) => bytes
  | _ => EmptyString
  end.

(** The code of the byte is between [lo] and [hi]. *)
Definition between (lo hi : nat) (c : ascii) : bool :=
  (lo <=? JS.code c)%nat && (JS.code c <=? hi)%nat.

(** The second byte a first byte of a three- or four-byte encoding
    admits: no overlong form, no surrogate, nothing above U+10FFFF. *)
Definition secondByte (b0 b1 : ascii) : bool :=
  if (JS.code b0 =? 224)%nat then between 160 191 b1
  else if (JS.code b0 =? 237)%nat then between 128 159 b1
  else if (JS.code b0 =? 240)%nat then between 144 191 b1
  else if (JS.code b0 =? 244)%nat then between 128 143 b1
  else between 128 191 b1.

(** The bytes are well-formed UTF-8 (the Unicode Standard, table 3-7):
    decoding them puts no replacement character in the text. *)
Fixpoint wellFormedUtf8 (bs : string) : bool :=
  match bs with
  | EmptyString => true
  | String b0 r0 =>
      if between 0 127 b0 then wellFormedUtf8 r0
      else
        match r0 with
        | EmptyString => false
        | String b1 r1 =>
            if between 194 223 b0 then between 128 191 b1 && wellFormedUtf8 r1
            else
              match r1 with
              | EmptyString => false
              | String b2 r2 =>
                  if between 224 239 b0 then
                    secondByte b0 b1 && between 128 191 b2 && wellFormedUtf8 r2
                  else
                    match r2 with
                    | EmptyString => false
                    | String b3 r3 =>
                        between 240 244 b0 && secondByte b0 b1
                        && between 128 191 b2 && between 128 191 b3
                        && wellFormedUtf8 r3
                    end
              end
        end
  end.

(** What [readTextFilesFromDir] returns on a directory in a given state. *)
Definition listText (st : DirState) : list McpServer.TextFile :=
  match st with
  | Present entries =>
      if forallb (readableb entries) (textNames entries) then
        map (fun name => McpServer.mkTextFile name (utf8Decode (fileBytes entries name)))
            (McpServer.sort McpServer.byTimestamp (textNames entries))
      else []
  | _ => []
  end.



(** What [getCorrespondingImage] returns when the image directory is in a
    given state. *)
Definition findImage (host : Host) (st : DirState) (textFilename : string)
  : option McpServer.ImageFile :=
  match st with
  | Present entries =>
      let baseName := JS.basename textFilename ".txt" in
      match find (McpServer.matchesBaseName baseName) (map fst entries) with
      | Some imageFile =>
          if imageFile =? EmptyString then None
          else
            match lookupFile imageFile entries with
            | Some (Regular bytes) =>
                Some (McpServer.mkImageFile
                        (dirPath host IMAGES_DIR ++ "/" ++ imageFile)
                        (Base64.encode bytes)
                        (McpServer.mediaTypeOfExt
                           (JS.substring 1 (JS.toLowerCase (JS.extname imageFile)))))
            | _ => None
            end
      | None => None
      end
  | _ => None
  end.

(** ** Sample hosts and worlds *)

Definition sampleDirPath (d : DirName) : string :=
  match d with
  | TRANSCRIPTS_DIR => "/srv/web-server/transcripts"
  | IMAGES_DIR => "/srv/web-server/images"
  end.

(** A host whose reasoning API answers every request with [text]; local
    time is one hour ahead of UTC. *)
Definition answeringHost (text : string) : Host :=
  mkHost (Some "sk-test") None
    (fun _ => Fetched (mkResponse true 200 EmptyString
                         (Some (mkApiData (Some [mkBlock "text" (Some text)])))
                         EmptyString))
    (fun _ => 3600%Z)
    sampleDirPath.

Definition sampleHost : Host := answeringHost "A cat on a sofa.".



(** The image part [answerFromContext] puts in front of the answer when
    the image directory is in state [st]: none for a null or empty
    timestamp, and none when no image is found. *)
Definition resolve (host : Host) (st : DirState) (citedTimestamp : option string)
  : list McpServer.ContentPart :=
  match citedTimestamp with
  | Some t =>
      if t =? EmptyString then []
      else match findImage host st (t ++ ".txt") with
           | Some image =>
               [McpServer.ImageContent (McpServer.base64 image)
                                       (McpServer.mediaType image)
                                       "Relevant image for your query"]
           | None => []
           end
  | None => []
  end.

(** The result [processResponse] returns for a response body. *)
Definition parseResult (data : ApiData) : McpServer.QueryResult :=
  match McpServer.firstBlockText data with
  | Some text =>
      match JS.regexExec text with
      | Some (before, group1, after) =>
          McpServer.mkQueryResult (JS.trim (before ++ after)) (Some (JS.trim group1))
      | None => McpServer.mkQueryResult (JS.trim text) None
      end
  | None => McpServer.mkQueryResult "No answer provided." None
  end.

(** The context assembled from the store of [w]. *)
Definition contextOf (w : World) : string :=
  McpServer.renderContext (listText (transcripts w)) (listText (images w)).

(** The request a query with question [q] sends in the world [w]. *)
Definition sentRequest (host : Host) (q : string) (w : World) : ApiRequest :=
  McpServer.createRequestBody host (McpServer.constructPrompt q (contextOf w)).

(** A store whose image directory holds an image and a description with
    letters outside ASCII. *)
Definition accentedWorld : World :=
  mkWorld Missing
          (Present [("2025-05-17-02-40-24.png", Regular "Man");
                    ("2025-05-17-02-40-24.txt",
                     Regular ("Un caf" ++ JS.bytes [195; 169] ++ " sur la table."))])
          1747446030000 [] [] [].

(** A store with one transcript and one described image. *)
Definition sampleWorld : World :=
  mkWorld (Present [("2025-05-17-02-40-20.txt", Regular "Where did I leave the keys?")])
          (Present [("2025-05-17-02-40-24.png", Regular "Man");
                    ("2025-05-17-02-40-24.txt", Regular "Keys on a table.")])
          1747446030000 [] [] [].

(** A host whose reasoning API answers with a citation and nothing else. *)
Definition citingHost : Host :=
  answeringHost "<relevant_image>2025-05-17-02-40-24</relevant_image>".

(** ** Timestamps and the names of stored files *)

Definition isDigit (c : ascii) : bool :=
  (48 <=? JS.code c)%nat && (JS.code c <=? 57)%nat.

(** The characters of a timestamp: digits and the separator. *)
Definition timestampChar (c : ascii) : bool := isDigit c || Ascii.eqb c "-".

(** [s] is made after the template: a digit where the template has [d],
    the template's own character elsewhere. *)
Fixpoint matchesTemplate (tpl s : string) : bool :=
  match tpl, s with
  | EmptyString, EmptyString => true
  | String p tpl', String c s' =>
      (if Ascii.eqb p "d" then isDigit c else Ascii.eqb c p)
      && matchesTemplate tpl' s'
  | _, _ => false
  end.

(** The canonical timestamp: fixed width, zero padded, as
    [2025-05-17-02-40-24]. *)
Definition validTimestamp (t : string) : bool :=
  matchesTemplate "dddd-dd-dd-dd-dd-dd" t.

(** The character [c] does not occur in [s]. *)
Definition noChar (c : ascii) (s : string) : bool :=
  JS.allChars (fun x => negb (Ascii.eqb x c)) s.

(** A name the ingestion server gives a file: a canonical timestamp, a
    dot, an extension. *)
Definition storeName (name : string) : Prop :=
  exists ts ext, validTimestamp ts = true /\ name = ts ++ "." ++ ext.

(** The text is made of ASCII characters. *)
Definition isAscii (s : string) : bool :=
  JS.allChars (fun c => (JS.code c <? 128)%nat) s.



(** A store where a file that is not an image of the timestamp begins with
    it. *)
Definition strayWorld : World :=
  mkWorld Missing
          (Present [("2025-05-17-02-40-24-edited.png", Regular "Man")])
          1747446030000 [] [] [].


(** ** Vocabulary of the ingestion statements *)

(** The value of [body.k] for a body that is not [null]. *)
Definition fieldOf (body : JVal) (k : string) : option JVal :=
  match body with
  | JObj fields => lookupLast k fields
  | _ => None
  end.

Definition entriesOf (st : DirState) : Dir :=
  match st with
  | Present entries => entries
  | _ => []
  end.

(** [ensureDir] and then [writeFile] of [name] succeed in a directory in
    state [st]. *)
Definition writable (st : DirState) (name : string) : Prop :=
  match st with
  | Missing => True
  | Broken _ => False
  | Present entries => forall err, lookupFile name entries <> Some (Faulty err)
  end.

(** The media type [handleImageUpload] works with: the field when it is a
    string, the default when it is missing or [null]. *)
Definition effectiveMediaType (body : JVal) : option string :=
  match fieldOf body "mediaType" with
  | None | Some JNull => Some "image/png"
  | Some (JStr m) => Some m
  | Some _ => None
  end.

(** The name [handleImageUpload] gives the image written at timestamp
    [t] with media type [m]. *)
Definition imageName (t m : string) : string :=
  t ++ "." ++ WebServer.templateText (nth_error (JS.split "/" m) 1).

(** The request [describeImageWithAnthropic] sends for an image. *)
Definition describeRequest (host : Host) (image m : string) : ApiRequest :=
  mkApiRequest (configuredModel host) 1024 None
    [ImagePart m image; TextPart "Please describe this image in detail."].


(** A host without an API key. *)
Definition keylessHost : Host :=
  mkHost None None (fun _ => FetchFailed "unreachable") (fun _ => 3600%Z)
         sampleDirPath.

(** A host whose reasoning API refuses every request. *)
Definition refusingHost : Host :=
  mkHost (Some "sk-test") None
         (fun _ => Fetched (mkResponse false 529 "overloaded" None
                              ("Unexpected token 'o', " ++ dq ++ "overloaded" ++ dq
                                 ++ " is not valid JSON")))
         (fun _ => 3600%Z) sampleDirPath.

(** An empty store; the clock reads 2025-05-17 01:40:24 UTC. *)
Definition emptyWorld : World :=
  mkWorld Missing Missing 1747446024000 [] [] [].


(** ** Vocabulary of the context statements *)

(** The text [a] occurs in [s] before an occurrence of [b] that does not
    overlap it. *)
Definition appearsBefore (a b s : string) : Prop :=
  exists pre mid post, s = pre ++ a ++ mid ++ b ++ post.

Fixpoint contains (b s : string) : bool :=
  String.prefix b s ||
  match s with
  | EmptyString => false
  | String _ s' => contains b s'
  end.

(** The decision of [appearsBefore]. *)
Fixpoint appearsBeforeb (a b s : string) : bool :=
  (String.prefix a s && contains b (JS.drop (String.length a) s)) ||
  match s with
  | EmptyString => false
  | String _ s' => appearsBeforeb a b s'
  end.

(** The text of the artifact of category [dir] written at the timestamp
    [t] with the content [text], as the context shows it. *)
Definition artifactText (dir : DirName) (t text : string) : string :=
  match dir with
  | TRANSCRIPTS_DIR =>
      "<transcript timestamp=" ++ dq ++ t ++ dq ++ ">" ++ nl
        ++ nl ++ text ++ nl ++ nl ++ "</transcript>"
  | IMAGES_DIR =>
      "<image_description timestamp=" ++ dq ++ t ++ dq ++ ">" ++ nl
        ++ nl ++ text ++ nl ++ nl ++ "</image_description>"
  end.

(** The directory exists, its names are distinct and its text files can
    be read. *)
Definition healthy (st : DirState) : Prop :=
  exists entries,
    st = Present entries
    /\ NoDup (map fst entries)
    /\ forallb (readableb entries) (textNames entries) = true.

(** The directory holds the artifact written at [t], with content
    [bytes]. *)
Definition holds (st : DirState) (t bytes : string) : Prop :=
  In (t ++ ".txt", Regular bytes) (entriesOf st).

(** The order of the sort: [a] is not after [b]. *)
Definition notAfter {A} (compare : A -> A -> comparison) (a b : A) : Prop :=
  compare a b <> Gt.

(** A store where the image description is older than the transcript. *)
Definition crossWorld : World :=
  mkWorld (Present [("2025-05-17-02-40-30.txt", Regular "Where are my keys?")])
          (Present [("2025-05-17-02-40-24.png", Regular "Man");
                    ("2025-05-17-02-40-24.txt", Regular "Keys on a table.")])
          1747446040000 [] [] [].

(** The order of timestamps: the order of the strings, character code by
    character code. *)
Definition timestampBefore (t1 t2 : string) : Prop :=
  String.compare t1 t2 = Lt.

(** A store with two transcripts, listed newest first. *)
Definition twoTranscriptsWorld : World :=
  mkWorld (Present [("2025-05-17-02-40-30.txt", Regular "Found them.");
                    ("2025-05-17-02-40-20.txt", Regular "Where are my keys?")])
          Missing 1747446040000 [] [] [].

(** ** Vocabulary of the timestamp statements *)

(** Comparison by a first criterion, then by a second. *)
Definition lex (c1 c2 : comparison) : comparison :=
  match c1 with
  | Eq => c2
  | _ => c1
  end.

(** The first day of the year of each month, and of the next year. *)
Definition monthStart (leap m : Z) : Z :=
  match m with
  | 0 => 0
  | 1 => 31
  | 2 => 59 + leap
  | 3 => 90 + leap
  | 4 => 120 + leap
  | 5 => 151 + leap
  | 6 => 181 + leap
  | 7 => 212 + leap
  | 8 => 243 + leap
  | 9 => 273 + leap
  | 10 => 304 + leap
  | 11 => 334 + leap
  | _ => 365 + leap
  end%Z.

(** The second of local time a date falls in. *)
Definition localSecond (host : Host) (d : Z) : Z :=
  (DateTime.LocalTime (utcOffset host) d / 1000)%Z.

(** A host in a zone that leaves daylight saving time on 2025-11-02 at
    06:00 UTC: four hours behind UTC before, five hours after. *)
Definition easternHost : Host :=
  mkHost (Some "sk-test") None (fun _ => FetchFailed "unreachable")
         (fun t => if (t <? 1762063200000)%Z then (-14400)%Z else (-18000)%Z)
         sampleDirPath.

Definition comparisonEqb (a b : comparison) : bool :=
  match a, b with
  | Eq, Eq | Lt, Lt | Gt, Gt => true
  | _, _ => false
  end.

(** ** Vocabulary of the citation statements *)

(** [a] and [b] are the same text up to the case of ASCII letters. *)
Definition sameIgnoringCase (a b : string) : bool :=
  (String.length a =? String.length b)%nat && JS.prefixCI a b.

(** A line terminator occurs in [s]. *)
Definition hasLineTerminator (s : string) : bool :=
  existsb (fun t => contains t s) JS.lineTerminators.

(** The text holds a citation marker: an opening tag, a payload on one
    line, a closing tag, the tags in any case. *)
Definition containsMarker (text : string) : Prop :=
  exists before opening payload closing after,
    text = before ++ opening ++ payload ++ closing ++ after
    /\ sameIgnoringCase JS.openTag opening = true
    /\ sameIgnoringCase JS.closeTag closing = true
    /\ hasLineTerminator payload = false.

(** A response text with white space around it: a line feed and two
    spaces before, a space, a tab and a line feed after. *)
Definition paddedText : string :=
  nl ++ "  A cat on a sofa. " ++ JS.bytes [9] ++ nl.

Definition paddedHost : Host := answeringHost paddedText.

(** A host whose reasoning API answers with two text blocks. *)
Definition twoTextsHost : Host :=
  mkHost (Some "sk-test") None
    (fun _ => Fetched (mkResponse true 200 ""
                         (Some (mkApiData (Some [mkBlock "text" (Some "On the desk.");
                                                  mkBlock "text" (Some "Beside the lamp.")])))
                         ""))
    (fun _ => 3600%Z)
    sampleDirPath.

(** ** Tactics *)

(** Closes a goal about [monthStart] at a given month and the next. *)
Ltac month_arith :=
  change (0 + 1)%Z with 1%Z; change (1 + 1)%Z with 2%Z;
  change (2 + 1)%Z with 3%Z; change (3 + 1)%Z with 4%Z;
  change (4 + 1)%Z with 5%Z; change (5 + 1)%Z with 6%Z;
  change (6 + 1)%Z with 7%Z; change (7 + 1)%Z with 8%Z;
  change (8 + 1)%Z with 9%Z; change (9 + 1)%Z with 10%Z;
  change (10 + 1)%Z with 11%Z; change (11 + 1)%Z with 12%Z;
  cbn [monthStart]; lia.

(** ** Vocabulary of the effect statements *)

Definition isFetch (ev : IoEvent) : bool :=
  match ev with
  | EvFetch => true
  | _ => false
  end.

(** The number of requests sent to the reasoning API so far. *)
Definition requestsSent (w : World) : nat :=
  List.length (filter isFetch (trace w)).

(** From [w] to [w'] the store was at most read: files and clock are the
    same, no request was sent and the log of prompts and responses is as
    it was.  The error log may have grown. *)
Definition onlyRead (w w' : World) : Prop :=
  sameFiles w w' /\ requestsSent w' = requestsSent w /\ infoLog w' = infoLog w.

(** The world after the files [names] of a directory were requested. *)
Definition afterReads (d : DirName) (names : list string) (w : World) : World :=
  fold_left (fun w name => record (EvReadFile d name) w) names w.

(** The question is a string that is not empty. *)
Definition validQuestion (question : option JVal) : bool :=
  match question with
  | Some (JStr q) => negb (q =? "")
  | _ => false
  end.

(** A host whose reasoning API answers with a block that is not text
    before the text. *)
Definition toolUseHost : Host :=
  mkHost (Some "sk-test") None
    (fun _ => Fetched (mkResponse true 200 ""
                         (Some (mkApiData (Some [mkBlock "tool_use" None;
                                                  mkBlock "text" (Some "A cat on a sofa.")])))
                         ""))
    (fun _ => 3600%Z)
    sampleDirPath.

(** A host whose reasoning API cites nothing between the tags. *)
Definition blankCitingHost : Host :=
  answeringHost "On the desk. <relevant_image>  </relevant_image>".

(** A store none of whose directories can be listed. *)
Definition lostWorld : World :=
  mkWorld (Broken "EACCES: permission denied") (Broken "EIO: i/o error")
          1747446024000 [] [] [].

(** A response text with two markers, the first with tags in mixed
    case. *)
Definition twiceCitingText : string :=
  "On the desk. <Relevant_Image> 2025-05-17-02-40-24 </RELEVANT_IMAGE> Or <relevant_image>2025-05-17-02-40-30</relevant_image>".

Definition twiceCitingHost : Host := answeringHost twiceCitingText.

(** ** Vocabulary of the upload statements *)

(** A block of the response that is not of type [text]. *)
Definition notText (block : ContentBlock) : Prop := blockType block <> "text".

(** A host whose reasoning API answers with a block that is not text,
    then two text blocks. *)
Definition describingHost : Host :=
  mkHost (Some "sk-test") None
    (fun _ => Fetched (mkResponse true 200 ""
                         (Some (mkApiData (Some [mkBlock "thinking" None;
                                                  mkBlock "text" (Some "A man at a desk.");
                                                  mkBlock "text" (Some "Second thoughts.")])))
                         ""))
    (fun _ => 3600%Z)
    sampleDirPath.

(** A store whose image directory cannot be used. *)
Definition brokenImagesWorld : World :=
  mkWorld Missing (Broken "EACCES: permission denied") 1747446024000 [] [] [].

(** The timestamp is free in the image directory: the only entries that
    begin with it are text files. *)
Definition freeTimestamp (st : DirState) (t : string) : Prop :=
  forall name, In name (map fst (entriesOf st)) ->
    JS.startsWith name t = true -> JS.endsWith name ".txt" = true.

(** ** Vocabulary of the invariant of the store *)

(** Every entry of the directory has a name the ingestion server gives,
    and no name is listed twice. *)
Definition wellNamed (st : DirState) : Prop :=
  Forall storeName (map fst (entriesOf st))
  /\ NoDup (map fst (entriesOf st)).

(** The clock reads [now], and both directories are well named. *)
Definition tidy (now : Z) (w : World) : Prop :=
  clock w = now /\ wellNamed (transcripts w) /\ wellNamed (images w).

(** A computation started where [P] holds returns [a] where [Q a] holds,
    or throws where [E] holds. *)
Definition hoare {A} (P : World -> Prop) (c : IO A)
    (Q : A -> World -> Prop) (E : World -> Prop) : Prop :=
  forall w, P w ->
    match c w with
    | (Returned a, w') => Q a w'
    | (Thrown _, w') => E w'
    end.

(** ** Vocabulary of the statements on time *)

(** The world when the clock reads [d]. *)
Definition atClock (d : Z) (w : World) : World :=
  mkWorld (transcripts w) (images w) d (infoLog w) (errorLog w) (trace w).

(** ** Vocabulary of the statements on white space *)

(** No white space begins [s], [w2] and [w3] recognising the encodings of
    two and three bytes. *)
Definition stops (w2 : ascii -> ascii -> bool)
    (w3 : ascii -> ascii -> ascii -> bool) (s : string) : bool :=
  match s with
  | String c1 s1 =>
      negb (JS.ws1 c1)
      && match s1 with
         | String c2 s2 =>
             negb (w2 c1 c2)
             && match s2 with
                | String c3 _ => negb (w3 c1 c2 c3)
                | EmptyString => true
                end
         | EmptyString => true
         end
  | EmptyString => true
  end.

(* ================================================================== *)
(** * Part II: properties                                              *)
(* ================================================================== *)

(** ** The library models on examples *)

Example trim_example :
  JS.trim (JS.bytes [32; 194; 160; 104; 105; 10; 226; 128; 168]) = "hi".
Proof. reflexivity. Qed.

Example regexExec_examples :
  JS.regexExec "It is on the desk. <Relevant_Image> 2025-05-17-02-40-24 </relevant_IMAGE> Bye"
  = Some ("It is on the desk. ", " 2025-05-17-02-40-24 ", " Bye")
  /\ JS.regexExec ("<relevant_image>a" ++ nl ++ "<relevant_image>b</relevant_image>")
     = Some ("<relevant_image>a" ++ nl, "b", "")
  /\ JS.regexExec "<relevant_image><relevant_image>c</relevant_image></relevant_image>"
     = Some ("", "<relevant_image>c", "</relevant_image>")
  /\ JS.regexExec "<relevant_image>never closed" = None.
Proof. repeat split. Qed.

Example path_examples :
  JS.basename "2025-05-17-02-40-24.txt" ".txt" = "2025-05-17-02-40-24"
  /\ JS.basename "a/b/2025.txt" ".txt" = "2025"
  /\ JS.basename "x/.txt" ".txt" = ".txt"
  /\ JS.extname "a.b.PNG" = ".PNG"
  /\ JS.extname ".bashrc" = ""
  /\ JS.extname "x." = "."
  /\ JS.extname ".." = ""
  /\ JS.extname "2025-05-17-02-40-24.vnd.microsoft.icon" = ".icon".
Proof. repeat split. Qed.

Example string_examples :
  JS.numberToString 2025 = "2025"
  /\ JS.numberToString 0 = "0"
  /\ JS.numberToString (-15) = "-15"
  /\ JS.padStart 2 "0" (JS.numberToString 7) = "07"
  /\ JS.replace ".txt" "" "a.txt.txt" = "a.txt"
  /\ JS.split "/" "image/png" = ["image"; "png"]
  /\ JS.split "/" "" = [""]
  /\ JS.endsWith "notes.txt" ".txt" = true
  /\ JS.endsWith "txt" ".txt" = false.
Proof. repeat split. Qed.

Example base64_examples :
  Base64.encode "Man" = "TWFu"
  /\ Base64.encode "Ma" = "TWE="
  /\ Base64.encode "M" = "TQ=="
  /\ Base64.decode "TWFu TWE=" = "ManMa".
Proof. repeat split. Qed.

(** 2025-05-17 01:40:24 UTC, one hour east of Greenwich; the last
    millisecond before the epoch; the 29th of February 2000. *)
Example date_examples :
  WebServer.formatTimestamp sampleHost 1747446024000 = "2025-05-17-02-40-24"
  /\ (DateTime.YearFromTime (-1), DateTime.MonthFromTime (-1),
      DateTime.DateFromTime (-1), DateTime.HourFromTime (-1))
     = (1969, 11, 31, 23)%Z
  /\ (DateTime.YearFromTime 951782400000, DateTime.MonthFromTime 951782400000,
      DateTime.DateFromTime 951782400000) = (2000, 1, 29)%Z.
Proof. repeat split. Qed.

(** An upload of an image, then a query that cites it. *)
Example pipeline_example :
  let uploaded :=
    snd (WebServer.handleMediaRequest sampleHost
           (WebServer.JsonBody (JObj [("image", JStr "TWFu")])) emptyWorld) in
  images uploaded
  = Present [("2025-05-17-02-40-24.png", Regular "Man");
             ("2025-05-17-02-40-24.txt", Regular "A cat on a sofa.")]
  /\ fst (McpServer.answerFromContext citingHost (Some (JStr "What did I see?")) uploaded)
     = Returned (McpServer.mkToolResult
                   [McpServer.ImageContent "TWFu" "image/png"
                      "Relevant image for your query";
                    McpServer.TextContent ""]).
Proof. split; reflexivity. Qed.

Example wellFormedUtf8_example :
  wellFormedUtf8 ("caf" ++ JS.bytes [195; 169]) = true
  /\ wellFormedUtf8 (JS.bytes [226; 130; 172; 240; 159; 152; 128]) = true
  /\ wellFormedUtf8 (JS.bytes [255; 65]) = false
  /\ wellFormedUtf8 (JS.bytes [192; 128]) = false
  /\ wellFormedUtf8 (JS.bytes [224; 128; 128]) = false
  /\ wellFormedUtf8 (JS.bytes [237; 160; 128]) = false
  /\ wellFormedUtf8 (JS.bytes [244; 144; 128; 128]) = false
  /\ wellFormedUtf8 (JS.bytes [226; 130]) = false.
Proof. repeat split. Qed.

(** ** Strings *)

Lemma append_nil_r (s : string) : s ++ "" = s.
Proof. induction s; simpl; congruence. Qed.

Lemma append_assoc (a b c : string) : (a ++ b) ++ c = a ++ (b ++ c).
Proof. induction a; simpl; congruence. Qed.

Lemma length_append (a b : string) :
  String.length (a ++ b) = String.length a + String.length b.
Proof. induction a; simpl; congruence. Qed.

Lemma append_inv_length (a b c d : string) :
  String.length a = String.length c -> a ++ b = c ++ d -> a = c /\ b = d.
Proof.
  revert c; induction a as [|x a IH]; intros [|y c] Hlen Heq;
    simpl in *; try discriminate; auto.
  injection Heq as -> Heq. destruct (IH c) as [-> ->]; auto.
Qed.

Lemma append_inv_length_r (a b c d : string) :
  String.length b = String.length d -> a ++ b = c ++ d -> a = c /\ b = d.
Proof.
  intros Hlen Heq. apply append_inv_length; auto.
  apply (f_equal String.length) in Heq. rewrite !length_append in Heq. lia.
Qed.

Lemma prefix_spec (p s : string) :
  String.prefix p s = true <-> exists r, s = p ++ r.
Proof.
  revert s; induction p as [|x p IH]; intros s; simpl.
  - split; [intros _; exists s; reflexivity | intros _; destruct s; reflexivity].
  - destruct s as [|y s].
    + split; [discriminate | intros [r Hr]; discriminate].
    + simpl. destruct (ascii_dec x y) as [->|Hne].
      * rewrite IH. split; intros [r Hr]; exists r; simpl in *; congruence.
      * split; [discriminate | intros [r Hr]; simpl in Hr; congruence].
Qed.

Lemma prefix_append (p r : string) : String.prefix p (p ++ r) = true.
Proof. apply prefix_spec. eauto. Qed.

Lemma drop_append (p r : string) : JS.drop (String.length p) (p ++ r) = r.
Proof. induction p; simpl; auto. Qed.

Lemma endsWith_spec (s suf : string) :
  JS.endsWith s suf = true <-> exists p, s = p ++ suf.
Proof.
  induction s as [|x s IH]; cbn [JS.endsWith].
  - rewrite orb_false_r, String.eqb_eq. split.
    + intros <-. exists "". reflexivity.
    + intros [[|y p] Hp]; simpl in Hp; [auto | discriminate].
  - rewrite orb_true_iff, String.eqb_eq, IH. split.
    + intros [<- | [p ->]]; [exists ""; reflexivity | exists (String x p); reflexivity].
    + intros [[|y p] Hp]; simpl in Hp; [left; auto|].
      injection Hp as -> ->. right. eauto.
Qed.

Lemma endsWith_append (p suf : string) : JS.endsWith (p ++ suf) suf = true.
Proof. apply endsWith_spec. eauto. Qed.

(** ** Running computations *)

Lemma sameFiles_refl w : sameFiles w w.
Proof. repeat split. Qed.

Lemma sameFiles_trans w1 w2 w3 :
  sameFiles w1 w2 -> sameFiles w2 w3 -> sameFiles w1 w3.
Proof. unfold sameFiles. intuition congruence. Qed.

Lemma sameFiles_record ev w : sameFiles w (record ev w).
Proof. repeat split. Qed.

Lemma sameFiles_dirState d w w' :
  sameFiles w w' -> dirState d w' = dirState d w.
Proof. intros (Ht & Hi & _). destruct d; simpl; auto. Qed.

Lemma bind_Returned {A B} (c : IO A) (k : A -> IO B) w a w' :
  c w = (Returned a, w') -> bind c k w = k a w'.
Proof. unfold bind. intros ->. reflexivity. Qed.

Lemma bind_Thrown {A B} (c : IO A) (k : A -> IO B) w e w' :
  c w = (Thrown e, w') -> bind c k w = (Thrown e, w').
Proof. unfold bind. intros ->. reflexivity. Qed.

Lemma bind_inv {A B} (c : IO A) (k : A -> IO B) w b w' :
  bind c k w = (Returned b, w') ->
  exists a w1, c w = (Returned a, w1) /\ k a w1 = (Returned b, w').
Proof.
  unfold bind. destruct (c w) as [[a|e] w1]; intros H; [eauto | discriminate].
Qed.

Lemma logError_run message w :
  exists w', McpServer.logError message w = (Returned tt, w')
             /\ sameFiles w w'
             /\ errorLog w' = (errorLog w ++ [message])%list.
Proof. eexists. split; [reflexivity|]. repeat split. Qed.

Lemma logSection_run title content w :
  exists w', McpServer.logSection title content w = (Returned tt, w')
             /\ sameFiles w w' /\ trace w' = trace w.
Proof. eexists. split; [reflexivity|]. repeat split. Qed.

Lemma readTextFile_run host d name w :
  readTextFile host d name w =
  (match dirState d w with
   | Missing => Thrown (ENOENT "open" (joinPath host d name))
   | Broken err => Thrown err
   | Present entries =>
       match lookupFile name entries with
       | Some (Regular content) => Returned (utf8Decode content)
       | Some (Faulty err) => Thrown err
       | None => Thrown (ENOENT "open" (joinPath host d name))
       end
   end, record (EvReadFile d name) w).
Proof.
  unfold readTextFile, bind, readFile, ret.
  destruct (dirState d w) as [|err|entries]; try reflexivity.
  destruct (lookupFile name entries) as [[c|err]|]; reflexivity.
Qed.


Lemma promiseAll_reads host d entries names :
  forall w, dirState d w = Present entries ->
  let reader := fun filename =>
    bind (readTextFile host d filename)
         (fun content => ret (McpServer.mkTextFile filename content)) in
  sameFiles w (snd (promiseAll (map reader names) w))
  /\ (forallb (readableb entries) names = true ->
      fst (promiseAll (map reader names) w)
      = Returned (map (fun name =>
                         McpServer.mkTextFile name (utf8Decode (fileBytes entries name)))
                      names))
  /\ (forallb (readableb entries) names = false ->
      exists e, fst (promiseAll (map reader names) w) = Thrown e).
Proof.
  induction names as [|n names IH]; intros w Hd reader.
  - simpl. split; [apply sameFiles_refl|]. split; [auto | discriminate].
  - assert (Hd' : dirState d (record (EvReadFile d n) w) = Present entries).
    { rewrite (sameFiles_dirState d w); auto using sameFiles_record. }
    destruct (IH _ Hd') as (Hs & Hok & Hko). fold reader in Hs, Hok, Hko.
    assert (Hstep : promiseAll (map reader (n :: names)) w =
      match lookupFile n entries with
      | Some (Regular c) =>
          match promiseAll (map reader names) (record (EvReadFile d n) w) with
          | (Returned l, w2) => (Returned (McpServer.mkTextFile n (utf8Decode c) :: l), w2)
          | (Thrown e, w2) => (Thrown e, w2)
          end
      | Some (Faulty err) => (Thrown err, snd (promiseAll (map reader names) (record (EvReadFile d n) w)))
      | None => (Thrown (ENOENT "open" (joinPath host d n)),
                 snd (promiseAll (map reader names) (record (EvReadFile d n) w)))
      end).
    { cbn [map promiseAll]. unfold reader at 1. unfold bind at 1.
      rewrite readTextFile_run, Hd.
      destruct (lookupFile n entries) as [[c|err]|]; reflexivity. }
    rewrite Hstep. clear Hstep.
    cbn [forallb map].
    assert (Hw : sameFiles w (snd (promiseAll (map reader names)
                                     (record (EvReadFile d n) w)))).
    { eapply sameFiles_trans; [apply sameFiles_record | exact Hs]. }
    destruct (lookupFile n entries) as [[c|err]|] eqn:El.
    + assert (Hr : readableb entries n = true)
        by (unfold readableb; rewrite El; reflexivity).
      assert (Hb : fileBytes entries n = c)
        by (unfold fileBytes; rewrite El; reflexivity).
      rewrite Hr, Hb. cbn [andb].
      destruct (promiseAll (map reader names) (record (EvReadFile d n) w))
        as [[l|e] w2] eqn:E; cbn [fst snd] in *.
      * split; [exact Hw|].
        split; [intros H; specialize (Hok H); congruence|].
        intros H; destruct (Hko H) as [e He]; discriminate.
      * split; [exact Hw|].
        split; [intros H; specialize (Hok H); discriminate | eauto].
    + assert (Hr : readableb entries n = false)
        by (unfold readableb; rewrite El; reflexivity).
      rewrite Hr. cbn [andb fst snd].
      split; [exact Hw|]. split; [discriminate | eauto].
    + assert (Hr : readableb entries n = false)
        by (unfold readableb; rewrite El; reflexivity).
      rewrite Hr. cbn [andb fst snd].
      split; [exact Hw|]. split; [discriminate | eauto].
Qed.

(** ** Sorting *)

Lemma insertSorted_perm {A} (cmp : A -> A -> comparison) x l :
  Permutation (McpServer.insertSorted cmp x l) (x :: l).
Proof.
  induction l as [|y l IH]; simpl; auto.
  destruct (cmp x y); auto.
  rewrite IH. apply perm_swap.
Qed.

Lemma sort_perm {A} (cmp : A -> A -> comparison) l :
  Permutation (McpServer.sort cmp l) l.
Proof.
  induction l as [|x l IH]; simpl; auto.
  rewrite insertSorted_perm. auto.
Qed.

Lemma forallb_perm {A} (f : A -> bool) l l' :
  Permutation l l' -> forallb f l = forallb f l'.
Proof.
  induction 1; simpl; try congruence.
  destruct (f x), (f y); reflexivity.
Qed.

(** ** The two readers of the query server as functions of the directory *)

Lemma readTextFilesFromDir_spec host dir w :
  exists w',
    McpServer.readTextFilesFromDir host dir w
    = (Returned (listText (dirState dir w)), w')
    /\ sameFiles w w'.
Proof.
  unfold McpServer.readTextFilesFromDir, tryCatch.
  unfold bind at 1. unfold readdir.
  destruct (dirState dir w) as [|err|entries] eqn:Hd.
  - eexists. split; [reflexivity|]. repeat split.
  - eexists. split; [reflexivity|]. repeat split.
  - set (names := McpServer.sort McpServer.byTimestamp
                    (filter (fun file => JS.endsWith file ".txt") (map fst entries))).
    assert (Hd1 : dirState dir (record (EvReaddir dir) w) = Present entries).
    { rewrite (sameFiles_dirState dir w); auto using sameFiles_record. }
    destruct (promiseAll_reads host dir entries names _ Hd1) as (Hs & Hok & Hko).
    cbv zeta in Hs, Hok, Hko.
    unfold bind at 1.
    assert (Hperm : forallb (readableb entries) names
                    = forallb (readableb entries) (textNames entries)).
    { apply forallb_perm. apply sort_perm. }
    unfold listText. rewrite <- Hperm.
    destruct (forallb (readableb entries) names) eqn:Hall.
    + specialize (Hok eq_refl).
      destruct (promiseAll _ _) as [o w2]. simpl in Hok, Hs. subst o.
      eexists. split; [reflexivity|].
      eapply sameFiles_trans; [apply (sameFiles_record (EvReaddir dir))| exact Hs].
    + destruct (Hko eq_refl) as [e He].
      destruct (promiseAll _ _) as [o w2]. simpl in He, Hs. subst o.
      eexists. split; [reflexivity|].
      eapply sameFiles_trans; [apply (sameFiles_record (EvReaddir dir))|].
      eapply sameFiles_trans; [exact Hs|]. repeat split.
Qed.

Lemma getCorrespondingImage_spec host textFilename w :
  exists w',
    McpServer.getCorrespondingImage host textFilename w
    = (Returned (findImage host (images w) textFilename), w')
    /\ sameFiles w w'.
Proof.
  unfold McpServer.getCorrespondingImage, tryCatch, findImage.
  unfold bind at 1. unfold readdir. simpl dirState.
  destruct (images w) as [|err|entries] eqn:Hd.
  - eexists. split; [reflexivity|]. repeat split.
  - eexists. split; [reflexivity|]. repeat split.
  - destruct (find _ (map fst entries)) as [imageFile|].
    + destruct (imageFile =? "") eqn:Hempty.
      * eexists. split; [reflexivity|]. repeat split.
      * unfold bind, readFile. simpl dirState. cbn [images record].
        rewrite Hd.
        destruct (lookupFile imageFile entries) as [[bytes|err]|];
          eexists; (split; [reflexivity|]); repeat split.
    + eexists. split; [reflexivity|]. repeat split.
Qed.

Lemma buildFullContext_spec host w :
  exists w',
    McpServer.buildFullContext host w
    = (Returned (McpServer.renderContext (listText (transcripts w))
                                         (listText (images w))), w')
    /\ sameFiles w w'.
Proof.
  unfold McpServer.buildFullContext.
  destruct (readTextFilesFromDir_spec host TRANSCRIPTS_DIR w) as (w1 & E1 & S1).
  destruct (readTextFilesFromDir_spec host IMAGES_DIR w1) as (w2 & E2 & S2).
  rewrite (bind_Returned _ _ _ _ _ E1), (bind_Returned _ _ _ _ _ E2).
  simpl dirState in *. destruct S1 as (Ht & Hi & Hc).
  rewrite Hi. eexists. split; [reflexivity|].
  eapply sameFiles_trans; [|exact S2]. repeat split; auto.
Qed.

(** ** C3: listing never raises *)




Lemma readTextFilesFromDir_run host dir w :
  McpServer.readTextFilesFromDir host dir w =
  let failed := fun (cause : string) =>
    bind (McpServer.logError
            ("Error reading from " ++ dirPath host dir ++ ": " ++ cause))
         (fun _ => ret []) in
  match dirState dir w with
  | Missing => failed (ENOENT "scandir" (dirPath host dir)) (record (EvReaddir dir) w)
  | Broken err => failed err (record (EvReaddir dir) w)
  | Present entries =>
      match promiseAll
              (map (fun filename =>
                      bind (readTextFile host dir filename)
                           (fun content => ret (McpServer.mkTextFile filename content)))
                   (McpServer.sort McpServer.byTimestamp (textNames entries)))
              (record (EvReaddir dir) w) with
      | (Returned l, w2) => (Returned l, w2)
      | (Thrown e, w2) => failed e w2
      end
  end.
Proof.
  unfold McpServer.readTextFilesFromDir, tryCatch.
  unfold bind at 1. unfold readdir.
  destruct (dirState dir w) as [|err|entries]; try reflexivity.
  unfold bind at 1. unfold textNames.
  destruct (promiseAll _ _) as [[l|e] w2]; reflexivity.
Qed.







(** ** The query pipeline *)

Lemma addImageIfRelevant_spec host responseContent citedTimestamp w :
  exists w',
    McpServer.addImageIfRelevant host responseContent citedTimestamp w
    = (Returned (responseContent ++ resolve host (images w) citedTimestamp)%list, w')
    /\ sameFiles w w'.
Proof.
  unfold McpServer.addImageIfRelevant, resolve.
  destruct citedTimestamp as [t|].
  - destruct (t =? "").
    + exists w. rewrite app_nil_r. split; [reflexivity | apply sameFiles_refl].
    + destruct (getCorrespondingImage_spec host (t ++ ".txt") w) as (w' & E & S).
      rewrite (bind_Returned _ _ _ _ _ E).
      destruct (findImage host (images w) (t ++ ".txt")) as [image|].
      * exists w'. split; [reflexivity | exact S].
      * exists w'. rewrite app_nil_r. split; [reflexivity | exact S].
  - exists w. rewrite app_nil_r. split; [reflexivity | apply sameFiles_refl].
Qed.

Lemma buildResponse_spec host answerText citedTimestamp w :
  exists w',
    McpServer.buildResponse host answerText citedTimestamp w
    = (Returned (McpServer.mkToolResult
                   (resolve host (images w) citedTimestamp
                      ++ [McpServer.TextContent answerText])%list), w')
    /\ sameFiles w w'.
Proof.
  unfold McpServer.buildResponse.
  destruct (addImageIfRelevant_spec host [] citedTimestamp w) as (w' & E & S).
  rewrite (bind_Returned _ _ _ _ _ E). exists w'. split; [reflexivity | exact S].
Qed.

Lemma resolve_shape host st citedTimestamp :
  resolve host st citedTimestamp = []
  \/ exists data mimeType alt,
       resolve host st citedTimestamp = [McpServer.ImageContent data mimeType alt].
Proof.
  unfold resolve. destruct citedTimestamp as [t|]; auto.
  destruct (t =? ""); auto.
  destruct (findImage host st (t ++ ".txt")); eauto.
Qed.

Lemma processResponse_spec data w :
  exists w',
    McpServer.processResponse data w = (Returned (parseResult data), w')
    /\ sameFiles w w' /\ trace w' = trace w.
Proof.
  unfold McpServer.processResponse, parseResult.
  destruct (McpServer.firstBlockText data) as [text|].
  - destruct (JS.regexExec text) as [[[before group1] after]|];
      eexists; (split; [reflexivity|]); repeat split.
  - eexists. split; [reflexivity|]. repeat split.
Qed.

Lemma askAnthropicWithContext_ok host q ctx w resp data :
  keyMissing host = false ->
  remote host (McpServer.createRequestBody host (McpServer.constructPrompt q ctx))
  = Fetched resp ->
  respOk resp = true ->
  respJson resp = Some data ->
  exists w',
    McpServer.askAnthropicWithContext host q ctx w = (Returned (parseResult data), w')
    /\ sameFiles w w'.
Proof.
  intros Hkey Hremote Hok Hjson.
  unfold McpServer.askAnthropicWithContext. rewrite Hkey.
  destruct (logSection_run "PROMPT SENT TO CLAUDE"
              (McpServer.constructPrompt q ctx) w) as (w1 & E1 & S1 & _).
  rewrite (bind_Returned _ _ _ _ _ E1).
  unfold bind at 1. unfold fetch. rewrite Hremote, Hok. cbn [negb].
  unfold bind at 1. unfold json. rewrite Hjson. unfold ret at 1.
  destruct (processResponse_spec data (record EvFetch w1)) as (w2 & E2 & S2 & _).
  exists w2. split; [exact E2|].
  eapply sameFiles_trans; [exact S1|].
  eapply sameFiles_trans; [apply sameFiles_record | exact S2].
Qed.

(** ** C8: the shape of a response *)

(** C8.  Whenever a query succeeds, its response is exactly one text part,
    preceded by at most one image part; the text part is the parsed answer
    of the reasoning step and is there whatever the answer is, the empty
    string included. *)
Theorem C8_response_shape host question w r w' :
  McpServer.answerFromContext host question w = (Returned r, w') ->
  exists q ctx w1 w2 result,
    McpServer.askAnthropicWithContext host q ctx w1 = (Returned result, w2)
    /\ (McpServer.resultContent r
        = [McpServer.TextContent (McpServer.answer result)]
        \/ exists data mimeType alt,
             McpServer.resultContent r
             = [McpServer.ImageContent data mimeType alt;
                McpServer.TextContent (McpServer.answer result)]).
Proof.
  unfold McpServer.answerFromContext.
  destruct question as [[| b | n | q | items | fields]|]; try discriminate.
  destruct (negb (truthy (Some (JStr q))) || negb (isString (Some (JStr q))));
    [discriminate|].
  intros H.
  apply bind_inv in H. destruct H as (ctx & w1 & _ & H).
  apply bind_inv in H. destruct H as (result & w2 & Hask & H).
  destruct (buildResponse_spec host (McpServer.answer result)
              (McpServer.relevantImageTimestamp result) w2) as (w3 & E & _).
  rewrite E in H. injection H as <- _.
  exists q, ctx, w1, w2, result. split; [exact Hask|].
  cbn [McpServer.resultContent].
  destruct (resolve_shape host (images w2) (McpServer.relevantImageTimestamp result))
    as [-> | (data & mimeType & alt & ->)]; [left; reflexivity|].
  right. exists data, mimeType, alt. reflexivity.
Qed.

(** A query whose answer is empty and cites a stored image. *)
Lemma C8_witness :
  McpServer.answerFromContext citingHost (Some (JStr "Where are my keys?")) sampleWorld
  = (Returned (McpServer.mkToolResult
                 [McpServer.ImageContent "TWFu" "image/png" "Relevant image for your query";
                  McpServer.TextContent ""]),
     snd (McpServer.answerFromContext citingHost (Some (JStr "Where are my keys?")) sampleWorld))
  /\ exists q ctx w1 w2 result,
       McpServer.askAnthropicWithContext citingHost q ctx w1 = (Returned result, w2)
       /\ ([McpServer.ImageContent "TWFu" "image/png" "Relevant image for your query";
            McpServer.TextContent ""]
           = [McpServer.TextContent (McpServer.answer result)]
           \/ exists data mimeType alt,
                [McpServer.ImageContent "TWFu" "image/png" "Relevant image for your query";
                 McpServer.TextContent ""]
                = [McpServer.ImageContent data mimeType alt;
                   McpServer.TextContent (McpServer.answer result)]).
Proof.
  assert (H : McpServer.answerFromContext citingHost (Some (JStr "Where are my keys?")) sampleWorld
              = (Returned (McpServer.mkToolResult
                 [McpServer.ImageContent "TWFu" "image/png" "Relevant image for your query";
                  McpServer.TextContent ""]),
     snd (McpServer.answerFromContext citingHost (Some (JStr "Where are my keys?")) sampleWorld)))
    by (vm_compute; reflexivity).
  split; [exact H|].
  exact (C8_response_shape _ _ _ _ _ H).
Defined.

(** ** The pattern finds a marker exactly when there is one *)

Lemma prefixCI_inv pat :
  forall s,
  JS.prefixCI pat s = true ->
  exists o rest,
    s = o ++ rest /\ sameIgnoringCase pat o = true
    /\ JS.drop (String.length pat) s = rest.
Proof.
  unfold sameIgnoringCase.
  induction pat as [|p pat IH]; intros s H.
  - exists "", s. repeat split.
  - destruct s as [|c s]; [discriminate|].
    cbn [JS.prefixCI] in H. apply andb_true_iff in H. destruct H as [Hc Hs].
    destruct (IH s Hs) as (o & rest & -> & Ho & Hd).
    apply andb_true_iff in Ho. destruct Ho as [Hlen Hci].
    exists (String c o), rest. split; [reflexivity|]. split; [|exact Hd].
    cbn [String.length JS.prefixCI Nat.eqb]. rewrite Hlen, Hc, Hci. reflexivity.
Qed.

Lemma prefixCI_append pat :
  forall o x,
  sameIgnoringCase pat o = true ->
  JS.prefixCI pat (o ++ x) = true /\ JS.drop (String.length pat) (o ++ x) = x.
Proof.
  unfold sameIgnoringCase.
  induction pat as [|p pat IH]; intros [|c o] x H; try discriminate.
  - split; reflexivity.
  - cbn [String.length Nat.eqb JS.prefixCI] in H.
    apply andb_true_iff in H. destruct H as [Hlen H].
    apply andb_true_iff in H. destruct H as [Hc Hci].
    destruct (IH o x) as [H1 H2]; [rewrite Hlen, Hci; reflexivity|].
    cbn [append JS.prefixCI String.length JS.drop]. rewrite Hc, H1. auto.
Qed.

Lemma prefix_append_mono t s x :
  String.prefix t s = true -> String.prefix t (s ++ x) = true.
Proof.
  rewrite !prefix_spec. intros [r ->]. exists (r ++ x). apply append_assoc.
Qed.

Lemma contains_cons t c s :
  contains t (String c s) = String.prefix t (String c s) || contains t s.
Proof. reflexivity. Qed.

Lemma hasLineTerminator_cons c p x :
  JS.lineTerminatorAt (String c (p ++ x)) = false ->
  hasLineTerminator p = false ->
  hasLineTerminator (String c p) = false.
Proof.
  unfold JS.lineTerminatorAt, hasLineTerminator. intros Hat Hp.
  induction JS.lineTerminators as [|t l IH]; [reflexivity|].
  cbn [existsb] in *.
  apply orb_false_iff in Hat. destruct Hat as [Ht Hl].
  apply orb_false_iff in Hp. destruct Hp as [Hpt Hpl].
  rewrite (IH Hl Hpl), orb_false_r, contains_cons, Hpt, orb_false_r.
  destruct (String.prefix t (String c p)) eqn:E; [|reflexivity].
  apply (prefix_append_mono _ _ x) in E.
  change (String c p ++ x) with (String c (p ++ x)) in E. congruence.
Qed.

Lemma lazyPayload_unfold s :
  JS.lazyPayload s =
  if JS.prefixCI JS.closeTag s then
    Some ("", JS.drop (String.length JS.closeTag) s)
  else
    match s with
    | "" => None
    | String c s' =>
        if JS.lineTerminatorAt s then None
        else match JS.lazyPayload s' with
             | Some (p, r) => Some (String c p, r)
             | None => None
             end
    end.
Proof. destruct s; reflexivity. Qed.

Lemma lazyPayload_sound s :
  forall p r,
  JS.lazyPayload s = Some (p, r) ->
  exists closing,
    s = p ++ closing ++ r
    /\ sameIgnoringCase JS.closeTag closing = true
    /\ hasLineTerminator p = false.
Proof.
  induction s as [|c s IH]; intros p r H; rewrite lazyPayload_unfold in H.
  - destruct (JS.prefixCI JS.closeTag "") eqn:E; discriminate.
  - destruct (JS.prefixCI JS.closeTag (String c s)) eqn:E.
    + destruct (prefixCI_inv _ _ E) as (o & rest & Heq & Ho & Hd).
      rewrite Hd in H. injection H as <- <-.
      exists o. repeat split; assumption.
    + destruct (JS.lineTerminatorAt (String c s)) eqn:Hat; [discriminate|].
      destruct (JS.lazyPayload s) as [[p' r']|] eqn:El; [|discriminate].
      injection H as <- <-.
      destruct (IH p' r' eq_refl) as (closing & -> & Hc & Hp).
      exists closing. split; [reflexivity|]. split; [exact Hc|].
      exact (hasLineTerminator_cons c p' _ Hat Hp).
Qed.

Lemma regexExec_sound text :
  forall before payload after,
  JS.regexExec text = Some (before, payload, after) ->
  exists opening closing,
    text = before ++ opening ++ payload ++ closing ++ after
    /\ sameIgnoringCase JS.openTag opening = true
    /\ sameIgnoringCase JS.closeTag closing = true
    /\ hasLineTerminator payload = false.
Proof.
  assert (Hat : forall s p r, JS.matchAt s = Some (p, r) ->
            exists opening closing,
              s = opening ++ p ++ closing ++ r
              /\ sameIgnoringCase JS.openTag opening = true
              /\ sameIgnoringCase JS.closeTag closing = true
              /\ hasLineTerminator p = false).
  { intros s p r H. unfold JS.matchAt in H.
    destruct (JS.prefixCI JS.openTag s) eqn:E; [|discriminate].
    destruct (prefixCI_inv _ _ E) as (o & rest & -> & Ho & Hd).
    rewrite Hd in H.
    destruct (lazyPayload_sound _ _ _ H) as (closing & -> & Hc & Hp).
    exists o, closing. repeat split; assumption. }
  induction text as [|c text IH]; intros before payload after H;
    cbn [JS.regexExec] in H.
  - destruct (JS.matchAt "") as [[p r]|] eqn:E; [|discriminate].
    injection H as <- <- <-. exact (Hat _ _ _ E).
  - destruct (JS.matchAt (String c text)) as [[p r]|] eqn:E.
    + injection H as <- <- <-. exact (Hat _ _ _ E).
    + destruct (JS.regexExec text) as [[[b p] r]|] eqn:Er; [|discriminate].
      injection H as <- <- <-.
      destruct (IH b p r eq_refl) as (opening & closing & -> & H1 & H2 & H3).
      exists opening, closing. repeat split; assumption.
Qed.

Lemma upperChar_lt c : JS.upperChar c = "<"%char -> c = "<"%char.
Proof.
  destruct c as [[] [] [] [] [] [] [] []]; vm_compute; intros H;
    try reflexivity; discriminate.
Qed.

Lemma closing_first_char closing :
  sameIgnoringCase JS.closeTag closing = true ->
  exists rest, closing = String "<" rest.
Proof.
  unfold sameIgnoringCase. destruct closing as [|c0 rest]; [discriminate|].
  intros H. apply andb_true_iff in H. destruct H as [_ H].
  cbn [JS.closeTag JS.prefixCI] in H. apply andb_true_iff in H. destruct H as [H _].
  apply Ascii.eqb_eq in H. symmetry in H. apply upperChar_lt in H. subst c0. eauto.
Qed.

(** A line terminator cannot begin in the payload and end in the closing
    tag, which begins with [<]. *)
Lemma lineTerminatorAt_payload c p rest after :
  hasLineTerminator (String c p) = false ->
  JS.lineTerminatorAt (String c (p ++ String "<" rest ++ after)) = false.
Proof.
  unfold JS.lineTerminatorAt, hasLineTerminator.
  cbn [JS.lineTerminators existsb]. rewrite !contains_cons, !orb_false_iff.
  intros ((H1 & _) & (H2 & _) & (H3 & _) & (H4 & _) & _).
  revert H1 H2 H3 H4.
  destruct p as [|c2 [|c3 p']]; cbn -[ascii_dec];
    repeat match goal with
           | |- context [ascii_dec ?a ?b] => destruct (ascii_dec a b)
           end;
    intros; repeat split; try reflexivity; try discriminate;
    destruct p'; discriminate.
Qed.

Lemma hasLineTerminator_tail c p :
  hasLineTerminator (String c p) = false -> hasLineTerminator p = false.
Proof.
  unfold hasLineTerminator.
  induction JS.lineTerminators as [|t l IH]; [reflexivity|].
  cbn [existsb]. rewrite contains_cons, !orb_false_iff.
  intros [[_ Ht] Hl]. split; [exact Ht | exact (IH Hl)].
Qed.

Lemma lazyPayload_complete payload :
  forall closing after,
  sameIgnoringCase JS.closeTag closing = true ->
  hasLineTerminator payload = false ->
  JS.lazyPayload (payload ++ closing ++ after) <> None.
Proof.
  induction payload as [|c p IH]; intros closing after Hc Hp;
    rewrite lazyPayload_unfold.
  - destruct (prefixCI_append _ closing after Hc) as [H _].
    cbn [append]. rewrite H. discriminate.
  - destruct (JS.prefixCI JS.closeTag (String c p ++ closing ++ after));
      [discriminate|].
    cbn [append].
    destruct (closing_first_char closing Hc) as [rest Hrest].
    assert (Hat : JS.lineTerminatorAt (String c (p ++ closing ++ after)) = false).
    { rewrite Hrest. apply lineTerminatorAt_payload. exact Hp. }
    rewrite Hat.
    specialize (IH closing after Hc (hasLineTerminator_tail c p Hp)).
    destruct (JS.lazyPayload (p ++ closing ++ after)) as [[p' r]|];
      [discriminate | congruence].
Qed.

Lemma regexExec_complete before :
  forall opening payload closing after,
  sameIgnoringCase JS.openTag opening = true ->
  sameIgnoringCase JS.closeTag closing = true ->
  hasLineTerminator payload = false ->
  JS.regexExec (before ++ opening ++ payload ++ closing ++ after) <> None.
Proof.
  intros opening payload closing after Ho Hc Hp.
  assert (Hat : JS.matchAt (opening ++ payload ++ closing ++ after) <> None).
  { unfold JS.matchAt.
    destruct (prefixCI_append _ opening (payload ++ closing ++ after) Ho) as [H1 H2].
    rewrite H1, H2. apply lazyPayload_complete; assumption. }
  induction before as [|c before IH].
  - cbn [append].
    destruct (opening ++ payload ++ closing ++ after) as [|x s] eqn:E;
      cbn [JS.regexExec];
      destruct (JS.matchAt _) as [[p r]|]; try discriminate; congruence.
  - cbn [append JS.regexExec].
    destruct (JS.matchAt (String c _)) as [[p r]|]; [discriminate|].
    destruct (JS.regexExec (before ++ opening ++ payload ++ closing ++ after))
      as [[[b p] r]|]; [discriminate | congruence].
Qed.

(** The pattern has no match exactly in the texts without a marker. *)
Lemma regexExec_None_iff text :
  JS.regexExec text = None <-> ~ containsMarker text.
Proof.
  split.
  - intros Hnone (before & opening & payload & closing & after & -> & Ho & Hc & Hp).
    exact (regexExec_complete before opening payload closing after Ho Hc Hp Hnone).
  - intros Hno. destruct (JS.regexExec text) as [[[b p] r]|] eqn:E; [|reflexivity].
    exfalso. apply Hno.
    destruct (regexExec_sound text b p r E) as (opening & closing & H).
    exists b, opening, p, closing, r. exact H.
Qed.

(** ** C7: a response without a citation marker *)

(** C7, as amended.  The answer is read from the first content block of
    the response.  When that block is a text that holds no citation marker
    (nowhere an opening tag, a payload on one line and a closing tag), the
    parsed result has a null cited timestamp and the trimmed text as its
    answer, and the response of the query is that text alone, without an
    image part.  When the first block carries no text, or the response
    has no content, the cited timestamp is null as well and the single
    text part is [No answer provided.], whatever later blocks hold. *)
Theorem C7_no_marker host q w resp data :
  q <> "" ->
  keyMissing host = false ->
  remote host (sentRequest host q w) = Fetched resp ->
  respOk resp = true ->
  respJson resp = Some data ->
  (forall text,
     McpServer.firstBlockText data = Some text ->
     ~ containsMarker text ->
     exists w1 w2 w',
       McpServer.askAnthropicWithContext host q (contextOf w) w1
       = (Returned (McpServer.mkQueryResult (JS.trim text) None), w2)
       /\ McpServer.answerFromContext host (Some (JStr q)) w
          = (Returned (McpServer.mkToolResult [McpServer.TextContent (JS.trim text)]), w'))
  /\ (McpServer.firstBlockText data = None ->
      exists w1 w2 w',
        McpServer.askAnthropicWithContext host q (contextOf w) w1
        = (Returned (McpServer.mkQueryResult "No answer provided." None), w2)
        /\ McpServer.answerFromContext host (Some (JStr q)) w
           = (Returned (McpServer.mkToolResult
                          [McpServer.TextContent "No answer provided."]), w')).
Proof.
  intros Hq Hkey Hremote Hok Hjson.
  destruct (buildFullContext_spec host w) as (w1 & E1 & S1).
  destruct (askAnthropicWithContext_ok host q (contextOf w) w1 resp data
              Hkey Hremote Hok Hjson) as (w2 & E2 & S2).
  assert (Hrun : forall r,
            parseResult data = McpServer.mkQueryResult r None ->
            exists w',
              McpServer.answerFromContext host (Some (JStr q)) w
              = (Returned (McpServer.mkToolResult [McpServer.TextContent r]), w')).
  { intros r Hparse.
    destruct (buildResponse_spec host r None w2) as (w3 & E3 & _).
    exists w3. unfold McpServer.answerFromContext.
    assert (Hne : (q =? "") = false) by (apply String.eqb_neq; exact Hq).
    cbn [truthy isString]. rewrite Hne. cbn [negb orb].
    rewrite (bind_Returned _ _ _ _ _ E1).
    fold (contextOf w). rewrite (bind_Returned _ _ _ _ _ E2), Hparse.
    cbn [McpServer.answer McpServer.relevantImageTimestamp].
    exact E3. }
  split.
  - intros text Htext Hnone. apply regexExec_None_iff in Hnone.
    assert (Hparse : parseResult data = McpServer.mkQueryResult (JS.trim text) None).
    { unfold parseResult. rewrite Htext, Hnone. reflexivity. }
    destruct (Hrun _ Hparse) as [w' E]. rewrite Hparse in E2.
    exists w1, w2, w'. split; [exact E2 | exact E].
  - intros Htext.
    assert (Hparse : parseResult data
                     = McpServer.mkQueryResult "No answer provided." None).
    { unfold parseResult. rewrite Htext. reflexivity. }
    destruct (Hrun _ Hparse) as [w' E]. rewrite Hparse in E2.
    exists w1, w2, w'. split; [exact E2 | exact E].
Qed.

(** A response whose only block is a text with white space around it. *)
Lemma C7_witness :
  ("Where are my keys?" <> ""
   /\ keyMissing paddedHost = false
   /\ McpServer.firstBlockText (mkApiData (Some [mkBlock "text" (Some paddedText)]))
      = Some paddedText
   /\ ~ containsMarker paddedText
   /\ JS.trim paddedText = "A cat on a sofa.")
  /\ exists w1 w2 w',
       McpServer.askAnthropicWithContext paddedHost "Where are my keys?"
         (contextOf sampleWorld) w1
       = (Returned (McpServer.mkQueryResult "A cat on a sofa." None), w2)
       /\ McpServer.answerFromContext paddedHost (Some (JStr "Where are my keys?")) sampleWorld
          = (Returned (McpServer.mkToolResult
                         [McpServer.TextContent "A cat on a sofa."]), w').
Proof.
  assert (Hq : "Where are my keys?" <> "") by discriminate.
  assert (Hno : ~ containsMarker paddedText)
    by (apply regexExec_None_iff; reflexivity).
  split.
  - split; [exact Hq|]. split; [reflexivity|]. split; [reflexivity|].
    split; [exact Hno | reflexivity].
  - destruct (C7_no_marker paddedHost "Where are my keys?" sampleWorld _ _
                Hq eq_refl eq_refl eq_refl eq_refl) as [Htext _].
    exact (Htext paddedText eq_refl Hno).
Defined.

(** C7, as stated, fails when the text of the response is not in its first
    content block.  A response made of a block that is not a text and of
    the text [A cat on a sofa.] holds no marker, and the text part of the
    query is [No answer provided.], not the text of the model.  A response
    made of the two texts [On the desk.] and [Beside the lamp.] holds no
    marker either, and the text part is the first text alone. *)
Lemma C7_counterexample :
  (remote toolUseHost (sentRequest toolUseHost "Where are my keys?" sampleWorld)
   = Fetched (mkResponse true 200 ""
                (Some (mkApiData (Some [mkBlock "tool_use" None;
                                         mkBlock "text" (Some "A cat on a sofa.")])))
                "")
   /\ ~ containsMarker "A cat on a sofa."
   /\ fst (McpServer.answerFromContext toolUseHost (Some (JStr "Where are my keys?"))
             sampleWorld)
      = Returned (McpServer.mkToolResult [McpServer.TextContent "No answer provided."])
   /\ "No answer provided." <> JS.trim "A cat on a sofa.")
  /\ (remote twoTextsHost (sentRequest twoTextsHost "Where are my keys?" sampleWorld)
      = Fetched (mkResponse true 200 ""
                   (Some (mkApiData (Some [mkBlock "text" (Some "On the desk.");
                                            mkBlock "text" (Some "Beside the lamp.")])))
                   "")
      /\ ~ containsMarker "On the desk."
      /\ ~ containsMarker "Beside the lamp."
      /\ fst (McpServer.answerFromContext twoTextsHost (Some (JStr "Where are my keys?"))
                sampleWorld)
         = Returned (McpServer.mkToolResult [McpServer.TextContent "On the desk."])).
Proof.
  split.
  - split; [reflexivity|].
    split; [apply regexExec_None_iff; reflexivity|].
    split; [vm_compute; reflexivity | discriminate].
  - split; [reflexivity|].
    split; [apply regexExec_None_iff; reflexivity|].
    split; [apply regexExec_None_iff; reflexivity|].
    vm_compute; reflexivity.
Qed.

(** ** Names without slashes or dots *)

Lemma allChars_append p a b :
  JS.allChars p (a ++ b) = JS.allChars p a && JS.allChars p b.
Proof. induction a as [|c a IH]; simpl; [reflexivity|]. rewrite IH, andb_assoc. reflexivity. Qed.

Lemma allChars_weaken (p q : ascii -> bool) s :
  (forall c, p c = true -> q c = true) ->
  JS.allChars p s = true -> JS.allChars q s = true.
Proof.
  intros Hpq. induction s as [|c s IH]; simpl; auto.
  rewrite !andb_true_iff. intros [Hc Hs]. auto.
Qed.

Lemma timestampChar_not x :
  timestampChar x = false -> forall c', timestampChar c' = true -> negb (Ascii.eqb c' x) = true.
Proof.
  intros Hx c' Hc'. destruct (Ascii.eqb_spec c' x) as [->|]; [congruence | reflexivity].
Qed.

Lemma timestampChars_noChar x s :
  timestampChar x = false ->
  JS.allChars timestampChar s = true -> noChar x s = true.
Proof.
  intros Hx. apply allChars_weaken. intros c. apply (timestampChar_not x Hx).
Qed.


Lemma matchesTemplate_chars tpl s :
  JS.allChars (fun p => Ascii.eqb p "d" || timestampChar p) tpl = true ->
  matchesTemplate tpl s = true -> JS.allChars timestampChar s = true.
Proof.
  revert s; induction tpl as [|p tpl IH]; intros [|c s]; simpl; try discriminate; auto.
  rewrite !andb_true_iff. intros [Hp Htpl] [Hc Hs]. split; [|auto].
  destruct (Ascii.eqb p "d").
  - unfold timestampChar. rewrite Hc. reflexivity.
  - simpl in Hp. apply Ascii.eqb_eq in Hc. subst c. exact Hp.
Qed.


Lemma validTimestamp_chars t :
  validTimestamp t = true -> JS.allChars timestampChar t = true.
Proof. apply matchesTemplate_chars. reflexivity. Qed.

Lemma validTimestamp_nonempty t : validTimestamp t = true -> t <> "".
Proof. intros H ->. discriminate. Qed.

Lemma split_noChar sep s : noChar sep s = true -> JS.split sep s = [s].
Proof.
  unfold noChar. induction s as [|c s IH]; simpl; auto.
  rewrite andb_true_iff. intros [Hc Hs].
  apply negb_true_iff in Hc. rewrite Hc, (IH Hs). reflexivity.
Qed.

Lemma lastSegment_noSlash s :
  noChar "/" s = true -> s <> "" -> JS.lastSegment s = s.
Proof.
  intros Hs Hne. unfold JS.lastSegment. rewrite (split_noChar _ _ Hs). simpl.
  apply String.eqb_neq in Hne. rewrite Hne. reflexivity.
Qed.

Lemma append_neq_suffix c p suf : String c (p ++ suf) <> suf.
Proof.
  intros H. apply (f_equal String.length) in H. simpl in H.
  rewrite length_append in H. lia.
Qed.

Lemma stripSuffix_append p suf : JS.stripSuffix suf (p ++ suf) = Some p.
Proof.
  induction p as [|c p IH].
  - simpl. destruct suf; simpl; rewrite ?String.eqb_refl, ?Ascii.eqb_refl; reflexivity.
  - cbn [append JS.stripSuffix].
    pose proof (append_neq_suffix c p suf) as Hne.
    apply String.eqb_neq in Hne. rewrite Hne, IH. reflexivity.
Qed.

Lemma noChar_append c a b : noChar c (a ++ b) = noChar c a && noChar c b.
Proof. apply allChars_append. Qed.

Lemma append_nonempty a b : a <> "" -> a ++ b <> "".
Proof. destruct a; [congruence | discriminate]. Qed.

Lemma basename_txt t :
  noChar "/" t = true -> t <> "" -> JS.basename (t ++ ".txt") ".txt" = t.
Proof.
  intros Hs Hne. unfold JS.basename.
  assert (H1 : (t ++ ".txt" =? ".txt") = false).
  { apply String.eqb_neq. destruct t as [|c t]; [congruence|].
    apply append_neq_suffix. }
  rewrite H1, lastSegment_noSlash.
  - rewrite stripSuffix_append. apply String.eqb_neq in Hne. rewrite Hne. reflexivity.
  - rewrite noChar_append, Hs. reflexivity.
  - apply append_nonempty. exact Hne.
Qed.

Lemma splitLast_append c p e :
  noChar c e = true -> JS.splitLast c (p ++ String c e) = Some (p, e).
Proof.
  intros He.
  assert (Hnone : JS.splitLast c e = None).
  { revert He. unfold noChar. induction e as [|x e IH]; simpl; auto.
    rewrite andb_true_iff. intros [Hx Hs]. rewrite (IH Hs).
    apply negb_true_iff in Hx. rewrite Hx. reflexivity. }
  induction p as [|x p IH]; simpl.
  - rewrite Hnone, Ascii.eqb_refl. reflexivity.
  - rewrite IH. reflexivity.
Qed.

Lemma extname_simple t e :
  noChar "/" t = true -> noChar "." t = true -> t <> "" ->
  noChar "/" e = true -> noChar "." e = true ->
  JS.extname (t ++ "." ++ e) = "." ++ e.
Proof.
  intros Hts Htd Hne Hes Hed. unfold JS.extname.
  rewrite lastSegment_noSlash.
  - change (t ++ "." ++ e) with (t ++ String "." e).
    rewrite (splitLast_append _ _ _ Hed).
    apply String.eqb_neq in Hne. rewrite Hne. simpl orb.
    destruct t as [|c t]; [discriminate|].
    unfold noChar in Htd. simpl in Htd. apply andb_true_iff in Htd.
    destruct Htd as [Hc _]. apply negb_true_iff in Hc.
    simpl. rewrite Hc. reflexivity.
  - rewrite noChar_append, Hts. simpl. exact Hes.
  - apply append_nonempty. congruence.
Qed.

Lemma endsWith_txt_ext t e :
  noChar "." e = true ->
  JS.endsWith (t ++ "." ++ e) ".txt" = true -> e = "txt".
Proof.
  intros He H. apply endsWith_spec in H. destruct H as [p Hp].
  pose proof (splitLast_append "." t e He) as H1.
  assert (H2 : JS.splitLast "." (p ++ String "." "txt") = Some (p, "txt"))
    by (apply splitLast_append; reflexivity).
  change (t ++ "." ++ e) with (t ++ String "." e) in Hp.
  change (p ++ ".txt") with (p ++ String "." "txt") in Hp.
  rewrite Hp in H1. congruence.
Qed.


(** ** Finding the image of a timestamp *)



Lemma lookupFile_In name node (d : Dir) :
  NoDup (map fst d) -> In (name, node) d -> lookupFile name d = Some node.
Proof.
  induction d as [|[n f] d IH]; simpl; [tauto|].
  intros Hnd Hin. inversion Hnd as [|? ? Hnotin Hnd']; subst.
  destruct Hin as [Heq | Hin].
  - injection Heq as -> ->. rewrite String.eqb_refl. reflexivity.
  - destruct (String.eqb_spec n name) as [->|Hne].
    + exfalso. apply Hnotin. apply (in_map fst) in Hin. exact Hin.
    + apply IH; auto.
Qed.

Lemma toLowerCase_dot e : JS.toLowerCase ("." ++ e) = "." ++ JS.toLowerCase e.
Proof. reflexivity. Qed.

Lemma validTimestamp_plain t :
  validTimestamp t = true ->
  noChar "/" t = true /\ noChar "." t = true /\ t <> "".
Proof.
  intros H. pose proof (validTimestamp_chars t H) as Hc.
  split; [apply timestampChars_noChar; [reflexivity | exact Hc]|].
  split; [apply timestampChars_noChar; [reflexivity | exact Hc]|].
  apply validTimestamp_nonempty. exact H.
Qed.


(** ** C2: the lookup matches by prefix *)

(** C2, at a failing input.  The claim says that an entry whose name only
    begins with the timestamp, its base name being another, is never
    returned, and that absence is reported when no entry has the timestamp
    as its base name.  The code tests [file.startsWith(baseName)]: in a
    directory whose only entry is [2025-05-17-02-40-24-edited.png] the
    lookup of [2025-05-17-02-40-24] returns that entry. *)
Theorem C2_prefix_match_returns_other_base_name :
  fst (McpServer.getCorrespondingImage sampleHost "2025-05-17-02-40-24.txt" strayWorld)
  = Returned (Some (McpServer.mkImageFile
                      "/srv/web-server/images/2025-05-17-02-40-24-edited.png"
                      "TWFu" "image/png"))
  /\ JS.basename "2025-05-17-02-40-24-edited.png"
                 (JS.extname "2025-05-17-02-40-24-edited.png")
     = "2025-05-17-02-40-24-edited"
  /\ "2025-05-17-02-40-24-edited" <> "2025-05-17-02-40-24".
Proof. split; [reflexivity|]. split; [reflexivity | discriminate]. Qed.

(** ** C5: resolving a cited timestamp *)







(** ** Writing files *)

Lemma getProp_fieldOf body k :
  body <> JNull -> getProp body k = ret (fieldOf body k).
Proof. destruct body; try reflexivity. congruence. Qed.

Lemma lookupFile_storeFile_same name content d :
  lookupFile name (storeFile name content d) = Some (Regular content).
Proof.
  induction d as [|[n f] d IH]; simpl.
  - rewrite String.eqb_refl. reflexivity.
  - destruct (n =? name) eqn:E; simpl; rewrite E; auto.
Qed.

Lemma lookupFile_storeFile_other name content d other :
  other <> name ->
  lookupFile other (storeFile name content d) = lookupFile other d.
Proof.
  intros Hne. induction d as [|[n f] d IH]; simpl.
  - apply not_eq_sym in Hne. apply String.eqb_neq in Hne. rewrite Hne. reflexivity.
  - destruct (n =? name) eqn:E; simpl.
    + apply String.eqb_eq in E. subst n.
      apply not_eq_sym in Hne. apply String.eqb_neq in Hne. rewrite Hne. reflexivity.
    + rewrite IH. reflexivity.
Qed.

Lemma ensureDir_run d w :
  (forall err, dirState d w <> Broken err) ->
  exists w',
    WebServer.ensureDir d w = (Returned tt, w')
    /\ dirState d w' = Present (entriesOf (dirState d w))
    /\ (forall d', d' <> d -> dirState d' w' = dirState d' w)
    /\ clock w' = clock w.
Proof.
  intros Hb. unfold WebServer.ensureDir, mkdirRecursive.
  destruct (dirState d w) as [|err|entries] eqn:E.
  - eexists. split; [reflexivity|].
    split; [destruct d; reflexivity|].
    split; [intros d' H; destruct d, d'; simpl; congruence | destruct d; reflexivity].
  - exfalso. eapply Hb. reflexivity.
  - eexists. split; [reflexivity|].
    split; [destruct d; simpl in *; exact E|].
    split; [intros d' H; destruct d, d'; simpl; congruence | reflexivity].
Qed.

Lemma writeFile_run host d name content w entries :
  dirState d w = Present entries ->
  (forall err, lookupFile name entries <> Some (Faulty err)) ->
  exists w',
    writeFile host d name content w = (Returned tt, w')
    /\ dirState d w' = Present (storeFile name content entries)
    /\ (forall d', d' <> d -> dirState d' w' = dirState d' w)
    /\ clock w' = clock w.
Proof.
  intros Hd Hok. unfold writeFile. rewrite Hd.
  assert (Hgoal : exists w',
    (Returned tt,
     setDirState d (Present (storeFile name content entries))
                 (record (EvWriteFile d name) w)) = (Returned tt, w')
    /\ dirState d w' = Present (storeFile name content entries)
    /\ (forall d', d' <> d -> dirState d' w' = dirState d' w)
    /\ clock w' = clock w).
  { eexists. split; [reflexivity|].
    split; [destruct d; reflexivity|].
    split; [intros d' H; destruct d, d'; simpl; congruence | destruct d; reflexivity]. }
  destruct (lookupFile name entries) as [[c|err]|] eqn:El;
    [exact Hgoal | exfalso; eapply Hok; reflexivity | exact Hgoal].
Qed.

Lemma writable_inv st name :
  writable st name ->
  (forall err, st <> Broken err)
  /\ (forall err, lookupFile name (entriesOf st) <> Some (Faulty err)).
Proof.
  destruct st as [|err|entries]; simpl; intros H.
  - split; intros; discriminate.
  - contradiction.
  - split; [intros; discriminate | exact H].
Qed.

Lemma timestampName_run host w :
  WebServer.timestampName host w
  = (Returned (WebServer.formatTimestamp host (clock w)), w).
Proof. reflexivity. Qed.

(** ** C4: what the ingestion server accepts as a transcript *)

(** C4, as amended.  The server accepts a transcript whenever the field
    is a string, whatever the string: when the directory can be written,
    the reply is 200 with the saved path and the text is written as it is
    to the file named by the timestamp.  A body that is JSON and not
    [null], with neither a string transcript nor a string image, is
    answered 400 with an error payload naming the two fields.  A body
    that is not JSON, or is [null], is answered 500 with the message of
    the error.  In the last three cases the world is left as it was. *)
Theorem C4_transcript_accepted_as_is host w :
  (forall body text,
     fieldOf body "transcript" = Some (JStr text) ->
     let name := (WebServer.formatTimestamp host (clock w) ++ ".txt")%string in
     writable (transcripts w) name ->
     exists w',
       WebServer.handleMediaRequest host (WebServer.JsonBody body) w
       = (Returned (WebServer.mkReply 200
                      (JObj [("saved", JStr ("transcripts/" ++ name))])), w')
       /\ transcripts w'
          = Present (storeFile name (utf8Encode text) (entriesOf (transcripts w)))
       /\ images w' = images w)
  /\ (forall body,
        body <> JNull ->
        isString (fieldOf body "transcript") = false ->
        isString (fieldOf body "image") = false ->
        WebServer.handleMediaRequest host (WebServer.JsonBody body) w
        = (Returned (WebServer.mkReply 400
                       (JObj [("error", JStr WebServer.missingFieldMessage)])), w))
  /\ (forall message,
        WebServer.handleMediaRequest host (WebServer.InvalidJson message) w
        = (Returned (WebServer.mkReply 500 (JObj [("error", JStr message)])), w))
  /\ WebServer.handleMediaRequest host (WebServer.JsonBody JNull) w
     = (Returned (WebServer.mkReply 500
                    (JObj [("error",
                            JStr "Cannot read properties of null (reading 'transcript')")])),
        w).
Proof.
  split; [|split; [|split]].
  - intros body text Hfield name Hw.
    assert (Hnull : body <> JNull) by (intros ->; discriminate).
    destruct (writable_inv _ _ Hw) as (Hb & Hf).
    destruct (ensureDir_run TRANSCRIPTS_DIR w Hb) as (w1 & E1 & D1 & O1 & C1).
    destruct (writeFile_run host TRANSCRIPTS_DIR name (utf8Encode text) w1 _ D1 Hf)
      as (w2 & E2 & D2 & O2 & C2).
    exists w2. split; [|split].
    + unfold WebServer.handleMediaRequest, tryCatch, WebServer.consumeJSON.
      unfold bind at 1. unfold ret at 1.
      rewrite (getProp_fieldOf body "transcript" Hnull), Hfield.
      unfold bind at 1. unfold ret at 1. cbn [isString].
      unfold WebServer.handleTranscriptUpload.
      rewrite (bind_Returned _ _ _ _ _ E1).
      rewrite (bind_Returned _ _ _ _ _ (timestampName_run host w1)).
      rewrite (getProp_fieldOf body "transcript" Hnull), Hfield.
      unfold bind at 1. unfold ret at 1. rewrite C1. fold name.
      rewrite (bind_Returned _ _ _ _ _ E2). reflexivity.
    + exact D2.
    + change (dirState IMAGES_DIR w2 = dirState IMAGES_DIR w).
      rewrite (O2 IMAGES_DIR), (O1 IMAGES_DIR); [reflexivity | discriminate | discriminate].
  - intros body Hnull Ht Hi.
    unfold WebServer.handleMediaRequest, tryCatch, WebServer.consumeJSON.
    unfold bind at 1. unfold ret at 1.
    rewrite (getProp_fieldOf body "transcript" Hnull).
    unfold bind at 1. unfold ret at 1. rewrite Ht.
    rewrite (getProp_fieldOf body "image" Hnull).
    unfold bind at 1. unfold ret at 1. rewrite Hi. reflexivity.
  - intros message. reflexivity.
  - reflexivity.
Qed.

(** A transcript of three spaces, a body without the two fields, a body
    that is not JSON and the body [null]. *)
Lemma C4_witness :
  (exists w',
     WebServer.handleMediaRequest sampleHost
       (WebServer.JsonBody (JObj [("transcript", JStr "   ")])) emptyWorld
     = (Returned (WebServer.mkReply 200
                    (JObj [("saved", JStr "transcripts/2025-05-17-02-40-24.txt")])), w')
     /\ transcripts w' = Present [("2025-05-17-02-40-24.txt", Regular "   ")]
     /\ images w' = Missing)
  /\ WebServer.handleMediaRequest sampleHost
       (WebServer.JsonBody (JObj [("transcript", JNum 5); ("note", JStr "hello")]))
       emptyWorld
     = (Returned (WebServer.mkReply 400
                    (JObj [("error", JStr WebServer.missingFieldMessage)])), emptyWorld)
  /\ WebServer.handleMediaRequest sampleHost
       (WebServer.InvalidJson "Unexpected end of JSON input") emptyWorld
     = (Returned (WebServer.mkReply 500
                    (JObj [("error", JStr "Unexpected end of JSON input")])), emptyWorld)
  /\ WebServer.handleMediaRequest sampleHost (WebServer.JsonBody JNull) emptyWorld
     = (Returned (WebServer.mkReply 500
                    (JObj [("error",
                            JStr "Cannot read properties of null (reading 'transcript')")])),
        emptyWorld).
Proof.
  destruct (C4_transcript_accepted_as_is sampleHost emptyWorld)
    as (Hacc & Hnone & Hbad & Hnull).
  split; [exact (Hacc (JObj [("transcript", JStr "   ")]) "   " eq_refl I)|].
  split; [apply Hnone; [discriminate | reflexivity | reflexivity]|].
  split; [apply Hbad | exact Hnull].
Defined.

(** C4, as stated, fails: a transcript of three spaces, empty after
    trimming, is answered 200 and written to a file. *)
Lemma C4_counterexample :
  JS.trim "   " = ""
  /\ fst (WebServer.handleMediaRequest sampleHost
            (WebServer.JsonBody (JObj [("transcript", JStr "   ")])) emptyWorld)
     = Returned (WebServer.mkReply 200
                   (JObj [("saved", JStr "transcripts/2025-05-17-02-40-24.txt")]))
  /\ transcripts
       (snd (WebServer.handleMediaRequest sampleHost
               (WebServer.JsonBody (JObj [("transcript", JStr "   ")])) emptyWorld))
     = Present [("2025-05-17-02-40-24.txt", Regular "   ")].
Proof. repeat split. Qed.

(** ** Base64 round trip *)

Lemma byteVal_bounds c : (0 <= Base64.byteVal c < 256)%Z.
Proof.
  unfold Base64.byteVal. pose proof (N_ascii_bounded c). lia.
Qed.

Lemma byteOf_byteVal c : Base64.byteOf (Base64.byteVal c) = c.
Proof.
  unfold Base64.byteOf, Base64.byteVal. rewrite N2Z.id. apply ascii_N_embedding.
Qed.

Lemma sextet_round_trip n :
  (0 <= n < 64)%Z ->
  Base64.sextetOf (Base64.sextetChar n) = Some n
  /\ Ascii.eqb (Base64.sextetChar n) "=" = false.
Proof.
  intros Hn.
  assert (H : forallb
                (fun k =>
                   match Base64.sextetOf (Base64.sextetChar (Z.of_nat k)) with
                   | Some m => (m =? Z.of_nat k)%Z
                               && negb (Ascii.eqb (Base64.sextetChar (Z.of_nat k)) "=")
                   | None => false
                   end) (seq 0 64) = true) by (vm_compute; reflexivity).
  rewrite forallb_forall in H. specialize (H (Z.to_nat n)).
  rewrite Z2Nat.id in H by lia.
  assert (Hin : In (Z.to_nat n) (seq 0 64)) by (apply in_seq; lia).
  specialize (H Hin).
  destruct (Base64.sextetOf (Base64.sextetChar n)) as [m|]; [|discriminate].
  apply andb_true_iff in H. destruct H as [Hm Hne].
  apply Z.eqb_eq in Hm. apply negb_true_iff in Hne. subst m. auto.
Qed.

Lemma sextets_cons n s :
  (0 <= n < 64)%Z ->
  Base64.sextets (String (Base64.sextetChar n) s) = n :: Base64.sextets s.
Proof.
  intros Hn. destruct (sextet_round_trip n Hn) as [H1 H2].
  cbn [Base64.sextets]. rewrite H2, H1. reflexivity.
Qed.

Lemma b64_first_pad x :
  (0 <= x < 256 -> x / 4 * 4 + x mod 4 * 16 / 16 = x)%Z.
Proof. intros. Z.to_euclidean_division_equations. lia. Qed.

Lemma b64_first x y :
  (0 <= x < 256 -> 0 <= y < 256 ->
   x / 4 * 4 + (x mod 4 * 16 + y / 16) / 16 = x)%Z.
Proof. intros. Z.to_euclidean_division_equations. lia. Qed.

Lemma b64_second_pad x y :
  (0 <= x < 256 -> 0 <= y < 256 ->
   (x mod 4 * 16 + y / 16) mod 16 * 16 + y mod 16 * 4 / 4 = y)%Z.
Proof. intros. Z.to_euclidean_division_equations. lia. Qed.

Lemma b64_second x y z :
  (0 <= x < 256 -> 0 <= y < 256 -> 0 <= z < 256 ->
   (x mod 4 * 16 + y / 16) mod 16 * 16 + (y mod 16 * 4 + z / 64) / 4 = y)%Z.
Proof. intros. Z.to_euclidean_division_equations. lia. Qed.

Lemma b64_third y z :
  (0 <= y < 256 -> 0 <= z < 256 ->
   (y mod 16 * 4 + z / 64) mod 4 * 64 + z mod 64 = z)%Z.
Proof. intros. Z.to_euclidean_division_equations. lia. Qed.

Lemma b64_ranges x y :
  (0 <= x < 256 -> 0 <= y < 256 ->
   0 <= x / 4 < 64 /\ 0 <= x mod 4 * 16 < 64
   /\ 0 <= x mod 4 * 16 + y / 16 < 64
   /\ 0 <= x mod 16 * 4 < 64 /\ 0 <= x mod 16 * 4 + y / 64 < 64
   /\ 0 <= x mod 64 < 64)%Z.
Proof. intros. Z.to_euclidean_division_equations. lia. Qed.

Lemma base64_round_trip_bounded n :
  forall bs, (String.length bs < n)%nat -> Base64.decode (Base64.encode bs) = bs.
Proof.
  unfold Base64.decode.
  induction n as [|n IH]; intros bs Hlen; [lia|].
  destruct bs as [|a [|b [|c rest]]].
  - reflexivity.
  - cbn [Base64.encode].
    pose proof (byteVal_bounds a) as Ha.
    destruct (b64_ranges _ _ Ha Ha) as (R1 & R2 & _).
    rewrite (sextets_cons _ _ R1), (sextets_cons _ _ R2).
    cbn [Base64.sextets Ascii.eqb Bool.eqb Base64.unsextets].
    rewrite (b64_first_pad _ Ha), byteOf_byteVal. reflexivity.
  - cbn [Base64.encode].
    pose proof (byteVal_bounds a) as Ha. pose proof (byteVal_bounds b) as Hb.
    destruct (b64_ranges _ _ Ha Hb) as (R1 & _ & R2 & _).
    destruct (b64_ranges _ _ Hb Hb) as (_ & _ & _ & R3 & _).
    rewrite (sextets_cons _ _ R1), (sextets_cons _ _ R2), (sextets_cons _ _ R3).
    cbn [Base64.sextets Ascii.eqb Bool.eqb Base64.unsextets].
    rewrite (b64_first _ _ Ha Hb), (b64_second_pad _ _ Ha Hb), !byteOf_byteVal.
    reflexivity.
  - cbn [Base64.encode].
    pose proof (byteVal_bounds a) as Ha. pose proof (byteVal_bounds b) as Hb.
    pose proof (byteVal_bounds c) as Hc.
    destruct (b64_ranges _ _ Ha Hb) as (R1 & _ & R2 & _).
    destruct (b64_ranges _ _ Hb Hc) as (_ & _ & _ & _ & R3 & _).
    destruct (b64_ranges _ _ Hc Hc) as (_ & _ & _ & _ & _ & R4).
    rewrite (sextets_cons _ _ R1), (sextets_cons _ _ R2), (sextets_cons _ _ R3),
      (sextets_cons _ _ R4).
    cbn [Base64.unsextets].
    rewrite (IH rest) by (simpl in Hlen; lia).
    rewrite (b64_first _ _ Ha Hb), (b64_second _ _ _ Ha Hb Hc), (b64_third _ _ Hb Hc),
      !byteOf_byteVal.
    reflexivity.
Qed.

(** Decoding an encoding gives the bytes back. *)
Lemma base64_round_trip bs : Base64.decode (Base64.encode bs) = bs.
Proof. apply (base64_round_trip_bounded (S (String.length bs))). lia. Qed.

(** ** The characters of a generated timestamp *)

Lemma isDigit_digitChar d : isDigit (JS.digitChar (d mod 10)) = true.
Proof.
  pose proof (Z.mod_pos_bound d 10 ltac:(lia)) as Hd.
  unfold isDigit, JS.code, JS.digitChar.
  rewrite nat_ascii_embedding by lia.
  apply andb_true_iff. split; apply Nat.leb_le; lia.
Qed.

Lemma digitsAcc_chars fuel :
  forall n acc,
  JS.allChars timestampChar acc = true ->
  JS.allChars timestampChar (JS.digitsAcc fuel n acc) = true.
Proof.
  induction fuel as [|fuel IH]; intros n acc Hacc; cbn [JS.digitsAcc].
  - cbn [JS.allChars]. unfold timestampChar at 1.
    rewrite isDigit_digitChar. exact Hacc.
  - assert (H : JS.allChars timestampChar (String (JS.digitChar (n mod 10)) acc) = true).
    { cbn [JS.allChars]. unfold timestampChar at 1.
      rewrite isDigit_digitChar. exact Hacc. }
    destruct (n <? 10)%Z; [exact H | apply IH; exact H].
Qed.

Lemma digitsAcc_nonempty fuel : forall n acc, JS.digitsAcc fuel n acc <> "".
Proof.
  induction fuel as [|fuel IH]; intros n acc; cbn [JS.digitsAcc].
  - discriminate.
  - destruct (n <? 10)%Z; [discriminate | apply IH].
Qed.

Lemma numberToString_chars n :
  JS.allChars timestampChar (JS.numberToString n) = true.
Proof.
  unfold JS.numberToString. destruct (n <? 0)%Z.
  - cbn [JS.allChars]. apply digitsAcc_chars. reflexivity.
  - apply digitsAcc_chars. reflexivity.
Qed.

Lemma numberToString_nonempty n : JS.numberToString n <> "".
Proof.
  unfold JS.numberToString. destruct (n <? 0)%Z;
    [discriminate | apply digitsAcc_nonempty].
Qed.

Lemma repeat_chars p c k : p c = true -> JS.allChars p (JS.repeat c k) = true.
Proof. intros Hc. induction k; simpl; [reflexivity | rewrite Hc; exact IHk]. Qed.

Lemma pad_chars n : JS.allChars timestampChar (WebServer.pad n) = true.
Proof.
  unfold WebServer.pad, JS.padStart. rewrite allChars_append.
  rewrite repeat_chars by reflexivity. apply numberToString_chars.
Qed.

Lemma formatTimestamp_chars host d :
  JS.allChars timestampChar (WebServer.formatTimestamp host d) = true.
Proof.
  unfold WebServer.formatTimestamp.
  repeat (rewrite allChars_append; apply andb_true_iff; split);
    try apply numberToString_chars; try apply pad_chars; reflexivity.
Qed.

Lemma formatTimestamp_nonempty host d : WebServer.formatTimestamp host d <> "".
Proof.
  unfold WebServer.formatTimestamp. apply append_nonempty.
  apply numberToString_nonempty.
Qed.

Lemma formatTimestamp_plain host d :
  noChar "/" (WebServer.formatTimestamp host d) = true
  /\ noChar "." (WebServer.formatTimestamp host d) = true
  /\ WebServer.formatTimestamp host d <> "".
Proof.
  pose proof (formatTimestamp_chars host d) as Hc.
  split; [apply timestampChars_noChar; [reflexivity | exact Hc]|].
  split; [apply timestampChars_noChar; [reflexivity | exact Hc]|].
  apply formatTimestamp_nonempty.
Qed.

(** ** Image uploads *)

Lemma describe_sameFiles host image m w :
  sameFiles w (snd (WebServer.describeImageWithAnthropic host image m w)).
Proof.
  unfold WebServer.describeImageWithAnthropic.
  destruct (keyMissing host); [apply sameFiles_refl|].
  unfold bind at 1. unfold fetch.
  destruct (remote host _) as [message|resp]; [apply sameFiles_record|].
  destruct (respOk resp); cbn [negb]; [|apply sameFiles_record].
  unfold bind, json. destruct (respJson resp); apply sameFiles_record.
Qed.

Lemma handleMediaRequest_image host body w :
  body <> JNull ->
  isString (fieldOf body "transcript") = false ->
  isString (fieldOf body "image") = true ->
  WebServer.handleMediaRequest host (WebServer.JsonBody body) w
  = match WebServer.handleImageUpload host body w with
    | (Returned reply, w') => (Returned reply, w')
    | (Thrown err, w') =>
        (Returned (WebServer.mkReply 500 (JObj [("error", JStr err)])), w')
    end.
Proof.
  intros Hnull Ht Hi.
  unfold WebServer.handleMediaRequest, tryCatch, WebServer.consumeJSON.
  unfold bind at 1. unfold ret at 1.
  rewrite (getProp_fieldOf body "transcript" Hnull).
  unfold bind at 1. unfold ret at 1. rewrite Ht.
  rewrite (getProp_fieldOf body "image" Hnull).
  unfold bind at 1. unfold ret at 1. rewrite Hi. reflexivity.
Qed.

(** An upload up to the writing of the image: the rest of the handler
    runs in a world where the image is stored. *)
Lemma handleImageUpload_run host body image m w :
  body <> JNull ->
  fieldOf body "image" = Some (JStr image) ->
  effectiveMediaType body = Some m ->
  let t := WebServer.formatTimestamp host (clock w) in
  writable (images w) (imageName t m) ->
  exists w1,
    images w1 = Present (storeFile (imageName t m) (Base64.decode image)
                                   (entriesOf (images w)))
    /\ transcripts w1 = transcripts w
    /\ WebServer.handleImageUpload host body w
       = bind (WebServer.describeImageWithAnthropic host image m)
              (fun description =>
                 bind (writeFile host IMAGES_DIR (t ++ ".txt") (utf8Encode description))
                      (fun _ =>
                         ret (WebServer.mkReply 200
                                (JObj [("saved_image",
                                        JStr (WebServer.relativePath IMAGES_DIR (imageName t m)));
                                       ("description_file",
                                        JStr (WebServer.relativePath IMAGES_DIR (t ++ ".txt")))]))))
              w1.
Proof.
  intros Hnull Himage Hmedia t Hw.
  destruct (writable_inv _ _ Hw) as (Hb & Hf).
  destruct (ensureDir_run IMAGES_DIR w Hb) as (w0 & E0 & D0 & O0 & C0).
  destruct (writeFile_run host IMAGES_DIR (imageName t m) (Base64.decode image) w0 _ D0 Hf)
    as (w1 & E1 & D1 & O1 & C1).
  exists w1. split; [exact D1|]. split.
  { change (dirState TRANSCRIPTS_DIR w1 = dirState TRANSCRIPTS_DIR w).
    rewrite (O1 TRANSCRIPTS_DIR), (O0 TRANSCRIPTS_DIR);
      [reflexivity | discriminate | discriminate]. }
  unfold WebServer.handleImageUpload.
  rewrite (getProp_fieldOf body "mediaType" Hnull).
  unfold bind at 1. unfold ret at 1.
  assert (Hm : match fieldOf body "mediaType" with
               | None | Some JNull => JStr "image/png"
               | Some v => v
               end = JStr m).
  { unfold effectiveMediaType in Hmedia.
    destruct (fieldOf body "mediaType") as [[| | | s | |]|];
      try discriminate; congruence. }
  rewrite Hm.
  rewrite (bind_Returned _ _ _ _ _ E0).
  rewrite (bind_Returned _ _ _ _ _ (timestampName_run host w0)).
  rewrite (getProp_fieldOf body "image" Hnull), Himage.
  unfold bind at 1. unfold ret at 1. rewrite C0. fold t.
  change (t ++ "." ++ WebServer.templateText (nth_error (JS.split "/" m) 1))
    with (imageName t m).
  rewrite (bind_Returned _ _ _ _ _ E1). reflexivity.
Qed.

(** ** C10: an image whose description fails stays stored *)





(** ** C6: an image written and resolved *)

Lemma lookupFile_Some_In name node (d : Dir) :
  lookupFile name d = Some node -> In name (map fst d).
Proof.
  induction d as [|[n f] d IH]; simpl; [discriminate|].
  destruct (String.eqb_spec n name) as [->|Hne]; auto.
Qed.

Lemma find_storeFile_new (f : string -> bool) name content (d : Dir) :
  (forall x, In x (map fst d) -> f x = false) ->
  f name = true ->
  find f (map fst (storeFile name content d)) = Some name.
Proof.
  intros Hold Hnew. induction d as [|[n node] d IH]; simpl.
  - rewrite Hnew. reflexivity.
  - destruct (String.eqb_spec n name) as [->|Hne]; simpl.
    + rewrite Hnew. reflexivity.
    + rewrite (Hold n) by (simpl; auto). apply IH.
      intros x Hx. apply Hold. simpl. auto.
Qed.

Lemma find_storeFile_skip (f : string -> bool) name content (d : Dir) :
  f name = false ->
  find f (map fst (storeFile name content d)) = find f (map fst d).
Proof.
  intros Hskip. induction d as [|[n node] d IH]; simpl.
  - rewrite Hskip. reflexivity.
  - destruct (String.eqb_spec n name) as [->|Hne]; simpl; [reflexivity|].
    rewrite IH. reflexivity.
Qed.

Lemma endsWith_png_txt t : JS.endsWith (t ++ ".png") ".txt" = false.
Proof.
  destruct (JS.endsWith (t ++ ".png") ".txt") eqn:E; [|reflexivity].
  apply (endsWith_txt_ext t "png") in E; [discriminate | reflexivity].
Qed.

Lemma matchesBaseName_png t : McpServer.matchesBaseName t (t ++ ".png") = true.
Proof.
  unfold McpServer.matchesBaseName, JS.startsWith.
  rewrite prefix_append, endsWith_png_txt. reflexivity.
Qed.

Lemma matchesBaseName_txt t : McpServer.matchesBaseName t (t ++ ".txt") = false.
Proof.
  unfold McpServer.matchesBaseName. rewrite endsWith_append. apply andb_false_r.
Qed.

Lemma append_png_neq_txt t : t ++ ".png" <> t ++ ".txt".
Proof.
  intros H. apply append_inv_length in H; [|reflexivity].
  destruct H as [_ H]. discriminate.
Qed.

Lemma writeFile_cases host d name content w entries :
  dirState d w = Present entries ->
  (exists w', writeFile host d name content w = (Returned tt, w')
              /\ dirState d w' = Present (storeFile name content entries))
  \/ (exists e w', writeFile host d name content w = (Thrown e, w')
                   /\ dirState d w' = Present entries).
Proof.
  intros Hd.
  destruct (lookupFile name entries) as [[c|err]|] eqn:El.
  - left. destruct (writeFile_run host d name content w entries Hd) as (w' & E & D & _).
    + intros err. rewrite El. discriminate.
    + eauto.
  - right. exists err, (record (EvWriteFile d name) w). split.
    + unfold writeFile. rewrite Hd, El. reflexivity.
    + rewrite (sameFiles_dirState d w); auto using sameFiles_record.
  - left. destruct (writeFile_run host d name content w entries Hd) as (w' & E & D & _).
    + intros err. rewrite El. discriminate.
    + eauto.
Qed.

(** The image directory after an upload: the image has been stored, and
    perhaps its description after it. *)
Lemma handleImageUpload_images host body image m w :
  body <> JNull ->
  fieldOf body "image" = Some (JStr image) ->
  effectiveMediaType body = Some m ->
  let t := WebServer.formatTimestamp host (clock w) in
  writable (images w) (imageName t m) ->
  let stored := storeFile (imageName t m) (Base64.decode image)
                          (entriesOf (images w)) in
  images (snd (WebServer.handleImageUpload host body w)) = Present stored
  \/ exists description,
       images (snd (WebServer.handleImageUpload host body w))
       = Present (storeFile (t ++ ".txt") description stored).
Proof.
  intros Hnull Himage Hmedia t Hw stored.
  destruct (handleImageUpload_run host body image m w Hnull Himage Hmedia Hw)
    as (w1 & D1 & _ & Erun).
  fold t in D1, Erun. fold stored in D1. rewrite Erun.
  pose proof (describe_sameFiles host image m w1) as Hs.
  destruct (WebServer.describeImageWithAnthropic host image m w1)
    as [[description|e] w2] eqn:Ed;
    simpl in Hs; destruct Hs as (_ & Hsi & _).
  - rewrite (bind_Returned _ _ _ _ _ Ed).
    assert (D2 : dirState IMAGES_DIR w2 = Present stored) by (simpl; congruence).
    destruct (writeFile_cases host IMAGES_DIR (t ++ ".txt") (utf8Encode description) w2 _ D2)
      as [(w3 & E3 & D3) | (e & w3 & E3 & D3)].
    + rewrite (bind_Returned _ _ _ _ _ E3). right. eexists. exact D3.
    + rewrite (bind_Thrown _ _ _ _ _ E3). left. exact D3.
  - rewrite (bind_Thrown _ _ _ _ _ Ed). left. simpl. congruence.
Qed.

Lemma handleMediaRequest_image_world host body w :
  body <> JNull ->
  isString (fieldOf body "transcript") = false ->
  isString (fieldOf body "image") = true ->
  snd (WebServer.handleMediaRequest host (WebServer.JsonBody body) w)
  = snd (WebServer.handleImageUpload host body w).
Proof.
  intros Hnull Ht Hi. rewrite (handleMediaRequest_image host body w Hnull Ht Hi).
  destruct (WebServer.handleImageUpload host body w) as [[reply|err] w']; reflexivity.
Qed.

(** C6.  An image of media type [image/png] (given or by default), sent as
    the base64 text of [bytes] at a timestamp for which the image
    directory holds no image yet, is found again by that timestamp: the
    lookup returns an image whose base64 text decodes to [bytes] and whose
    media type is [image/png], whether or not the description step of the
    upload succeeded. *)
Theorem C6_image_round_trip host body bytes w :
  body <> JNull ->
  isString (fieldOf body "transcript") = false ->
  fieldOf body "image" = Some (JStr (Base64.encode bytes)) ->
  effectiveMediaType body = Some "image/png" ->
  let t := WebServer.formatTimestamp host (clock w) in
  (forall err, images w <> Broken err) ->
  (forall name, In name (map fst (entriesOf (images w))) ->
                JS.startsWith name t = true -> JS.endsWith name ".txt" = true) ->
  let w1 := snd (WebServer.handleMediaRequest host (WebServer.JsonBody body) w) in
  exists imageFile w2,
    McpServer.getCorrespondingImage host (t ++ ".txt") w1
    = (Returned (Some imageFile), w2)
    /\ Base64.decode (McpServer.base64 imageFile) = bytes
    /\ McpServer.mediaType imageFile = "image/png".
Proof.
  intros Hnull Ht Himage Hmedia t Hb Hfresh w1.
  destruct (formatTimestamp_plain host (clock w)) as (Hs & Hd & Hne).
  fold t in Hs, Hd, Hne.
  assert (Hname : imageName t "image/png" = t ++ ".png") by reflexivity.
  assert (Hold : forall x, In x (map fst (entriesOf (images w))) ->
                           McpServer.matchesBaseName t x = false).
  { intros x Hx. unfold McpServer.matchesBaseName.
    destruct (JS.startsWith x t) eqn:Hp; [|reflexivity].
    rewrite (Hfresh x Hx Hp). reflexivity. }
  assert (Hw : writable (images w) (imageName t "image/png")).
  { rewrite Hname. destruct (images w) as [|err|entries] eqn:Ei; simpl.
    - exact I.
    - exfalso. apply (Hb err). reflexivity.
    - intros err Hl. apply lookupFile_Some_In in Hl.
      pose proof (Hold _ Hl) as Hm. rewrite matchesBaseName_png in Hm. discriminate. }
  set (stored := storeFile (t ++ ".png") (Base64.decode (Base64.encode bytes))
                           (entriesOf (images w))).
  assert (Hi : isString (fieldOf body "image") = true) by (rewrite Himage; reflexivity).
  assert (Hentries : exists entries,
            images w1 = Present entries
            /\ find (McpServer.matchesBaseName t) (map fst entries) = Some (t ++ ".png")
            /\ lookupFile (t ++ ".png") entries = Some (Regular bytes)).
  { unfold w1. rewrite (handleMediaRequest_image_world host body w Hnull Ht Hi).
    destruct (handleImageUpload_images host body _ _ w Hnull Himage Hmedia Hw)
      as [E | [description E]]; fold t in E; rewrite Hname in E; fold stored in E.
    - exists stored. split; [exact E|]. split.
      + apply find_storeFile_new; [exact Hold | apply matchesBaseName_png].
      + unfold stored. rewrite lookupFile_storeFile_same, base64_round_trip. reflexivity.
    - exists (storeFile (t ++ ".txt") description stored). split; [exact E|]. split.
      + rewrite find_storeFile_skip by apply matchesBaseName_txt.
        apply find_storeFile_new; [exact Hold | apply matchesBaseName_png].
      + rewrite lookupFile_storeFile_other by apply append_png_neq_txt.
        unfold stored. rewrite lookupFile_storeFile_same, base64_round_trip. reflexivity. }
  destruct Hentries as (entries & Ei & Hfind & Hlook).
  destruct (getCorrespondingImage_spec host (t ++ ".txt") w1) as (w2 & E & _).
  rewrite E, Ei. unfold findImage.
  rewrite (basename_txt t Hs Hne), Hfind.
  assert (Hnonempty : (t ++ ".png" =? "") = false).
  { apply String.eqb_neq. apply append_nonempty. exact Hne. }
  rewrite Hnonempty, Hlook.
  eexists. exists w2. split; [reflexivity|].
  cbn [McpServer.base64 McpServer.mediaType].
  split; [apply base64_round_trip|].
  change (t ++ ".png") with (t ++ "." ++ "png").
  rewrite (extname_simple t "png" Hs Hd Hne eq_refl eq_refl). reflexivity.
Qed.

Lemma C6_witness :
  (JObj [("image", JStr (Base64.encode "Man")); ("mediaType", JStr "image/png")] <> JNull
   /\ (forall err, images emptyWorld <> Broken err)
   /\ (forall name, In name (map fst (entriesOf (images emptyWorld))) ->
                    JS.startsWith name "2025-05-17-02-40-24" = true ->
                    JS.endsWith name ".txt" = true))
  /\ exists imageFile w2,
       McpServer.getCorrespondingImage sampleHost "2025-05-17-02-40-24.txt"
         (snd (WebServer.handleMediaRequest sampleHost
                 (WebServer.JsonBody
                    (JObj [("image", JStr (Base64.encode "Man"));
                           ("mediaType", JStr "image/png")]))
                 emptyWorld))
       = (Returned (Some imageFile), w2)
       /\ Base64.decode (McpServer.base64 imageFile) = "Man"
       /\ McpServer.mediaType imageFile = "image/png".
Proof.
  assert (Hnull : JObj [("image", JStr (Base64.encode "Man"));
                        ("mediaType", JStr "image/png")] <> JNull) by discriminate.
  assert (Hb : forall err, images emptyWorld <> Broken err) by discriminate.
  assert (Hfresh : forall name, In name (map fst (entriesOf (images emptyWorld))) ->
                    JS.startsWith name "2025-05-17-02-40-24" = true ->
                    JS.endsWith name ".txt" = true) by (intros name []).
  split; [split; [exact Hnull | split; [exact Hb | exact Hfresh]]|].
  exact (C6_image_round_trip sampleHost _ "Man" emptyWorld
           Hnull eq_refl eq_refl eq_refl Hb Hfresh).
Defined.

(** ** Occurrences in a string *)

Lemma contains_spec b s :
  contains b s = true <-> exists pre post, s = pre ++ b ++ post.
Proof.
  induction s as [|c s IH]; cbn [contains].
  - rewrite orb_false_r, prefix_spec. split.
    + intros [r Hr]. exists "", r. exact Hr.
    + intros (pre & post & H). destruct pre; [eauto | discriminate].
  - rewrite orb_true_iff, prefix_spec, IH. split.
    + intros [[r Hr] | (pre & post & H)].
      * exists "", r. exact Hr.
      * exists (String c pre), post. simpl. congruence.
    + intros (pre & post & H). destruct pre as [|x pre].
      * left. eauto.
      * right. injection H as _ H. eauto.
Qed.

Lemma appearsBeforeb_spec a b s :
  appearsBeforeb a b s = true <-> appearsBefore a b s.
Proof.
  unfold appearsBefore. induction s as [|c s IH]; cbn [appearsBeforeb].
  - rewrite orb_false_r, andb_true_iff, prefix_spec, contains_spec. split.
    + intros [[r Hr] (mid & post & H)]. rewrite Hr, drop_append in H.
      exists "", mid, post. simpl. congruence.
    + intros (pre & mid & post & H). destruct pre; [|discriminate].
      simpl in H. split; [eauto|]. rewrite H, drop_append. eauto.
  - rewrite orb_true_iff, andb_true_iff, prefix_spec, contains_spec, IH. split.
    + intros [[[r Hr] (mid & post & H)] | (pre & mid & post & H)].
      * rewrite Hr, drop_append in H. exists "", mid, post. simpl. congruence.
      * exists (String c pre), mid, post. simpl. congruence.
    + intros (pre & mid & post & H). destruct pre as [|x pre].
      * left. simpl in H. split; [eauto|]. rewrite H, drop_append. eauto.
      * right. injection H as _ H. eauto.
Qed.

(** ** Joining parts *)

Lemma join_cons sep x l :
  l <> [] -> JS.join sep (x :: l) = x ++ sep ++ JS.join sep l.
Proof. destruct l; [congruence | reflexivity]. Qed.

Lemma join_app sep a b :
  a <> [] -> b <> [] ->
  JS.join sep (a ++ b) = JS.join sep a ++ sep ++ JS.join sep b.
Proof.
  intros Ha Hb. induction a as [|x a IH]; [congruence|].
  destruct a as [|y a].
  - simpl app. rewrite join_cons by exact Hb. reflexivity.
  - change ((x :: y :: a) ++ b)%list with (x :: ((y :: a) ++ b))%list.
    rewrite join_cons by (simpl; discriminate). rewrite IH by discriminate.
    rewrite (join_cons sep x (y :: a)) by discriminate.
    rewrite !append_assoc. reflexivity.
Qed.

Lemma join_inside sep (P X Q : list string) :
  X <> [] ->
  exists pre post,
    JS.join sep (P ++ X ++ Q) = pre ++ JS.join sep X ++ post
    /\ (Q <> [] -> exists rest, post = sep ++ rest /\ rest = JS.join sep Q).
Proof.
  intros HX.
  assert (HXQ : exists post, JS.join sep (X ++ Q) = JS.join sep X ++ post
                 /\ (Q <> [] -> exists rest, post = sep ++ rest /\ rest = JS.join sep Q)).
  { destruct Q as [|q Q].
    - exists "". rewrite app_nil_r, append_nil_r. split; [reflexivity | congruence].
    - exists (sep ++ JS.join sep (q :: Q)).
      split; [apply join_app; [exact HX | discriminate] | eauto]. }
  destruct HXQ as (post & E & Hpost).
  destruct P as [|p P].
  - exists "", post. split; [exact E | exact Hpost].
  - exists (JS.join sep (p :: P) ++ sep), post. split; [|exact Hpost].
    rewrite join_app; [| discriminate | destruct X; [congruence | discriminate]].
    rewrite E, !append_assoc. reflexivity.
Qed.

(** Two groups of parts, one after the other in the list, give two
    texts, one before the other in the joined string. *)
Lemma join_appearsBefore sep (P X Q Y R : list string) :
  X <> [] -> Y <> [] ->
  appearsBefore (JS.join sep X) (JS.join sep Y)
                (JS.join sep (P ++ X ++ Q ++ Y ++ R)).
Proof.
  intros HX HY.
  destruct (join_inside sep P X (Q ++ Y ++ R) HX) as (pre & post & E & Hpost).
  destruct Hpost as (rest & -> & ->).
  { destruct Q; [destruct Y; [congruence | discriminate] | discriminate]. }
  destruct (join_inside sep Q Y R HY) as (pre' & post' & E' & _).
  exists pre, (sep ++ pre'), post'.
  rewrite E, E', !append_assoc. reflexivity.
Qed.

(** ** The order of timestamps *)

Lemma ascii_compare_cases x y :
  (Ascii.compare x y = Lt /\ (N_of_ascii x < N_of_ascii y)%N)
  \/ (Ascii.compare x y = Eq /\ N_of_ascii x = N_of_ascii y)
  \/ (Ascii.compare x y = Gt /\ (N_of_ascii y < N_of_ascii x)%N).
Proof.
  unfold Ascii.compare.
  destruct (N.compare_spec (N_of_ascii x) (N_of_ascii y)); auto.
Qed.

Lemma compare_notAfter_trans a :
  forall b c,
  notAfter String.compare a b -> notAfter String.compare b c ->
  notAfter String.compare a c.
Proof.
  unfold notAfter.
  induction a as [|x a IH]; intros [|y b] [|z c]; simpl; try congruence.
  destruct (ascii_compare_cases x y) as [[-> Hxy] | [[-> Hxy] | [-> Hxy]]];
  destruct (ascii_compare_cases y z) as [[-> Hyz] | [[-> Hyz] | [-> Hyz]]];
  destruct (ascii_compare_cases x z) as [[-> Hxz] | [[-> Hxz] | [-> Hxz]]];
  try congruence; try lia.
  apply IH.
Qed.

Lemma byTimestamp_antisym a b :
  McpServer.byTimestamp a b = CompOpp (McpServer.byTimestamp b a).
Proof. unfold McpServer.byTimestamp, JS.localeCompare. apply String.compare_antisym. Qed.

Lemma byTimestamp_trans a b c :
  notAfter McpServer.byTimestamp a b -> notAfter McpServer.byTimestamp b c ->
  notAfter McpServer.byTimestamp a c.
Proof. unfold McpServer.byTimestamp, JS.localeCompare. apply compare_notAfter_trans. Qed.

(** ** The sort gives a sorted list *)

Section Sorting.

Context {A : Type} (cmp : A -> A -> comparison).
Hypothesis cmp_antisym : forall a b, cmp a b = CompOpp (cmp b a).
Hypothesis cmp_trans :
  forall a b c, notAfter cmp a b -> notAfter cmp b c -> notAfter cmp a c.

Lemma insertSorted_HdRel x y l :
  notAfter cmp y x -> HdRel (notAfter cmp) y l ->
  HdRel (notAfter cmp) y (McpServer.insertSorted cmp x l).
Proof.
  intros Hyx Hl. destruct l as [|z l]; simpl; [constructor; exact Hyx|].
  inversion Hl; subst. destruct (cmp x z); constructor; assumption.
Qed.

Lemma insertSorted_Sorted x l :
  Sorted (notAfter cmp) l -> Sorted (notAfter cmp) (McpServer.insertSorted cmp x l).
Proof.
  induction 1 as [|y l Hs IH Hd]; simpl; [repeat constructor|].
  destruct (cmp x y) eqn:E.
  - constructor; [constructor; assumption|]. constructor. unfold notAfter. congruence.
  - constructor; [constructor; assumption|]. constructor. unfold notAfter. congruence.
  - constructor; [exact IH|]. apply insertSorted_HdRel; [|exact Hd].
    unfold notAfter. rewrite cmp_antisym, E. discriminate.
Qed.

Lemma sort_Sorted l : Sorted (notAfter cmp) (McpServer.sort cmp l).
Proof.
  induction l as [|x l IH]; simpl; [constructor | apply insertSorted_Sorted; exact IH].
Qed.

Lemma sort_StronglySorted l : StronglySorted (notAfter cmp) (McpServer.sort cmp l).
Proof.
  apply Sorted_StronglySorted; [|apply sort_Sorted].
  intros a b c. apply cmp_trans.
Qed.

Lemma StronglySorted_before (R : A -> A -> Prop) l1 x r y :
  StronglySorted R (l1 ++ x :: r)%list -> In y l1 -> R y x.
Proof.
  induction l1 as [|z l1 IH]; simpl; [contradiction|].
  intros Hs Hy. apply StronglySorted_inv in Hs. destruct Hs as [Hs Hall].
  destruct Hy as [-> | Hy]; [|exact (IH Hs Hy)].
  rewrite Forall_forall in Hall. apply Hall.
  apply in_or_app. right. left. reflexivity.
Qed.

(** In the sorted list an element strictly before another comes
    first. *)
Lemma sort_before l x y :
  In x l -> In y l -> cmp x y = Lt ->
  exists l1 l2 l3, McpServer.sort cmp l = (l1 ++ x :: l2 ++ y :: l3)%list.
Proof.
  intros Hx Hy Hlt.
  pose proof (sort_StronglySorted l) as Hs.
  assert (Hx' : In x (McpServer.sort cmp l))
    by (eapply Permutation_in; [symmetry; apply sort_perm | exact Hx]).
  assert (Hy' : In y (McpServer.sort cmp l))
    by (eapply Permutation_in; [symmetry; apply sort_perm | exact Hy]).
  destruct (in_split _ _ Hx') as (l1 & r & E). rewrite E in Hs, Hy' |- *.
  apply in_app_or in Hy'. destruct Hy' as [Hy1 | [Heq | Hyr]].
  - exfalso. pose proof (StronglySorted_before _ _ _ _ _ Hs Hy1) as Hyx.
    unfold notAfter in Hyx. rewrite cmp_antisym, Hlt in Hyx. apply Hyx. reflexivity.
  - subst y. pose proof (cmp_antisym x x) as H. rewrite Hlt in H. discriminate.
  - destruct (in_split _ _ Hyr) as (l2 & l3 & ->). eauto.
Qed.

End Sorting.

(** ** C1: the order of artifacts in the context *)

Lemma replace_txt t :
  noChar "." t = true -> JS.replace ".txt" "" (t ++ ".txt") = t.
Proof.
  unfold noChar. induction t as [|c t IH]; [reflexivity|].
  cbn [JS.allChars]. rewrite andb_true_iff. intros [Hc Ht].
  cbn [append JS.replace String.prefix].
  destruct (ascii_dec "." c) as [<-|Hne]; [discriminate|].
  rewrite (IH Ht). reflexivity.
Qed.

Lemma transcriptBlock_text t text :
  validTimestamp t = true ->
  JS.join nl (McpServer.transcriptBlock (McpServer.mkTextFile (t ++ ".txt") text))
  = artifactText TRANSCRIPTS_DIR t text.
Proof.
  intros Ht. destruct (validTimestamp_plain t Ht) as (_ & Hd & _).
  unfold McpServer.transcriptBlock, artifactText. cbn [McpServer.filename McpServer.content].
  rewrite (replace_txt t Hd). unfold JS.join. cbn [String.concat].
  rewrite !append_assoc. reflexivity.
Qed.

Lemma imageDescriptionBlock_text t text :
  validTimestamp t = true ->
  JS.join nl (McpServer.imageDescriptionBlock (McpServer.mkTextFile (t ++ ".txt") text))
  = artifactText IMAGES_DIR t text.
Proof.
  intros Ht. destruct (validTimestamp_plain t Ht) as (_ & Hd & _).
  unfold McpServer.imageDescriptionBlock, artifactText.
  cbn [McpServer.filename McpServer.content].
  rewrite (replace_txt t Hd). unfold JS.join. cbn [String.concat].
  rewrite !append_assoc. reflexivity.
Qed.

Lemma holds_textNames entries t bytes :
  In (t ++ ".txt", Regular bytes) entries -> In (t ++ ".txt") (textNames entries).
Proof.
  intros H. unfold textNames. apply filter_In. split.
  - apply (in_map fst) in H. exact H.
  - apply endsWith_append.
Qed.

Lemma listText_healthy entries :
  forallb (readableb entries) (textNames entries) = true ->
  listText (Present entries)
  = map (fun name => McpServer.mkTextFile name (utf8Decode (fileBytes entries name)))
        (McpServer.sort McpServer.byTimestamp (textNames entries)).
Proof. intros H. unfold listText. rewrite H. reflexivity. Qed.

Lemma fileBytes_In entries name bytes :
  NoDup (map fst entries) -> In (name, Regular bytes) entries ->
  fileBytes entries name = bytes.
Proof.
  intros Hnd Hin. unfold fileBytes. rewrite (lookupFile_In _ _ _ Hnd Hin). reflexivity.
Qed.

Lemma byTimestamp_txt t1 t2 :
  validTimestamp t1 = true -> validTimestamp t2 = true ->
  McpServer.byTimestamp (t1 ++ ".txt") (t2 ++ ".txt") = String.compare t1 t2.
Proof.
  intros H1 H2.
  destruct (validTimestamp_plain t1 H1) as (_ & D1 & _).
  destruct (validTimestamp_plain t2 H2) as (_ & D2 & _).
  unfold McpServer.byTimestamp, JS.localeCompare.
  rewrite (replace_txt t1 D1), (replace_txt t2 D2). reflexivity.
Qed.

(** The files listed for a healthy directory hold an artifact of the
    directory. *)
Lemma listText_holds st t bytes :
  healthy st -> holds st t bytes ->
  exists F1 F2,
    listText st
    = (F1 ++ McpServer.mkTextFile (t ++ ".txt") (utf8Decode bytes) :: F2)%list.
Proof.
  intros (entries & -> & Hnd & Hall) Hin. cbn [entriesOf holds] in Hin.
  unfold holds in Hin. cbn [entriesOf] in Hin.
  rewrite (listText_healthy entries Hall).
  assert (Hs : In (t ++ ".txt") (McpServer.sort McpServer.byTimestamp (textNames entries))).
  { eapply Permutation_in; [symmetry; apply sort_perm|].
    eapply holds_textNames; exact Hin. }
  destruct (in_split _ _ Hs) as (l1 & l2 & E). rewrite E.
  rewrite map_app. cbn [map]. rewrite (fileBytes_In _ _ _ Hnd Hin). eauto.
Qed.

(** The files listed for a healthy directory hold two artifacts of the
    directory in the order of their timestamps. *)
Lemma listText_ordered st t1 t2 bytes1 bytes2 :
  healthy st ->
  validTimestamp t1 = true -> validTimestamp t2 = true ->
  timestampBefore t1 t2 ->
  holds st t1 bytes1 -> holds st t2 bytes2 ->
  exists F1 F2 F3,
    listText st
    = (F1 ++ McpServer.mkTextFile (t1 ++ ".txt") (utf8Decode bytes1)
          :: F2 ++ McpServer.mkTextFile (t2 ++ ".txt") (utf8Decode bytes2) :: F3)%list.
Proof.
  intros (entries & -> & Hnd & Hall) Hv1 Hv2 Hlt Hin1 Hin2.
  unfold holds in Hin1, Hin2. cbn [entriesOf] in Hin1, Hin2.
  rewrite (listText_healthy entries Hall).
  destruct (sort_before McpServer.byTimestamp byTimestamp_antisym byTimestamp_trans
              (textNames entries) (t1 ++ ".txt") (t2 ++ ".txt"))
    as (l1 & l2 & l3 & E).
  - eapply holds_textNames; exact Hin1.
  - eapply holds_textNames; exact Hin2.
  - rewrite (byTimestamp_txt t1 t2 Hv1 Hv2). exact Hlt.
  - rewrite E. rewrite map_app. cbn [map]. rewrite map_app. cbn [map].
    rewrite (fileBytes_In _ _ _ Hnd Hin1), (fileBytes_In _ _ _ Hnd Hin2). eauto 6.
Qed.

Lemma addTranscripts_nonempty ctx files :
  files <> [] ->
  McpServer.addTranscriptsToContext ctx files
  = (ctx ++ ["<transcripts>"] ++ flat_map McpServer.transcriptBlock files
         ++ ["</transcripts>"])%list.
Proof. destruct files; [congruence | reflexivity]. Qed.

Lemma addImageDescriptions_nonempty ctx files :
  files <> [] ->
  McpServer.addImageDescriptionsToContext ctx files
  = (ctx ++ ["<image_descriptions>"] ++ flat_map McpServer.imageDescriptionBlock files
         ++ ["</image_descriptions>"])%list.
Proof. destruct files; [congruence | reflexivity]. Qed.

Lemma addImageDescriptions_extends ctx files :
  exists rest, McpServer.addImageDescriptionsToContext ctx files = (ctx ++ rest)%list.
Proof.
  unfold McpServer.addImageDescriptionsToContext.
  destruct (0 <? List.length files)%nat; [eauto|].
  exists []. rewrite app_nil_r. reflexivity.
Qed.

Lemma parts_one (block : McpServer.TextFile -> list string)
    (before : list string) opening closing after F1 f F2 :
  (before ++ [opening] ++ flat_map block (F1 ++ f :: F2) ++ [closing] ++ after)%list
  = ((before ++ opening :: flat_map block F1) ++ block f
       ++ (flat_map block F2 ++ closing :: after))%list.
Proof.
  rewrite flat_map_app. cbn [flat_map]. rewrite <- !app_assoc. reflexivity.
Qed.

Lemma parts_two (block : McpServer.TextFile -> list string)
    (before : list string) opening closing after F1 f1 F2 f2 F3 :
  (before ++ [opening] ++ flat_map block (F1 ++ f1 :: F2 ++ f2 :: F3)
          ++ [closing] ++ after)%list
  = ((before ++ opening :: flat_map block F1) ++ block f1 ++ flat_map block F2
       ++ block f2 ++ (flat_map block F3 ++ closing :: after))%list.
Proof.
  rewrite flat_map_app. cbn [flat_map]. rewrite flat_map_app. cbn [flat_map].
  rewrite <- !app_assoc. reflexivity.
Qed.

Lemma transcriptBlock_nonempty f : McpServer.transcriptBlock f <> [].
Proof. discriminate. Qed.

Lemma imageDescriptionBlock_nonempty f : McpServer.imageDescriptionBlock f <> [].
Proof. discriminate. Qed.

Lemma app_cons_nonempty {A} (l1 : list A) x l2 : (l1 ++ x :: l2)%list <> [].
Proof. destruct l1; discriminate. Qed.

(** Two transcripts, in the order of the listing. *)
Lemma renderContext_transcripts F1 f1 F2 f2 F3 imageDescFiles :
  appearsBefore (JS.join nl (McpServer.transcriptBlock f1))
                (JS.join nl (McpServer.transcriptBlock f2))
                (McpServer.renderContext (F1 ++ f1 :: F2 ++ f2 :: F3) imageDescFiles).
Proof.
  unfold McpServer.renderContext.
  rewrite addTranscripts_nonempty by apply app_cons_nonempty.
  destruct (addImageDescriptions_extends
              ([] ++ ["<transcripts>"]
                  ++ flat_map McpServer.transcriptBlock (F1 ++ f1 :: F2 ++ f2 :: F3)
                  ++ ["</transcripts>"])%list imageDescFiles) as [rest ->].
  rewrite <- !app_assoc.
  rewrite (parts_two McpServer.transcriptBlock [] "<transcripts>" "</transcripts>" rest).
  apply join_appearsBefore;
    [apply transcriptBlock_nonempty | apply transcriptBlock_nonempty].
Qed.

(** Two image descriptions, in the order of the listing. *)
Lemma renderContext_imageDescriptions transcriptFiles F1 f1 F2 f2 F3 :
  appearsBefore (JS.join nl (McpServer.imageDescriptionBlock f1))
                (JS.join nl (McpServer.imageDescriptionBlock f2))
                (McpServer.renderContext transcriptFiles (F1 ++ f1 :: F2 ++ f2 :: F3)).
Proof.
  unfold McpServer.renderContext.
  rewrite addImageDescriptions_nonempty by apply app_cons_nonempty.
  rewrite (parts_two McpServer.imageDescriptionBlock _
             "<image_descriptions>" "</image_descriptions>" []).
  apply join_appearsBefore;
    [apply imageDescriptionBlock_nonempty | apply imageDescriptionBlock_nonempty].
Qed.

(** A transcript and an image description: the transcript first. *)
Lemma renderContext_across F1 fa F2 G1 fb G2 :
  appearsBefore (JS.join nl (McpServer.transcriptBlock fa))
                (JS.join nl (McpServer.imageDescriptionBlock fb))
                (McpServer.renderContext (F1 ++ fa :: F2) (G1 ++ fb :: G2)).
Proof.
  unfold McpServer.renderContext.
  rewrite addTranscripts_nonempty by apply app_cons_nonempty.
  rewrite addImageDescriptions_nonempty by apply app_cons_nonempty.
  match goal with
  | |- appearsBefore _ _ (JS.join nl ?parts) =>
      replace parts with
        (("<transcripts>" :: flat_map McpServer.transcriptBlock F1)
           ++ McpServer.transcriptBlock fa
           ++ (flat_map McpServer.transcriptBlock F2
                 ++ ["</transcripts>"; "<image_descriptions>"]
                 ++ flat_map McpServer.imageDescriptionBlock G1)
           ++ McpServer.imageDescriptionBlock fb
           ++ (flat_map McpServer.imageDescriptionBlock G2
                 ++ ["</image_descriptions>"]))%list
  end.
  - apply join_appearsBefore;
      [apply transcriptBlock_nonempty | apply imageDescriptionBlock_nonempty].
  - rewrite !flat_map_app. cbn [flat_map]. rewrite <- !app_assoc. reflexivity.
Qed.

(** C1, as amended.  The context the query builds is the rendering of the
    two listings.  Within one category whose directory is healthy, the
    artifact written at a valid timestamp [t1] appears before the artifact
    written at a later valid timestamp [t2].  Across categories the
    grouping decides: every transcript appears before every image
    description, whatever their timestamps. *)
Theorem C1_context_order host w :
  exists w',
    McpServer.buildFullContext host w = (Returned (contextOf w), w')
    /\ (forall dir t1 t2 text1 text2,
          healthy (dirState dir w) ->
          validTimestamp t1 = true -> validTimestamp t2 = true ->
          timestampBefore t1 t2 ->
          holds (dirState dir w) t1 text1 -> holds (dirState dir w) t2 text2 ->
          appearsBefore (artifactText dir t1 (utf8Decode text1))
                        (artifactText dir t2 (utf8Decode text2))
                        (contextOf w))
    /\ (forall ta tb texta textb,
          healthy (transcripts w) -> healthy (images w) ->
          validTimestamp ta = true -> validTimestamp tb = true ->
          holds (transcripts w) ta texta -> holds (images w) tb textb ->
          appearsBefore (artifactText TRANSCRIPTS_DIR ta (utf8Decode texta))
                        (artifactText IMAGES_DIR tb (utf8Decode textb))
                        (contextOf w)).
Proof.
  destruct (buildFullContext_spec host w) as (w' & E & _).
  exists w'. split; [exact E|]. split.
  - intros dir t1 t2 text1 text2 Hh Hv1 Hv2 Hlt Hin1 Hin2.
    destruct (listText_ordered _ t1 t2 text1 text2 Hh Hv1 Hv2 Hlt Hin1 Hin2)
      as (F1 & F2 & F3 & EL).
    unfold contextOf. destruct dir; simpl dirState in EL; rewrite EL.
    + rewrite <- (transcriptBlock_text t1 _ Hv1), <- (transcriptBlock_text t2 _ Hv2).
      apply renderContext_transcripts.
    + rewrite <- (imageDescriptionBlock_text t1 _ Hv1),
              <- (imageDescriptionBlock_text t2 _ Hv2).
      apply renderContext_imageDescriptions.
  - intros ta tb texta textb Hht Hhi Hva Hvb Hina Hinb.
    destruct (listText_holds _ ta texta Hht Hina) as (F1 & F2 & ET).
    destruct (listText_holds _ tb textb Hhi Hinb) as (G1 & G2 & EI).
    unfold contextOf. rewrite ET, EI.
    rewrite <- (transcriptBlock_text ta _ Hva), <- (imageDescriptionBlock_text tb _ Hvb).
    apply renderContext_across.
Qed.

Lemma C1_witness :
  (healthy (dirState TRANSCRIPTS_DIR twoTranscriptsWorld)
   /\ validTimestamp "2025-05-17-02-40-20" = true
   /\ validTimestamp "2025-05-17-02-40-30" = true
   /\ timestampBefore "2025-05-17-02-40-20" "2025-05-17-02-40-30"
   /\ holds (dirState TRANSCRIPTS_DIR twoTranscriptsWorld)
            "2025-05-17-02-40-20" "Where are my keys?"
   /\ holds (dirState TRANSCRIPTS_DIR twoTranscriptsWorld)
            "2025-05-17-02-40-30" "Found them.")
  /\ appearsBefore
       (artifactText TRANSCRIPTS_DIR "2025-05-17-02-40-20" "Where are my keys?")
       (artifactText TRANSCRIPTS_DIR "2025-05-17-02-40-30" "Found them.")
       (contextOf twoTranscriptsWorld).
Proof.
  assert (Hh : healthy (dirState TRANSCRIPTS_DIR twoTranscriptsWorld)).
  { eexists. split; [reflexivity|]. split; [|reflexivity].
    repeat constructor; simpl; intuition discriminate. }
  assert (H1 : holds (dirState TRANSCRIPTS_DIR twoTranscriptsWorld)
                     "2025-05-17-02-40-20" "Where are my keys?")
    by (right; left; reflexivity).
  assert (H2 : holds (dirState TRANSCRIPTS_DIR twoTranscriptsWorld)
                     "2025-05-17-02-40-30" "Found them.")
    by (left; reflexivity).
  split; [repeat split; assumption|].
  destruct (C1_context_order sampleHost twoTranscriptsWorld) as (w' & _ & Hsame & _).
  exact (Hsame TRANSCRIPTS_DIR "2025-05-17-02-40-20" "2025-05-17-02-40-30"
               "Where are my keys?" "Found them." Hh eq_refl eq_refl eq_refl H1 H2).
Defined.

(** C1, as stated, fails across categories: the image description written
    at 02:40:24 is older than the transcript written at 02:40:30, yet in
    the context the transcript comes first and the description does not
    appear before it. *)
Lemma C1_counterexample :
  timestampBefore "2025-05-17-02-40-24" "2025-05-17-02-40-30"
  /\ holds (images crossWorld) "2025-05-17-02-40-24" "Keys on a table."
  /\ holds (transcripts crossWorld) "2025-05-17-02-40-30" "Where are my keys?"
  /\ fst (McpServer.buildFullContext sampleHost crossWorld)
     = Returned (contextOf crossWorld)
  /\ ~ appearsBefore
         (artifactText IMAGES_DIR "2025-05-17-02-40-24" "Keys on a table.")
         (artifactText TRANSCRIPTS_DIR "2025-05-17-02-40-30" "Where are my keys?")
         (contextOf crossWorld)
  /\ appearsBefore
       (artifactText TRANSCRIPTS_DIR "2025-05-17-02-40-30" "Where are my keys?")
       (artifactText IMAGES_DIR "2025-05-17-02-40-24" "Keys on a table.")
       (contextOf crossWorld).
Proof.
  split; [reflexivity|].
  split; [right; left; reflexivity|].
  split; [left; reflexivity|].
  split; [reflexivity|].
  split.
  - intros H. apply appearsBeforeb_spec in H. vm_compute in H. discriminate.
  - apply appearsBeforeb_spec. vm_compute. reflexivity.
Qed.

(** ** The calendar *)

Section Calendar.

Local Open Scope Z_scope.
Import DateTime.

Lemma DayFromYear_step y : DayFromYear (y + 1) - DayFromYear y = DaysInYear y.
Proof.
  unfold DayFromYear, DaysInYear.
  destruct (Z.eqb_spec (y mod 4) 0); destruct (Z.eqb_spec (y mod 100) 0);
    destruct (Z.eqb_spec (y mod 400) 0); cbn [negb];
    Z.to_euclidean_division_equations; lia.
Qed.

Lemma DayFromYear_mono a b : a <= b -> DayFromYear a <= DayFromYear b.
Proof. unfold DayFromYear. intros H. Z.to_euclidean_division_equations. lia. Qed.

Lemma YearFromDay_spec d :
  DayFromYear (YearFromDay d) <= d < DayFromYear (YearFromDay d + 1).
Proof.
  unfold YearFromDay. cbv zeta.
  destruct (Z.ltb_spec d (DayFromYear (1970 + 400 * d / 146097))).
  - unfold DayFromYear in *. Z.to_euclidean_division_equations. lia.
  - destruct (Z.leb_spec (DayFromYear (1970 + 400 * d / 146097 + 1)) d).
    + unfold DayFromYear in *. Z.to_euclidean_division_equations. lia.
    + unfold DayFromYear in *. Z.to_euclidean_division_equations. lia.
Qed.

Lemma DaysInYear_cases y : DaysInYear y = 365 \/ DaysInYear y = 366.
Proof.
  unfold DaysInYear.
  destruct (negb (y mod 4 =? 0)); auto.
  destruct (negb (y mod 100 =? 0)); auto.
  destruct (negb (y mod 400 =? 0)); auto.
Qed.

(** The month of a day of the year is the one whose days include it, and
    the date counts from the first day of the month. *)
Lemma monthOfDay_spec leap d :
  (leap = 0 \/ leap = 1) -> 0 <= d < 365 + leap ->
  0 <= monthOfDay leap d <= 11
  /\ monthStart leap (monthOfDay leap d) <= d
     < monthStart leap (monthOfDay leap d + 1)
  /\ dateOfDay leap d = d - monthStart leap (monthOfDay leap d) + 1.
Proof.
  intros Hleap Hd. unfold dateOfDay, monthOfDay.
  repeat match goal with
         | |- context [if ?a <? ?b then _ else _] => destruct (Z.ltb_spec a b)
         end;
    month_arith.
Qed.

Lemma monthStart_mono leap a b :
  0 <= leap -> 0 <= a -> a <= b -> b <= 12 ->
  monthStart leap a <= monthStart leap b.
Proof.
  intros Hleap Ha Hab Hb.
  assert (Ha' : a = 0 \/ a = 1 \/ a = 2 \/ a = 3 \/ a = 4 \/ a = 5 \/ a = 6
                \/ a = 7 \/ a = 8 \/ a = 9 \/ a = 10 \/ a = 11 \/ a = 12) by lia.
  assert (Hb' : b = 0 \/ b = 1 \/ b = 2 \/ b = 3 \/ b = 4 \/ b = 5 \/ b = 6
                \/ b = 7 \/ b = 8 \/ b = 9 \/ b = 10 \/ b = 11 \/ b = 12) by lia.
  repeat (destruct Ha' as [-> | Ha']); try subst a;
    repeat (destruct Hb' as [-> | Hb']); try subst b;
    cbn [monthStart]; lia.
Qed.

Lemma monthLength_bound leap m :
  (leap = 0 \/ leap = 1) -> 0 <= m <= 11 ->
  monthStart leap (m + 1) - monthStart leap m <= 31.
Proof.
  intros Hleap Hm.
  assert (Hm' : m = 0 \/ m = 1 \/ m = 2 \/ m = 3 \/ m = 4 \/ m = 5 \/ m = 6
                \/ m = 7 \/ m = 8 \/ m = 9 \/ m = 10 \/ m = 11) by lia.
  repeat (destruct Hm' as [-> | Hm']); try subst m;
    month_arith.
Qed.

Lemma InLeapYear_cases t : InLeapYear t = 0 \/ InLeapYear t = 1.
Proof. unfold InLeapYear. destruct (_ =? 366); auto. Qed.

Lemma DayWithinYear_bounds t : 0 <= DayWithinYear t < 365 + InLeapYear t.
Proof.
  unfold DayWithinYear, InLeapYear, YearFromTime.
  pose proof (YearFromDay_spec (Day t)) as Hy.
  pose proof (DayFromYear_step (YearFromDay (Day t))) as Hs.
  destruct (DaysInYear_cases (YearFromDay (Day t))) as [E | E]; rewrite E in *;
    cbn [Z.eqb Pos.eqb]; lia.
Qed.

Lemma MonthFromTime_bounds t : 0 <= MonthFromTime t <= 11.
Proof.
  unfold MonthFromTime.
  apply (monthOfDay_spec _ _ (InLeapYear_cases t) (DayWithinYear_bounds t)).
Qed.

Lemma DateFromTime_bounds t : 1 <= DateFromTime t <= 31.
Proof.
  unfold DateFromTime.
  destruct (monthOfDay_spec _ _ (InLeapYear_cases t) (DayWithinYear_bounds t))
    as (Hm & Hd & ->).
  pose proof (monthLength_bound _ _ (InLeapYear_cases t) Hm). lia.
Qed.

(** The order of days is the order of their dates: year, then month,
    then day of the month. *)
Lemma calendar_compare t1 t2 :
  (Day t1 ?= Day t2)
  = lex (YearFromTime t1 ?= YearFromTime t2)
        (lex (MonthFromTime t1 ?= MonthFromTime t2)
             (DateFromTime t1 ?= DateFromTime t2)).
Proof.
  pose proof (YearFromDay_spec (Day t1)) as Hy1.
  pose proof (YearFromDay_spec (Day t2)) as Hy2.
  fold (YearFromTime t1) in Hy1. fold (YearFromTime t2) in Hy2.
  destruct (Z.compare_spec (YearFromTime t1) (YearFromTime t2)) as [Ey | Hlt | Hgt];
    cbn [lex].
  - unfold MonthFromTime, DateFromTime.
    destruct (monthOfDay_spec _ _ (InLeapYear_cases t1) (DayWithinYear_bounds t1))
      as (Hm1 & Hd1 & ->).
    destruct (monthOfDay_spec _ _ (InLeapYear_cases t2) (DayWithinYear_bounds t2))
      as (Hm2 & Hd2 & ->).
    assert (Hleap : InLeapYear t2 = InLeapYear t1)
      by (unfold InLeapYear; rewrite Ey; reflexivity).
    rewrite Hleap in *.
    assert (Hdiff : DayWithinYear t1 - DayWithinYear t2 = Day t1 - Day t2)
      by (unfold DayWithinYear; rewrite Ey; lia).
    set (m1 := monthOfDay (InLeapYear t1) (DayWithinYear t1)) in *.
    set (m2 := monthOfDay (InLeapYear t1) (DayWithinYear t2)) in *.
    pose proof (InLeapYear_cases t1) as Hl.
    destruct (Z.compare_spec m1 m2) as [Em | Hmlt | Hmgt]; cbn [lex].
    + rewrite Em.
      destruct (Z.compare_spec (Day t1) (Day t2));
        destruct (Z.compare_spec
                    (DayWithinYear t1 - monthStart (InLeapYear t1) m2 + 1)
                    (DayWithinYear t2 - monthStart (InLeapYear t1) m2 + 1));
        try reflexivity; lia.
    + pose proof (monthStart_mono (InLeapYear t1) (m1 + 1) m2) as Hmono.
      apply Z.compare_lt_iff. lia.
    + pose proof (monthStart_mono (InLeapYear t1) (m2 + 1) m1) as Hmono.
      apply Z.compare_gt_iff. lia.
  - pose proof (DayFromYear_mono (YearFromTime t1 + 1) (YearFromTime t2)) as Hmono.
    apply Z.compare_lt_iff. lia.
  - pose proof (DayFromYear_mono (YearFromTime t2 + 1) (YearFromTime t1)) as Hmono.
    apply Z.compare_gt_iff. lia.
Qed.

(** The order of seconds is the order of day, hour, minute and
    second. *)
Lemma clock_compare t1 t2 :
  (t1 / 1000 ?= t2 / 1000)
  = lex (Day t1 ?= Day t2)
        (lex (HourFromTime t1 ?= HourFromTime t2)
             (lex (MinFromTime t1 ?= MinFromTime t2)
                  (SecFromTime t1 ?= SecFromTime t2))).
Proof.
  unfold Day, HourFromTime, MinFromTime, SecFromTime,
    msPerDay, msPerHour, msPerMinute, msPerSecond.
  repeat match goal with
         | |- context [?a ?= ?b] => destruct (Z.compare_spec a b)
         end;
    cbn [lex];
    first [reflexivity | exfalso; Z.to_euclidean_division_equations; lia].
Qed.

Lemma clock_bounds t :
  0 <= HourFromTime t <= 23 /\ 0 <= MinFromTime t <= 59 /\ 0 <= SecFromTime t <= 59.
Proof.
  unfold HourFromTime, MinFromTime, SecFromTime.
  Z.to_euclidean_division_equations. lia.
Qed.

End Calendar.

(** ** The order of rendered timestamps *)

Lemma lex_assoc a b c : lex (lex a b) c = lex a (lex b c).
Proof. destruct a; reflexivity. Qed.

Lemma ascii_compare_refl c : Ascii.compare c c = Eq.
Proof. unfold Ascii.compare. apply N.compare_refl. Qed.

Lemma string_compare_refl s : String.compare s s = Eq.
Proof. induction s as [|c s IH]; simpl; [reflexivity|]. rewrite ascii_compare_refl. exact IH. Qed.

Lemma compare_append a :
  forall b x y,
  String.length a = String.length b ->
  String.compare (a ++ x) (b ++ y) = lex (String.compare a b) (String.compare x y).
Proof.
  induction a as [|c a IH]; intros [|c' b] x y Hlen; simpl in *; try discriminate.
  - reflexivity.
  - destruct (Ascii.compare c c'); try reflexivity. apply IH. congruence.
Qed.

Lemma compare_separator sep x y :
  String.compare (sep ++ x) (sep ++ y) = String.compare x y.
Proof. rewrite compare_append by reflexivity. rewrite string_compare_refl. reflexivity. Qed.

Lemma comparisonEqb_eq a b : comparisonEqb a b = true -> a = b.
Proof. destruct a, b; simpl; congruence. Qed.

Lemma pad_compare m n :
  (0 <= m <= 99)%Z -> (0 <= n <= 99)%Z ->
  String.compare (WebServer.pad m) (WebServer.pad n) = (m ?= n)%Z.
Proof.
  intros Hm Hn.
  assert (H : forallb
                (fun i =>
                   forallb
                     (fun j =>
                        comparisonEqb
                          (String.compare (WebServer.pad (Z.of_nat i))
                                          (WebServer.pad (Z.of_nat j)))
                          (Z.of_nat i ?= Z.of_nat j)%Z)
                     (seq 0 100))
                (seq 0 100) = true) by (vm_compute; reflexivity).
  rewrite forallb_forall in H.
  specialize (H (Z.to_nat m) ltac:(apply in_seq; lia)).
  rewrite forallb_forall in H.
  specialize (H (Z.to_nat n) ltac:(apply in_seq; lia)).
  rewrite !Z2Nat.id in H by lia. apply comparisonEqb_eq. exact H.
Qed.

Lemma pad_length n : (0 <= n <= 99)%Z -> String.length (WebServer.pad n) = 2.
Proof.
  intros Hn.
  assert (H : forallb (fun i => (String.length (WebServer.pad (Z.of_nat i)) =? 2)%nat)
                      (seq 0 100) = true) by (vm_compute; reflexivity).
  rewrite forallb_forall in H.
  specialize (H (Z.to_nat n) ltac:(apply in_seq; lia)).
  rewrite Z2Nat.id in H by lia. apply Nat.eqb_eq. exact H.
Qed.

(** A year of four digits is written as its century and its year of the
    century, two digits each. *)
Lemma year_string y :
  (1000 <= y <= 9999)%Z ->
  JS.numberToString y = WebServer.pad (y / 100) ++ WebServer.pad (y mod 100).
Proof.
  intros Hy.
  assert (H : forallb
                (fun i =>
                   forallb
                     (fun j =>
                        let y := (1000 + 100 * Z.of_nat i + Z.of_nat j)%Z in
                        JS.numberToString y
                        =? WebServer.pad (y / 100) ++ WebServer.pad (y mod 100))
                     (seq 0 100))
                (seq 0 90) = true) by (vm_compute; reflexivity).
  assert (Hq : (10 <= y / 100 <= 99 /\ 0 <= y mod 100 <= 99
                /\ y = 100 * (y / 100) + y mod 100)%Z)
    by (Z.to_euclidean_division_equations; lia).
  rewrite forallb_forall in H.
  specialize (H (Z.to_nat (y / 100 - 10)) ltac:(apply in_seq; lia)).
  rewrite forallb_forall in H.
  specialize (H (Z.to_nat (y mod 100)) ltac:(apply in_seq; lia)).
  cbv zeta in H. rewrite !Z2Nat.id in H by lia.
  replace (1000 + 100 * (y / 100 - 10) + y mod 100)%Z with y in H by lia.
  apply String.eqb_eq. exact H.
Qed.

Lemma year_compare y1 y2 :
  (1000 <= y1 <= 9999)%Z -> (1000 <= y2 <= 9999)%Z ->
  String.compare (JS.numberToString y1) (JS.numberToString y2) = (y1 ?= y2)%Z
  /\ String.length (JS.numberToString y1) = String.length (JS.numberToString y2).
Proof.
  intros H1 H2. rewrite (year_string y1 H1), (year_string y2 H2).
  assert (B1 : (0 <= y1 / 100 <= 99 /\ 0 <= y1 mod 100 <= 99)%Z)
    by (Z.to_euclidean_division_equations; lia).
  assert (B2 : (0 <= y2 / 100 <= 99 /\ 0 <= y2 mod 100 <= 99)%Z)
    by (Z.to_euclidean_division_equations; lia).
  destruct B1 as [B1 B1']. destruct B2 as [B2 B2']. split.
  - rewrite compare_append by (rewrite !pad_length; auto).
    rewrite !pad_compare by assumption.
    destruct (Z.compare_spec (y1 / 100) (y2 / 100));
      destruct (Z.compare_spec (y1 mod 100) (y2 mod 100));
      destruct (Z.compare_spec y1 y2); cbn [lex]; try reflexivity;
      exfalso; Z.to_euclidean_division_equations; lia.
  - rewrite !length_append, !pad_length by assumption. reflexivity.
Qed.

Lemma render_compare y1 y2 a1 a2 b1 b2 c1 c2 e1 e2 f1 f2 :
  (1000 <= y1 <= 9999)%Z -> (1000 <= y2 <= 9999)%Z ->
  (0 <= a1 <= 99)%Z -> (0 <= a2 <= 99)%Z ->
  (0 <= b1 <= 99)%Z -> (0 <= b2 <= 99)%Z ->
  (0 <= c1 <= 99)%Z -> (0 <= c2 <= 99)%Z ->
  (0 <= e1 <= 99)%Z -> (0 <= e2 <= 99)%Z ->
  (0 <= f1 <= 99)%Z -> (0 <= f2 <= 99)%Z ->
  String.compare
    (JS.numberToString y1 ++ "-" ++ WebServer.pad a1 ++ "-" ++ WebServer.pad b1 ++ "-"
       ++ WebServer.pad c1 ++ "-" ++ WebServer.pad e1 ++ "-" ++ WebServer.pad f1)
    (JS.numberToString y2 ++ "-" ++ WebServer.pad a2 ++ "-" ++ WebServer.pad b2 ++ "-"
       ++ WebServer.pad c2 ++ "-" ++ WebServer.pad e2 ++ "-" ++ WebServer.pad f2)
  = lex (y1 ?= y2)%Z
        (lex (a1 ?= a2)%Z
             (lex (b1 ?= b2)%Z
                  (lex (c1 ?= c2)%Z (lex (e1 ?= e2)%Z (f1 ?= f2)%Z)))).
Proof.
  intros Hy1 Hy2 Ha1 Ha2 Hb1 Hb2 Hc1 Hc2 He1 He2 Hf1 Hf2.
  destruct (year_compare y1 y2 Hy1 Hy2) as [Hy Hlen].
  rewrite (compare_append _ _ _ _ Hlen), Hy, compare_separator.
  rewrite compare_append by (rewrite !pad_length; auto).
  rewrite (pad_compare a1 a2 Ha1 Ha2), compare_separator.
  rewrite compare_append by (rewrite !pad_length; auto).
  rewrite (pad_compare b1 b2 Hb1 Hb2), compare_separator.
  rewrite compare_append by (rewrite !pad_length; auto).
  rewrite (pad_compare c1 c2 Hc1 Hc2), compare_separator.
  rewrite compare_append by (rewrite !pad_length; auto).
  rewrite (pad_compare e1 e2 He1 He2), compare_separator.
  rewrite (pad_compare f1 f2 Hf1 Hf2). reflexivity.
Qed.

Lemma compare_add_r a b c : (a + c ?= b + c)%Z = (a ?= b)%Z.
Proof. rewrite !(Z.add_comm _ c). apply Z.add_compare_mono_l. Qed.

Lemma localSecond_offset host d :
  localSecond host d = (d / 1000 + utcOffset host d)%Z.
Proof.
  unfold localSecond, DateTime.LocalTime, DateTime.msPerSecond.
  rewrite (Z.mul_comm 1000). apply Z.div_add. lia.
Qed.

(** ** Generated timestamps are canonical *)

Lemma matchesTemplate_append tpl1 :
  forall s1 tpl2 s2,
  matchesTemplate tpl1 s1 = true -> matchesTemplate tpl2 s2 = true ->
  matchesTemplate (tpl1 ++ tpl2) (s1 ++ s2) = true.
Proof.
  induction tpl1 as [|p tpl1 IH]; intros [|c s1] tpl2 s2 H1 H2;
    cbn [matchesTemplate append] in *; try discriminate; [exact H2|].
  apply andb_true_iff in H1. destruct H1 as [Hc H1].
  rewrite Hc, (IH _ _ _ H1 H2). reflexivity.
Qed.

Lemma pad_template n :
  (0 <= n <= 99)%Z -> matchesTemplate "dd" (WebServer.pad n) = true.
Proof.
  intros Hn.
  assert (H : forallb (fun i => matchesTemplate "dd" (WebServer.pad (Z.of_nat i)))
                      (seq 0 100) = true) by (vm_compute; reflexivity).
  rewrite forallb_forall in H.
  specialize (H (Z.to_nat n) ltac:(apply in_seq; lia)).
  rewrite Z2Nat.id in H by lia. exact H.
Qed.

(** In the years of four digits, the name the ingestion server generates
    has the canonical shape. *)
Lemma formatTimestamp_valid host d :
  (1000 <= DateTime.getFullYear (utcOffset host) d <= 9999)%Z ->
  validTimestamp (WebServer.formatTimestamp host d) = true.
Proof.
  intros Hy. unfold WebServer.formatTimestamp, validTimestamp.
  rewrite (year_string _ Hy).
  unfold DateTime.getFullYear, DateTime.getMonth, DateTime.getDate,
    DateTime.getHours, DateTime.getMinutes, DateTime.getSeconds in *.
  set (t := DateTime.LocalTime (utcOffset host) d) in *.
  pose proof (MonthFromTime_bounds t). pose proof (DateFromTime_bounds t).
  destruct (clock_bounds t) as (? & ? & ?).
  set (y := DateTime.YearFromTime t) in *.
  assert (By : (0 <= y / 100 <= 99 /\ 0 <= y mod 100 <= 99)%Z)
    by (Z.to_euclidean_division_equations; lia).
  change "dddd-dd-dd-dd-dd-dd"
    with (("dd" ++ "dd") ++ "-" ++ "dd" ++ "-" ++ "dd" ++ "-" ++ "dd" ++ "-" ++ "dd"
            ++ "-" ++ "dd").
  apply matchesTemplate_append;
    [apply matchesTemplate_append; apply pad_template; lia|].
  repeat (apply (matchesTemplate_append "-" "-"); [reflexivity|];
          try (apply matchesTemplate_append; [apply pad_template; lia|])).
  apply pad_template; lia.
Qed.

(** ** C9: the order of timestamps and the order of instants *)

(** The strings compare as the seconds of local time do, when both years
    have four digits. *)
Lemma formatTimestamp_compare host d1 d2 :
  (1000 <= DateTime.getFullYear (utcOffset host) d1 <= 9999)%Z ->
  (1000 <= DateTime.getFullYear (utcOffset host) d2 <= 9999)%Z ->
  String.compare (WebServer.formatTimestamp host d1) (WebServer.formatTimestamp host d2)
  = (localSecond host d1 ?= localSecond host d2)%Z.
Proof.
  intros Hy1 Hy2. unfold WebServer.formatTimestamp.
  unfold DateTime.getFullYear, DateTime.getMonth, DateTime.getDate,
    DateTime.getHours, DateTime.getMinutes, DateTime.getSeconds in *.
  set (t1 := DateTime.LocalTime (utcOffset host) d1) in *.
  set (t2 := DateTime.LocalTime (utcOffset host) d2) in *.
  pose proof (MonthFromTime_bounds t1). pose proof (MonthFromTime_bounds t2).
  pose proof (DateFromTime_bounds t1). pose proof (DateFromTime_bounds t2).
  destruct (clock_bounds t1) as (? & ? & ?). destruct (clock_bounds t2) as (? & ? & ?).
  rewrite render_compare by lia.
  unfold localSecond. fold t1 t2.
  rewrite clock_compare, calendar_compare, !lex_assoc.
  rewrite compare_add_r. reflexivity.
Qed.

(** C9, as amended.  For two instants at which local time has the same
    offset from UTC and whose local years have four digits, the encoded
    timestamps compare as the seconds the instants fall in: an instant at
    least one second after another has the later timestamp, and two
    instants of the same second have the same timestamp. *)
Theorem C9_timestamp_order host d1 d2 :
  utcOffset host d1 = utcOffset host d2 ->
  (1000 <= DateTime.getFullYear (utcOffset host) d1 <= 9999)%Z ->
  (1000 <= DateTime.getFullYear (utcOffset host) d2 <= 9999)%Z ->
  String.compare (WebServer.formatTimestamp host d1) (WebServer.formatTimestamp host d2)
  = (d1 / 1000 ?= d2 / 1000)%Z
  /\ ((d1 + 1000 <= d2)%Z ->
      timestampBefore (WebServer.formatTimestamp host d1)
                      (WebServer.formatTimestamp host d2))
  /\ ((d1 / 1000 = d2 / 1000)%Z ->
      WebServer.formatTimestamp host d1 = WebServer.formatTimestamp host d2).
Proof.
  intros Hoff Hy1 Hy2.
  assert (Hcmp : String.compare (WebServer.formatTimestamp host d1)
                                (WebServer.formatTimestamp host d2)
                 = (d1 / 1000 ?= d2 / 1000)%Z).
  { rewrite (formatTimestamp_compare host d1 d2 Hy1 Hy2).
    rewrite !localSecond_offset, Hoff. apply compare_add_r. }
  split; [exact Hcmp|]. split.
  - intros Hlater. unfold timestampBefore. rewrite Hcmp.
    apply Z.compare_lt_iff. Z.to_euclidean_division_equations. lia.
  - intros Hsame. apply String.compare_eq_iff. rewrite Hcmp, Hsame.
    apply Z.compare_refl.
Qed.

Lemma C9_witness :
  (utcOffset sampleHost 1747446024000 = utcOffset sampleHost 1747446025500
   /\ (1000 <= DateTime.getFullYear (utcOffset sampleHost) 1747446024000 <= 9999)%Z
   /\ (1000 <= DateTime.getFullYear (utcOffset sampleHost) 1747446025500 <= 9999)%Z
   /\ (1747446024000 + 1000 <= 1747446025500)%Z)
  /\ timestampBefore (WebServer.formatTimestamp sampleHost 1747446024000)
                     (WebServer.formatTimestamp sampleHost 1747446025500).
Proof.
  assert (H1 : (1000 <= DateTime.getFullYear (utcOffset sampleHost) 1747446024000 <= 9999)%Z)
    by (vm_compute; split; discriminate).
  assert (H2 : (1000 <= DateTime.getFullYear (utcOffset sampleHost) 1747446025500 <= 9999)%Z)
    by (vm_compute; split; discriminate).
  assert (H3 : (1747446024000 + 1000 <= 1747446025500)%Z) by lia.
  split; [repeat split; assumption|].
  destruct (C9_timestamp_order sampleHost 1747446024000 1747446025500 eq_refl H1 H2)
    as (_ & Hlater & _).
  exact (Hlater H3).
Defined.

(** C9, as stated, fails where local time is set back: on the night
    daylight saving time ends, 05:30 UTC is 01:30 local time and 06:10 UTC,
    forty minutes later, is 01:10 local time, so the later instant has the
    earlier timestamp. *)
Lemma C9_counterexample :
  (1762061400000 + 1000 <= 1762063800000)%Z
  /\ WebServer.formatTimestamp easternHost 1762061400000 = "2025-11-02-01-30-00"
  /\ WebServer.formatTimestamp easternHost 1762063800000 = "2025-11-02-01-10-00"
  /\ String.compare (WebServer.formatTimestamp easternHost 1762061400000)
                    (WebServer.formatTimestamp easternHost 1762063800000) = Gt.
Proof. split; [lia|]. repeat split; vm_compute; reflexivity. Qed.

(** ** What a step reads and what it sends *)

Lemma requestsSent_record ev w :
  requestsSent (record ev w) = requestsSent w + (if isFetch ev then 1 else 0).
Proof.
  unfold requestsSent, record. cbn [trace].
  rewrite filter_app, length_app. cbn [filter].
  destruct (isFetch ev); reflexivity.
Qed.

Lemma onlyRead_refl w : onlyRead w w.
Proof. split; [apply sameFiles_refl | split; reflexivity]. Qed.

Lemma onlyRead_trans w1 w2 w3 : onlyRead w1 w2 -> onlyRead w2 w3 -> onlyRead w1 w3.
Proof.
  intros (S1 & R1 & L1) (S2 & R2 & L2).
  split; [eapply sameFiles_trans; eassumption | split; congruence].
Qed.

Lemma onlyRead_record ev w : isFetch ev = false -> onlyRead w (record ev w).
Proof.
  intros H. split; [apply sameFiles_record|]. split; [|reflexivity].
  rewrite requestsSent_record, H. apply Nat.add_0_r.
Qed.

Lemma onlyRead_logError message w :
  onlyRead w (snd (McpServer.logError message w)).
Proof. split; [|split]; reflexivity || (repeat split). Qed.

Lemma onlyRead_afterReads d names : forall w, onlyRead w (afterReads d names w).
Proof.
  induction names as [|n names IH]; intros w; [apply onlyRead_refl|].
  cbn [afterReads fold_left]. eapply onlyRead_trans; [|apply IH].
  apply onlyRead_record. reflexivity.
Qed.

(** [Promise.all] over the reads of a directory requests every file,
    whatever the reads give. *)
Lemma promiseAll_world host d names :
  forall w,
  snd (promiseAll
         (map (fun filename =>
                 bind (readTextFile host d filename)
                      (fun content => ret (McpServer.mkTextFile filename content)))
              names) w)
  = afterReads d names w.
Proof.
  induction names as [|n names IH]; intros w; [reflexivity|].
  cbn [map promiseAll afterReads fold_left]. unfold bind at 1.
  rewrite readTextFile_run. specialize (IH (record (EvReadFile d n) w)).
  match goal with
  | |- context [match ?o with Returned _ => ret _ _ | Thrown _ => _ end] =>
      destruct o as [c|e]
  end; unfold ret;
  destruct (promiseAll _ (record (EvReadFile d n) w)) as [[l|e'] w2];
  simpl in IH |- *; exact IH.
Qed.

Lemma readTextFilesFromDir_onlyRead host dir w :
  onlyRead w (snd (McpServer.readTextFilesFromDir host dir w)).
Proof.
  rewrite readTextFilesFromDir_run. cbv zeta.
  assert (Hr : onlyRead w (record (EvReaddir dir) w))
    by (apply onlyRead_record; reflexivity).
  destruct (dirState dir w) as [|err|entries].
  - eapply onlyRead_trans; [exact Hr|]. unfold bind. cbn.
    split; [|split]; repeat split.
  - eapply onlyRead_trans; [exact Hr|]. unfold bind. cbn.
    split; [|split]; repeat split.
  - pose proof (promiseAll_world host dir
                  (McpServer.sort McpServer.byTimestamp (textNames entries))
                  (record (EvReaddir dir) w)) as Hw.
    destruct (promiseAll _ _) as [[l|e] w2]; simpl in Hw; subst w2.
    + eapply onlyRead_trans; [exact Hr | apply onlyRead_afterReads].
    + eapply onlyRead_trans; [exact Hr|].
      eapply onlyRead_trans; [apply onlyRead_afterReads|].
      unfold bind. cbn. split; [|split]; repeat split.
Qed.

Ltac solve_onlyRead :=
  split; [repeat split|];
  split; [unfold requestsSent; cbn; rewrite ?filter_app; cbn;
          rewrite ?app_nil_r; reflexivity
         | reflexivity].

Lemma getCorrespondingImage_onlyRead host textFilename w :
  onlyRead w (snd (McpServer.getCorrespondingImage host textFilename w)).
Proof.
  unfold McpServer.getCorrespondingImage, tryCatch.
  unfold bind at 1. unfold readdir. simpl dirState.
  destruct (images w) as [|err|entries] eqn:Hd.
  - solve_onlyRead.
  - solve_onlyRead.
  - destruct (find _ (map fst entries)) as [imageFile|]; [|solve_onlyRead].
    destruct (imageFile =? ""); [solve_onlyRead|].
    unfold bind, readFile. simpl dirState. cbn [images record]. rewrite Hd.
    destruct (lookupFile imageFile entries) as [[bytes|err]|]; solve_onlyRead.
Qed.

Lemma buildFullContext_onlyRead host w :
  onlyRead w (snd (McpServer.buildFullContext host w)).
Proof.
  unfold McpServer.buildFullContext.
  pose proof (readTextFilesFromDir_onlyRead host TRANSCRIPTS_DIR w) as H1.
  destruct (readTextFilesFromDir_spec host TRANSCRIPTS_DIR w) as (w1 & E1 & _).
  rewrite E1 in H1. rewrite (bind_Returned _ _ _ _ _ E1).
  pose proof (readTextFilesFromDir_onlyRead host IMAGES_DIR w1) as H2.
  destruct (readTextFilesFromDir_spec host IMAGES_DIR w1) as (w2 & E2 & _).
  rewrite E2 in H2. rewrite (bind_Returned _ _ _ _ _ E2).
  exact (onlyRead_trans _ _ _ H1 H2).
Qed.

Lemma addImageIfRelevant_onlyRead host responseContent citedTimestamp w :
  onlyRead w (snd (McpServer.addImageIfRelevant host responseContent citedTimestamp w)).
Proof.
  unfold McpServer.addImageIfRelevant.
  destruct citedTimestamp as [t|]; [|apply onlyRead_refl].
  destruct (t =? ""); [apply onlyRead_refl|].
  pose proof (getCorrespondingImage_onlyRead host (t ++ ".txt") w) as H.
  destruct (getCorrespondingImage_spec host (t ++ ".txt") w) as (w1 & E & _).
  rewrite E in H. rewrite (bind_Returned _ _ _ _ _ E).
  destruct (findImage host (images w) (t ++ ".txt")); exact H.
Qed.

Lemma buildResponse_onlyRead host answerText citedTimestamp w :
  onlyRead w (snd (McpServer.buildResponse host answerText citedTimestamp w)).
Proof.
  unfold McpServer.buildResponse.
  pose proof (addImageIfRelevant_onlyRead host [] citedTimestamp w) as H.
  destruct (addImageIfRelevant_spec host [] citedTimestamp w) as (w1 & E & _).
  rewrite E in H. rewrite (bind_Returned _ _ _ _ _ E). exact H.
Qed.

(** The reasoning step leaves the files alone and sends one request,
    unless the key is missing. *)
Lemma askAnthropicWithContext_effects host q ctx w :
  sameFiles w (snd (McpServer.askAnthropicWithContext host q ctx w))
  /\ requestsSent (snd (McpServer.askAnthropicWithContext host q ctx w))
     = requestsSent w + (if keyMissing host then 0 else 1).
Proof.
  unfold McpServer.askAnthropicWithContext.
  destruct (keyMissing host).
  - split; [apply sameFiles_refl | symmetry; apply Nat.add_0_r].
  - destruct (logSection_run "PROMPT SENT TO CLAUDE"
                (McpServer.constructPrompt q ctx) w) as (w1 & E1 & S1 & T1).
    rewrite (bind_Returned _ _ _ _ _ E1).
    assert (R1 : requestsSent (record EvFetch w1) = requestsSent w + 1).
    { rewrite requestsSent_record. unfold requestsSent. rewrite T1. reflexivity. }
    assert (S2 : sameFiles w (record EvFetch w1)).
    { eapply sameFiles_trans; [exact S1 | apply sameFiles_record]. }
    unfold bind, fetch.
    destruct (remote host _) as [message|resp]; [cbn [snd]; split; assumption|].
    destruct (respOk resp); cbn [negb]; [|cbn [snd]; split; assumption].
    unfold json.
    destruct (respJson resp) as [data|]; [|cbn [snd]; split; assumption].
    unfold ret at 1 2. cbv beta iota.
    destruct (processResponse_spec data (record EvFetch w1)) as (w2 & E2 & S3 & T3).
    rewrite E2. cbn [snd].
    split; [eapply sameFiles_trans; eassumption|].
    unfold requestsSent in *. rewrite T3. exact R1.
Qed.

(** A query with a question that passes the guard: the context is built,
    the reasoning step runs, and its result, if there is one, is turned
    into the response. *)
Lemma answerFromContext_run host q w :
  q <> "" ->
  exists w1,
    McpServer.buildFullContext host w = (Returned (contextOf w), w1)
    /\ onlyRead w w1
    /\ McpServer.answerFromContext host (Some (JStr q)) w
       = match McpServer.askAnthropicWithContext host q (contextOf w) w1 with
         | (Returned r, w2) =>
             McpServer.buildResponse host (McpServer.answer r)
                                     (McpServer.relevantImageTimestamp r) w2
         | (Thrown e, w2) => (Thrown e, w2)
         end.
Proof.
  intros Hq.
  pose proof (buildFullContext_onlyRead host w) as Hr.
  destruct (buildFullContext_spec host w) as (w1 & E1 & _).
  rewrite E1 in Hr. exists w1. split; [exact E1|]. split; [exact Hr|].
  unfold McpServer.answerFromContext.
  assert (Hne : (q =? "") = false) by (apply String.eqb_neq; exact Hq).
  cbn [truthy isString]. rewrite Hne. cbn [negb orb].
  rewrite (bind_Returned _ _ _ _ _ E1). fold (contextOf w).
  unfold bind at 1. reflexivity.
Qed.

Lemma validQuestion_inv question :
  validQuestion question = true -> exists q, question = Some (JStr q) /\ q <> "".
Proof.
  destruct question as [[| b | n | q | items | fields]|]; try discriminate.
  cbn. intros H. exists q. split; [reflexivity|].
  apply negb_true_iff in H. apply String.eqb_neq. exact H.
Qed.

Lemma answerFromContext_invalid host question w :
  validQuestion question = false ->
  McpServer.answerFromContext host question w
  = (Thrown "Missing or invalid 'question' parameter", w).
Proof.
  destruct question as [[| b | n | q | items | fields]|]; try reflexivity.
  cbn [validQuestion]. intros H. apply negb_false_iff in H.
  unfold McpServer.answerFromContext. cbn [truthy isString]. rewrite H. reflexivity.
Qed.

(** When the reasoning API answers, the query returns: the image part the
    cited timestamp resolves to, if any, then the parsed answer. *)
Lemma answerFromContext_ok host q w resp data :
  q <> "" ->
  keyMissing host = false ->
  remote host (sentRequest host q w) = Fetched resp ->
  respOk resp = true ->
  respJson resp = Some data ->
  exists w',
    McpServer.answerFromContext host (Some (JStr q)) w
    = (Returned (McpServer.mkToolResult
                   (resolve host (images w)
                            (McpServer.relevantImageTimestamp (parseResult data))
                      ++ [McpServer.TextContent (McpServer.answer (parseResult data))])%list),
       w')
    /\ sameFiles w w'.
Proof.
  intros Hq Hkey Hremote Hok Hjson.
  destruct (answerFromContext_run host q w Hq) as (w1 & _ & (S1 & _) & ->).
  destruct (askAnthropicWithContext_ok host q (contextOf w) w1 resp data
              Hkey Hremote Hok Hjson) as (w2 & E2 & S2).
  rewrite E2.
  destruct (buildResponse_spec host (McpServer.answer (parseResult data))
              (McpServer.relevantImageTimestamp (parseResult data)) w2)
    as (w3 & E3 & S3).
  exists w3. rewrite E3.
  assert (S : sameFiles w w2) by (eapply sameFiles_trans; eassumption).
  destruct S as (_ & Hi & _). rewrite Hi.
  split; [reflexivity|].
  eapply sameFiles_trans; [|exact S3]. eapply sameFiles_trans; eassumption.
Qed.

(** ** Queries: what is refused, what is sent, what is left alone *)

(** X1.  A query whose question is missing, is not a string or is the
    empty string is refused with the message of the guard before anything
    is done: no directory is listed, nothing is logged, no request is
    sent, and the world is the one the query started in. *)
Theorem X1_invalid_question_refused host question w :
  validQuestion question = false ->
  McpServer.answerFromContext host question w
  = (Thrown "Missing or invalid 'question' parameter", w).
Proof.
  destruct question as [[| b | n | q | items | fields]|]; try reflexivity.
  cbn [validQuestion]. intros H. apply negb_false_iff in H.
  unfold McpServer.answerFromContext. cbn [truthy isString].
  rewrite H. reflexivity.
Qed.

Lemma X1_witness :
  validQuestion (Some (JStr "")) = false
  /\ McpServer.answerFromContext sampleHost (Some (JStr "")) sampleWorld
     = (Thrown "Missing or invalid 'question' parameter", sampleWorld).
Proof.
  split; [reflexivity|].
  apply (X1_invalid_question_refused sampleHost (Some (JStr "")) sampleWorld).
  reflexivity.
Defined.

(** X2.  Without an API key a query with a valid question fails with the
    message that names the missing variable.  The store has been read by
    then, but files and clock are as they were, no request has been sent
    and nothing has been written to the log of prompts and responses. *)
Theorem X2_missing_key host q w :
  q <> "" ->
  keyMissing host = true ->
  exists w',
    McpServer.answerFromContext host (Some (JStr q)) w
    = (Thrown keyMissingMessage, w')
    /\ onlyRead w w'.
Proof.
  intros Hq Hkey.
  destruct (answerFromContext_run host q w Hq) as (w1 & _ & Hr & ->).
  unfold McpServer.askAnthropicWithContext. rewrite Hkey.
  exists w1. split; [reflexivity | exact Hr].
Qed.

Lemma X2_witness :
  ("Where are my keys?" <> "" /\ keyMissing keylessHost = true)
  /\ exists w',
       McpServer.answerFromContext keylessHost (Some (JStr "Where are my keys?")) sampleWorld
       = (Thrown keyMissingMessage, w')
       /\ onlyRead sampleWorld w'.
Proof.
  assert (Hq : "Where are my keys?" <> "") by discriminate.
  split; [split; [exact Hq | reflexivity]|].
  exact (X2_missing_key keylessHost "Where are my keys?" sampleWorld Hq eq_refl).
Defined.

(** X3.  A query sends exactly one request to the reasoning API when its
    question is valid and the key is set, whatever the API answers and
    whatever the store holds, and none otherwise: there is no retry and
    no second call. *)
Theorem X3_one_request_per_query host question w :
  requestsSent (snd (McpServer.answerFromContext host question w))
  = requestsSent w
    + (if validQuestion question && negb (keyMissing host) then 1 else 0).
Proof.
  destruct (validQuestion question) eqn:Hv.
  - destruct (validQuestion_inv question Hv) as (q & -> & Hq).
    destruct (answerFromContext_run host q w Hq) as (w1 & _ & (_ & R1 & _) & ->).
    destruct (askAnthropicWithContext_effects host q (contextOf w) w1) as (_ & R2).
    destruct (McpServer.askAnthropicWithContext host q (contextOf w) w1)
      as [[r|e] w2]; cbn [snd] in R2 |- *.
    + destruct (buildResponse_onlyRead host (McpServer.answer r)
                  (McpServer.relevantImageTimestamp r) w2) as (_ & R3 & _).
      rewrite R3, R2, R1. destruct (keyMissing host); reflexivity.
    + rewrite R2, R1. destruct (keyMissing host); reflexivity.
  - rewrite (answerFromContext_invalid host question w Hv). cbn [snd andb].
    symmetry. apply Nat.add_0_r.
Qed.

(** X4.  A query never writes to the store: whatever the question, the
    host and the outcome, the two directories and the clock are after the
    query what they were before it. *)
Theorem X4_query_never_writes host question w :
  sameFiles w (snd (McpServer.answerFromContext host question w)).
Proof.
  destruct (validQuestion question) eqn:Hv.
  - destruct (validQuestion_inv question Hv) as (q & -> & Hq).
    destruct (answerFromContext_run host q w Hq) as (w1 & _ & (S1 & _) & ->).
    destruct (askAnthropicWithContext_effects host q (contextOf w) w1) as (S2 & _).
    destruct (McpServer.askAnthropicWithContext host q (contextOf w) w1)
      as [[r|e] w2]; cbn [snd] in S2 |- *.
    + destruct (buildResponse_onlyRead host (McpServer.answer r)
                  (McpServer.relevantImageTimestamp r) w2) as (S3 & _).
      eapply sameFiles_trans; [|exact S3]. eapply sameFiles_trans; eassumption.
    + eapply sameFiles_trans; eassumption.
  - rewrite (answerFromContext_invalid host question w Hv). apply sameFiles_refl.
Qed.

(** ** The marker that is cut is the first one *)

Lemma matchAt_complete opening payload closing after :
  sameIgnoringCase JS.openTag opening = true ->
  sameIgnoringCase JS.closeTag closing = true ->
  hasLineTerminator payload = false ->
  JS.matchAt (opening ++ payload ++ closing ++ after) <> None.
Proof.
  intros Ho Hc Hp. unfold JS.matchAt.
  destruct (prefixCI_append _ opening (payload ++ closing ++ after) Ho) as [H1 H2].
  rewrite H1, H2. apply lazyPayload_complete; assumption.
Qed.

Lemma regexExec_inv text :
  forall b p r,
  JS.regexExec text = Some (b, p, r) ->
  exists rest, text = b ++ rest /\ JS.matchAt rest = Some (p, r).
Proof.
  induction text as [|c text IH]; intros b p r H; cbn [JS.regexExec] in H.
  - destruct (JS.matchAt "") as [[p' r']|] eqn:E; [|discriminate].
    injection H as <- <- <-. exists "". split; [reflexivity | exact E].
  - destruct (JS.matchAt (String c text)) as [[p' r']|] eqn:E.
    + injection H as <- <- <-. exists (String c text). split; [reflexivity | exact E].
    + destruct (JS.regexExec text) as [[[b' p'] r']|] eqn:Er; [|discriminate].
      injection H as <- <- <-.
      destruct (IH b' p' r' eq_refl) as (rest & -> & Hm).
      exists rest. split; [reflexivity | exact Hm].
Qed.

(** No match begins to the left of the one the search returns. *)
Lemma regexExec_leftmost text :
  forall b p r,
  JS.regexExec text = Some (b, p, r) ->
  forall b1 rest,
  text = b1 ++ rest -> JS.matchAt rest <> None ->
  String.length b <= String.length b1.
Proof.
  induction text as [|c text IH]; intros b p r H b1 rest Heq Hm;
    cbn [JS.regexExec] in H.
  - destruct (JS.matchAt "") as [[p' r']|] eqn:E; [|discriminate].
    injection H as <- <- <-. apply Nat.le_0_l.
  - destruct (JS.matchAt (String c text)) as [[p' r']|] eqn:E.
    + injection H as <- <- <-. apply Nat.le_0_l.
    + destruct (JS.regexExec text) as [[[b' p'] r']|] eqn:Er; [|discriminate].
      injection H as <- <- <-.
      destruct b1 as [|c1 b1]; cbn [append] in Heq.
      * subst rest. congruence.
      * injection Heq as _ Heq. cbn [String.length].
        apply le_n_S. exact (IH b' p' r' eq_refl b1 rest Heq Hm).
Qed.

(** The payload ends at the first closing tag. *)
Lemma lazyPayload_shortest s :
  forall p r,
  JS.lazyPayload s = Some (p, r) ->
  forall p1 rest1,
  s = p1 ++ rest1 -> JS.prefixCI JS.closeTag rest1 = true ->
  String.length p <= String.length p1.
Proof.
  induction s as [|c s IH]; intros p r H p1 rest1 Heq Hc;
    rewrite lazyPayload_unfold in H.
  - destruct (JS.prefixCI JS.closeTag "") eqn:E; discriminate.
  - destruct (JS.prefixCI JS.closeTag (String c s)) eqn:E.
    + injection H as <- _. apply Nat.le_0_l.
    + destruct (JS.lineTerminatorAt (String c s)); [discriminate|].
      destruct (JS.lazyPayload s) as [[p' r']|] eqn:El; [|discriminate].
      injection H as <- <-.
      destruct p1 as [|c1 p1]; cbn [append] in Heq.
      * subst rest1. congruence.
      * injection Heq as _ Heq. cbn [String.length].
        apply le_n_S. exact (IH p' r' eq_refl p1 rest1 Heq Hc).
Qed.

(** The match of the pattern, in the words of the statements: the
    decomposition of the text, with the match the leftmost one and its
    payload the shortest one. *)
Lemma regexExec_first text before payload after :
  JS.regexExec text = Some (before, payload, after) ->
  exists opening closing,
    text = before ++ opening ++ payload ++ closing ++ after
    /\ sameIgnoringCase JS.openTag opening = true
    /\ sameIgnoringCase JS.closeTag closing = true
    /\ hasLineTerminator payload = false
    /\ (forall b o p c a,
          text = b ++ o ++ p ++ c ++ a ->
          sameIgnoringCase JS.openTag o = true ->
          sameIgnoringCase JS.closeTag c = true ->
          hasLineTerminator p = false ->
          String.length before <= String.length b)
    /\ (forall p c a,
          payload ++ closing ++ after = p ++ c ++ a ->
          sameIgnoringCase JS.closeTag c = true ->
          String.length payload <= String.length p).
Proof.
  intros H.
  destruct (regexExec_inv text _ _ _ H) as (rest & Htext & Hm).
  unfold JS.matchAt in Hm.
  destruct (JS.prefixCI JS.openTag rest) eqn:E; [|discriminate].
  destruct (prefixCI_inv _ _ E) as (opening & rest' & -> & Ho & Hd).
  rewrite Hd in Hm.
  destruct (lazyPayload_sound _ _ _ Hm) as (closing & Hrest & Hc & Hp).
  exists opening, closing.
  split; [rewrite Htext, Hrest; reflexivity|].
  split; [exact Ho|]. split; [exact Hc|]. split; [exact Hp|]. split.
  - intros b o p c a Heq Ho' Hc' Hp'.
    apply (regexExec_leftmost text _ _ _ H b (o ++ p ++ c ++ a) Heq).
    apply matchAt_complete; assumption.
  - intros p c a Heq Hc'.
    apply (lazyPayload_shortest rest' _ _ Hm p (c ++ a)).
    + rewrite Hrest. exact Heq.
    + destruct (prefixCI_append _ c a Hc') as [H1 _]. exact H1.
Qed.

(** X5.  When the text of the reasoning response holds a citation marker,
    the first marker is the one that counts: the text splits around an
    opening tag, a payload on one line and a closing tag (the tags in any
    case) such that no marker of the text begins further left and no
    closing tag ends the payload earlier; the cited timestamp is the
    payload trimmed, and the answer is the text with that marker cut out,
    trimmed.  Later markers stay in the answer. *)
Theorem X5_first_marker_is_cut host q w resp data text :
  q <> "" ->
  keyMissing host = false ->
  remote host (sentRequest host q w) = Fetched resp ->
  respOk resp = true ->
  respJson resp = Some data ->
  McpServer.firstBlockText data = Some text ->
  containsMarker text ->
  exists before opening payload closing after w1 w2,
    text = before ++ opening ++ payload ++ closing ++ after
    /\ sameIgnoringCase JS.openTag opening = true
    /\ sameIgnoringCase JS.closeTag closing = true
    /\ hasLineTerminator payload = false
    /\ (forall b o p c a,
          text = b ++ o ++ p ++ c ++ a ->
          sameIgnoringCase JS.openTag o = true ->
          sameIgnoringCase JS.closeTag c = true ->
          hasLineTerminator p = false ->
          String.length before <= String.length b)
    /\ (forall p c a,
          payload ++ closing ++ after = p ++ c ++ a ->
          sameIgnoringCase JS.closeTag c = true ->
          String.length payload <= String.length p)
    /\ McpServer.askAnthropicWithContext host q (contextOf w) w1
       = (Returned (McpServer.mkQueryResult (JS.trim (before ++ after))
                                            (Some (JS.trim payload))), w2).
Proof.
  intros Hq Hkey Hremote Hok Hjson Htext Hmarker.
  destruct (JS.regexExec text) as [[[before payload] after]|] eqn:Hexec.
  - destruct (regexExec_first text before payload after Hexec)
      as (opening & closing & H1 & H2 & H3 & H4 & H5 & H6).
    destruct (buildFullContext_spec host w) as (w1 & _ & _).
    destruct (askAnthropicWithContext_ok host q (contextOf w) w1 resp data
                Hkey Hremote Hok Hjson) as (w2 & E2 & _).
    exists before, opening, payload, closing, after, w1, w2.
    repeat (split; [assumption|]).
    rewrite E2. unfold parseResult. rewrite Htext, Hexec. reflexivity.
  - exfalso. apply regexExec_None_iff in Hexec. exact (Hexec Hmarker).
Qed.

Lemma X5_witness :
  ("Where are my keys?" <> ""
   /\ keyMissing twiceCitingHost = false
   /\ containsMarker twiceCitingText)
  /\ exists before opening payload closing after w1 w2,
       twiceCitingText = before ++ opening ++ payload ++ closing ++ after
       /\ sameIgnoringCase JS.openTag opening = true
       /\ sameIgnoringCase JS.closeTag closing = true
       /\ hasLineTerminator payload = false
       /\ (forall b o p c a,
             twiceCitingText = b ++ o ++ p ++ c ++ a ->
             sameIgnoringCase JS.openTag o = true ->
             sameIgnoringCase JS.closeTag c = true ->
             hasLineTerminator p = false ->
             String.length before <= String.length b)
       /\ (forall p c a,
             payload ++ closing ++ after = p ++ c ++ a ->
             sameIgnoringCase JS.closeTag c = true ->
             String.length payload <= String.length p)
       /\ McpServer.askAnthropicWithContext twiceCitingHost "Where are my keys?"
            (contextOf sampleWorld) w1
          = (Returned (McpServer.mkQueryResult (JS.trim (before ++ after))
                                               (Some (JS.trim payload))), w2).
Proof.
  assert (Hq : "Where are my keys?" <> "") by discriminate.
  assert (Hm : containsMarker twiceCitingText).
  { exists "On the desk. ", "<Relevant_Image>", " 2025-05-17-02-40-24 ",
      "</RELEVANT_IMAGE>", " Or <relevant_image>2025-05-17-02-40-30</relevant_image>".
    repeat split. }
  split; [split; [exact Hq | split; [reflexivity | exact Hm]]|].
  exact (X5_first_marker_is_cut twiceCitingHost "Where are my keys?" sampleWorld
           _ _ twiceCitingText Hq eq_refl eq_refl eq_refl eq_refl eq_refl Hm).
Defined.

(** ** Queries: the answers of the reasoning API that carry no citation *)

(** X6.  The answer is read from the first content block only.  When the
    response has no content, or its first block has no text (later blocks
    may), the answer is the fixed text [No answer provided.] and the
    response of the query is that text alone. *)
Theorem X6_no_text_in_first_block host q w resp data :
  q <> "" ->
  keyMissing host = false ->
  remote host (sentRequest host q w) = Fetched resp ->
  respOk resp = true ->
  respJson resp = Some data ->
  McpServer.firstBlockText data = None ->
  exists w',
    McpServer.answerFromContext host (Some (JStr q)) w
    = (Returned (McpServer.mkToolResult
                   [McpServer.TextContent "No answer provided."]), w').
Proof.
  intros Hq Hkey Hremote Hok Hjson Htext.
  destruct (answerFromContext_ok host q w resp data Hq Hkey Hremote Hok Hjson)
    as (w' & E & _).
  exists w'. rewrite E. unfold parseResult. rewrite Htext. reflexivity.
Qed.

Lemma X6_witness :
  ("Where are my keys?" <> ""
   /\ keyMissing toolUseHost = false
   /\ McpServer.firstBlockText
        (mkApiData (Some [mkBlock "tool_use" None;
                          mkBlock "text" (Some "A cat on a sofa.")])) = None)
  /\ exists w',
       McpServer.answerFromContext toolUseHost (Some (JStr "Where are my keys?")) sampleWorld
       = (Returned (McpServer.mkToolResult
                      [McpServer.TextContent "No answer provided."]), w').
Proof.
  assert (Hq : "Where are my keys?" <> "") by discriminate.
  split; [split; [exact Hq | split; reflexivity]|].
  exact (X6_no_text_in_first_block toolUseHost "Where are my keys?" sampleWorld
           _ _ Hq eq_refl eq_refl eq_refl eq_refl eq_refl).
Defined.

(** X7.  A marker whose payload is empty or white space cites nothing:
    the cited timestamp is the empty string, no image is looked up, and
    the response is the text part alone, the answer being the text with
    the marker cut out, trimmed. *)
Theorem X7_blank_citation host q w resp data text before payload after :
  q <> "" ->
  keyMissing host = false ->
  remote host (sentRequest host q w) = Fetched resp ->
  respOk resp = true ->
  respJson resp = Some data ->
  McpServer.firstBlockText data = Some text ->
  JS.regexExec text = Some (before, payload, after) ->
  JS.trim payload = "" ->
  exists w1 w2 w',
    McpServer.askAnthropicWithContext host q (contextOf w) w1
    = (Returned (McpServer.mkQueryResult (JS.trim (before ++ after)) (Some "")), w2)
    /\ McpServer.answerFromContext host (Some (JStr q)) w
       = (Returned (McpServer.mkToolResult
                      [McpServer.TextContent (JS.trim (before ++ after))]), w').
Proof.
  intros Hq Hkey Hremote Hok Hjson Htext Hexec Hblank.
  assert (Hparse : parseResult data
                   = McpServer.mkQueryResult (JS.trim (before ++ after)) (Some "")).
  { unfold parseResult. rewrite Htext, Hexec, Hblank. reflexivity. }
  destruct (buildFullContext_spec host w) as (w1 & _ & _).
  destruct (askAnthropicWithContext_ok host q (contextOf w) w1 resp data
              Hkey Hremote Hok Hjson) as (w2 & E2 & _).
  destruct (answerFromContext_ok host q w resp data Hq Hkey Hremote Hok Hjson)
    as (w' & E & _).
  exists w1, w2, w'. rewrite E2, E, Hparse. split; reflexivity.
Qed.

Lemma X7_witness :
  ("Where are my keys?" <> ""
   /\ keyMissing blankCitingHost = false
   /\ JS.regexExec "On the desk. <relevant_image>  </relevant_image>"
      = Some ("On the desk. ", "  ", "")
   /\ JS.trim "  " = "")
  /\ exists w1 w2 w',
       McpServer.askAnthropicWithContext blankCitingHost "Where are my keys?"
         (contextOf sampleWorld) w1
       = (Returned (McpServer.mkQueryResult (JS.trim ("On the desk. " ++ "")) (Some "")), w2)
       /\ McpServer.answerFromContext blankCitingHost (Some (JStr "Where are my keys?"))
            sampleWorld
          = (Returned (McpServer.mkToolResult
                         [McpServer.TextContent (JS.trim ("On the desk. " ++ ""))]), w').
Proof.
  assert (Hq : "Where are my keys?" <> "") by discriminate.
  split; [split; [exact Hq | repeat split]|].
  exact (X7_blank_citation blankCitingHost "Where are my keys?" sampleWorld _ _
           "On the desk. <relevant_image>  </relevant_image>" "On the desk. " "  " ""
           Hq eq_refl eq_refl eq_refl eq_refl eq_refl eq_refl eq_refl).
Defined.

(** X8.  No state of the store can fail a query.  When the question is
    valid, the key is set and the reasoning API answers the request with
    a success that parses, the query returns a response that ends with a
    text part, whether the directories exist, can be listed or hold files
    that can be read, and whether the cited image can be found or read;
    the store is as it was. *)
Theorem X8_store_cannot_fail_a_query host q w resp data :
  q <> "" ->
  keyMissing host = false ->
  remote host (sentRequest host q w) = Fetched resp ->
  respOk resp = true ->
  respJson resp = Some data ->
  exists parts answerText w',
    McpServer.answerFromContext host (Some (JStr q)) w
    = (Returned (McpServer.mkToolResult
                   (parts ++ [McpServer.TextContent answerText])%list), w')
    /\ sameFiles w w'.
Proof.
  intros Hq Hkey Hremote Hok Hjson.
  destruct (answerFromContext_ok host q w resp data Hq Hkey Hremote Hok Hjson)
    as (w' & E & S).
  eexists. eexists. exists w'. split; [exact E | exact S].
Qed.

Lemma X8_witness :
  ("Where are my keys?" <> "" /\ keyMissing citingHost = false)
  /\ exists parts answerText w',
       McpServer.answerFromContext citingHost (Some (JStr "Where are my keys?")) lostWorld
       = (Returned (McpServer.mkToolResult
                      (parts ++ [McpServer.TextContent answerText])%list), w')
       /\ sameFiles lostWorld w'.
Proof.
  assert (Hq : "Where are my keys?" <> "") by discriminate.
  split; [split; [exact Hq | reflexivity]|].
  exact (X8_store_cannot_fail_a_query citingHost "Where are my keys?" lostWorld _ _
           Hq eq_refl eq_refl eq_refl eq_refl).
Defined.

(** ** The lookup of an image and the listing of a directory *)



Lemma textNames_In entries name :
  In name (textNames entries)
  <-> In name (map fst entries) /\ JS.endsWith name ".txt" = true.
Proof.
  exact (filter_In (fun file => JS.endsWith file ".txt") name (map fst entries)).
Qed.

(** X11.  When every text file of a directory can be read and is
    well-formed UTF-8, the listing returns exactly the text files: the
    file names of the result are the names of the directory that end in
    [.txt], each once for each time the directory lists it, in some
    order; every entry carries the content of its file; and a name that
    does not end in [.txt] (an image beside its description) is not in
    the result. *)
Theorem X11_listing_is_the_text_files host dir entries w :
  dirState dir w = Present entries ->
  (forall name, In name (map fst entries) -> JS.endsWith name ".txt" = true ->
                exists bytes,
                  lookupFile name entries = Some (Regular bytes)
                  /\ wellFormedUtf8 bytes = true) ->
  exists files w',
    McpServer.readTextFilesFromDir host dir w = (Returned files, w')
    /\ Permutation (map McpServer.filename files)
                   (filter (fun name => JS.endsWith name ".txt") (map fst entries))
    /\ (forall f, In f files ->
          JS.endsWith (McpServer.filename f) ".txt" = true
          /\ lookupFile (McpServer.filename f) entries
             = Some (Regular (McpServer.content f)))
    /\ (forall name, In name (map fst entries) ->
          JS.endsWith name ".txt" = false ->
          ~ In name (map McpServer.filename files)).
Proof.
  intros Hd Hread.
  destruct (readTextFilesFromDir_spec host dir w) as (w' & E & _).
  rewrite Hd in E. cbn [listText] in E.
  assert (Hall : forallb (readableb entries) (textNames entries) = true).
  { apply forallb_forall. intros name Hin. apply textNames_In in Hin.
    destruct Hin as [Hin Hends]. destruct (Hread name Hin Hends) as (bytes & Hl & _).
    unfold readableb. rewrite Hl. reflexivity. }
  rewrite Hall in E.
  set (names := McpServer.sort McpServer.byTimestamp (textNames entries)) in E.
  assert (Hperm : Permutation names (textNames entries)) by apply sort_perm.
  eexists. exists w'. split; [exact E|].
  assert (Hnames : map McpServer.filename
                     (map (fun name =>
                             McpServer.mkTextFile name (utf8Decode (fileBytes entries name)))
                          names) = names).
  { rewrite map_map. cbn [McpServer.filename]. apply map_id. }
  split; [rewrite Hnames; exact Hperm|]. split.
  - intros f Hf. apply in_map_iff in Hf. destruct Hf as (name & <- & Hin).
    cbn [McpServer.filename McpServer.content].
    apply (Permutation_in _ Hperm) in Hin. apply textNames_In in Hin.
    destruct Hin as [Hin Hends]. split; [exact Hends|].
    destruct (Hread name Hin Hends) as (bytes & Hl & _).
    unfold fileBytes, utf8Decode. rewrite Hl. reflexivity.
  - intros name _ Hends Hin. rewrite Hnames in Hin.
    apply (Permutation_in _ Hperm) in Hin. apply textNames_In in Hin.
    destruct Hin as [_ Hends']. congruence.
Qed.

Lemma X11_witness :
  (dirState IMAGES_DIR accentedWorld
   = Present [("2025-05-17-02-40-24.png", Regular "Man");
              ("2025-05-17-02-40-24.txt",
               Regular ("Un caf" ++ JS.bytes [195; 169] ++ " sur la table."))]
   /\ wellFormedUtf8 ("Un caf" ++ JS.bytes [195; 169] ++ " sur la table.") = true)
  /\ exists files w',
       McpServer.readTextFilesFromDir sampleHost IMAGES_DIR accentedWorld
       = (Returned files, w')
       /\ Permutation (map McpServer.filename files) ["2025-05-17-02-40-24.txt"]
       /\ (forall f, In f files ->
             JS.endsWith (McpServer.filename f) ".txt" = true
             /\ lookupFile (McpServer.filename f)
                  [("2025-05-17-02-40-24.png", Regular "Man");
                   ("2025-05-17-02-40-24.txt",
                    Regular ("Un caf" ++ JS.bytes [195; 169] ++ " sur la table."))]
                = Some (Regular (McpServer.content f)))
       /\ (forall name,
             In name ["2025-05-17-02-40-24.png"; "2025-05-17-02-40-24.txt"] ->
             JS.endsWith name ".txt" = false ->
             ~ In name (map McpServer.filename files)).
Proof.
  assert (Hread : forall name,
            In name ["2025-05-17-02-40-24.png"; "2025-05-17-02-40-24.txt"] ->
            JS.endsWith name ".txt" = true ->
            exists bytes,
              lookupFile name
                [("2025-05-17-02-40-24.png", Regular "Man");
                 ("2025-05-17-02-40-24.txt",
                  Regular ("Un caf" ++ JS.bytes [195; 169] ++ " sur la table."))]
              = Some (Regular bytes)
              /\ wellFormedUtf8 bytes = true).
  { intros name [<- | [<- | []]] H; [discriminate|].
    eexists. split; reflexivity. }
  split; [split; reflexivity|].
  exact (X11_listing_is_the_text_files sampleHost IMAGES_DIR _ accentedWorld eq_refl Hread).
Defined.

(** ** The ingestion server: every request is answered *)

Lemma handleTranscriptUpload_status host body w reply w' :
  WebServer.handleTranscriptUpload host body w = (Returned reply, w') ->
  WebServer.statusCode reply = 200%Z.
Proof.
  unfold WebServer.handleTranscriptUpload. intros H.
  apply bind_inv in H. destruct H as (u & w1 & _ & H).
  apply bind_inv in H. destruct H as (baseName & w2 & _ & H).
  apply bind_inv in H. destruct H as (transcript & w3 & _ & H).
  destruct transcript as [[| b | n | text | items | fields]|];
    try (cbv [throw] in H; discriminate).
  apply bind_inv in H. destruct H as (u' & w4 & _ & H).
  cbv [ret] in H. injection H as <- _. reflexivity.
Qed.

Lemma handleImageUpload_status host body w reply w' :
  WebServer.handleImageUpload host body w = (Returned reply, w') ->
  WebServer.statusCode reply = 200%Z.
Proof.
  unfold WebServer.handleImageUpload. intros H.
  apply bind_inv in H. destruct H as (given & w1 & _ & H).
  apply bind_inv in H. destruct H as (u & w2 & _ & H).
  apply bind_inv in H. destruct H as (baseName & w3 & _ & H).
  destruct (match given with
            | None | Some JNull => JStr "image/png"
            | Some v => v
            end) as [| b | n | mediaType | items | fields];
    try (cbv [throw] in H; discriminate).
  apply bind_inv in H. destruct H as (image & w4 & _ & H).
  destruct image as [[| b | n | image | items | fields]|];
    try (cbv [throw] in H; discriminate).
  apply bind_inv in H. destruct H as (u1 & w5 & _ & H).
  apply bind_inv in H. destruct H as (description & w6 & _ & H).
  apply bind_inv in H. destruct H as (u2 & w7 & _ & H).
  cbv [ret] in H. injection H as <- _. reflexivity.
Qed.

(** The handler of [/media] catches what its body throws: it always
    replies, with 200, 400 or 500. *)
Lemma handleMediaRequest_total host req w :
  exists reply w',
    WebServer.handleMediaRequest host req w = (Returned reply, w')
    /\ In (WebServer.statusCode reply) [200; 400; 500]%Z.
Proof.
  unfold WebServer.handleMediaRequest, tryCatch.
  match goal with
  | |- context [match ?c w with _ => _ end] => destruct (c w) as [[reply|e] w'] eqn:E
  end.
  - exists reply, w'. split; [reflexivity|].
    apply bind_inv in E. destruct E as (body & w1 & _ & E).
    apply bind_inv in E. destruct E as (transcript & w2 & _ & E).
    destruct (isString transcript).
    + rewrite (handleTranscriptUpload_status _ _ _ _ _ E). simpl. auto.
    + apply bind_inv in E. destruct E as (image & w3 & _ & E).
      destruct (isString image).
      * rewrite (handleImageUpload_status _ _ _ _ _ E). simpl. auto.
      * cbv [ret] in E. injection E as <- _. simpl. auto.
  - eexists. eexists. split; [reflexivity|]. simpl. auto.
Qed.

Lemma handleEchoRequest_run req w :
  WebServer.handleEchoRequest req w
  = (Returned (match req with
               | WebServer.JsonBody body =>
                   WebServer.mkReply 200 (JObj [("received", body)])
               | WebServer.InvalidJson _ =>
                   WebServer.mkReply 400 (JObj [("error", JStr "Invalid JSON")])
               end), w).
Proof. destruct req; reflexivity. Qed.

(** X12.  The server answers every request: whatever the method, the
    path, the body, the host and the store, the listener returns a reply
    and raises nothing, and the status is 200, 400, 404 or 500.  The
    status is 404 exactly when the request is not a POST to [/echo] or
    [/media]. *)
Theorem X12_every_request_is_answered host method pathname req w :
  exists reply w',
    WebServer.requestListener host method pathname req w = (Returned reply, w')
    /\ In (WebServer.statusCode reply) [200; 400; 404; 500]%Z
    /\ (WebServer.statusCode reply = 404%Z
        <-> ~ (method = "POST" /\ (pathname = "/echo" \/ pathname = "/media"))).
Proof.
  unfold WebServer.requestListener.
  destruct (String.eqb_spec method "POST") as [Hm|Hm]; cbn [andb].
  - destruct (String.eqb_spec pathname "/echo") as [He|He].
    + rewrite handleEchoRequest_run. eexists. eexists. split; [reflexivity|].
      destruct req; cbn [WebServer.statusCode].
      * split; [simpl; auto|]. split; [discriminate | intros H; exfalso; apply H; auto].
      * split; [simpl; auto|]. split; [discriminate | intros H; exfalso; apply H; auto].
    + destruct (String.eqb_spec pathname "/media") as [Hd|Hd].
      * destruct (handleMediaRequest_total host req w) as (reply & w' & E & Hs).
        exists reply, w'. split; [exact E|].
        split; [simpl in Hs |- *; intuition|]. split.
        -- intros H404. rewrite H404 in Hs. simpl in Hs.
           destruct Hs as [H | [H | [H | []]]]; discriminate.
        -- intros H. exfalso. apply H. auto.
      * eexists. eexists. split; [reflexivity|]. cbn [WebServer.statusCode].
        split; [simpl; auto|]. split; [|reflexivity].
        intros _ [_ [H | H]]; contradiction.
  - eexists. eexists. split; [reflexivity|]. cbn [WebServer.statusCode].
    split; [simpl; auto|]. split; [|reflexivity].
    intros _ [H _]. contradiction.
Qed.

(** X13.  Only a POST to [/media] can change the world.  Any other
    request is answered in the world it came in, store, clock, logs and
    trace of requests untouched: a POST to [/echo] with the body it sent
    under [received] and status 200, or with status 400 and [Invalid JSON]
    when the body does not parse; anything else with status 404 and
    [Not found]. *)
Theorem X13_only_media_changes_the_world host method pathname req w :
  ~ (method = "POST" /\ pathname = "/media") ->
  exists reply,
    WebServer.requestListener host method pathname req w = (Returned reply, w)
    /\ (method = "POST" /\ pathname = "/echo" ->
        reply = match req with
                | WebServer.JsonBody body =>
                    WebServer.mkReply 200 (JObj [("received", body)])
                | WebServer.InvalidJson _ =>
                    WebServer.mkReply 400 (JObj [("error", JStr "Invalid JSON")])
                end)
    /\ (~ (method = "POST" /\ pathname = "/echo") ->
        reply = WebServer.mkReply 404 (JObj [("error", JStr "Not found")])).
Proof.
  intros Hnot. unfold WebServer.requestListener.
  destruct (String.eqb_spec method "POST") as [Hm|Hm]; cbn [andb].
  - destruct (String.eqb_spec pathname "/echo") as [He|He].
    + rewrite handleEchoRequest_run. eexists. split; [reflexivity|].
      split; [reflexivity | intros H; exfalso; apply H; auto].
    + destruct (String.eqb_spec pathname "/media") as [Hd|Hd];
        [exfalso; apply Hnot; auto|].
      eexists. split; [reflexivity|].
      split; [intros [_ H]; contradiction | reflexivity].
  - eexists. split; [reflexivity|].
    split; [intros [H _]; contradiction | reflexivity].
Qed.

Lemma X13_witness :
  ~ ("GET" = "POST" /\ "/media" = "/media")
  /\ exists reply,
       WebServer.requestListener sampleHost "GET" "/media"
         (WebServer.JsonBody (JObj [("transcript", JStr "Where are my keys?")])) emptyWorld
       = (Returned reply, emptyWorld)
       /\ ("GET" = "POST" /\ "/media" = "/echo" ->
           reply = WebServer.mkReply 200
                     (JObj [("received", JObj [("transcript", JStr "Where are my keys?")])]))
       /\ (~ ("GET" = "POST" /\ "/media" = "/echo") ->
           reply = WebServer.mkReply 404 (JObj [("error", JStr "Not found")])).
Proof.
  assert (H : ~ ("GET" = "POST" /\ "/media" = "/media")) by (intros [H _]; discriminate).
  split; [exact H|].
  exact (X13_only_media_changes_the_world sampleHost "GET" "/media"
           (WebServer.JsonBody (JObj [("transcript", JStr "Where are my keys?")]))
           emptyWorld H).
Defined.

Lemma handleMediaRequest_transcript_run host body w :
  body <> JNull ->
  isString (fieldOf body "transcript") = true ->
  WebServer.handleMediaRequest host (WebServer.JsonBody body) w
  = match WebServer.handleTranscriptUpload host body w with
    | (Returned reply, w') => (Returned reply, w')
    | (Thrown err, w') =>
        (Returned (WebServer.mkReply 500 (JObj [("error", JStr err)])), w')
    end.
Proof.
  intros Hnull Ht.
  unfold WebServer.handleMediaRequest, tryCatch, WebServer.consumeJSON.
  unfold bind at 1. unfold ret at 1.
  rewrite (getProp_fieldOf body "transcript" Hnull).
  unfold bind at 1. unfold ret at 1. rewrite Ht. reflexivity.
Qed.


(** X14.  A POST to [/media] whose body is not JSON, or is the JSON value
    [null], is answered 500, not 400: the error payload is the message of
    the parser, or that of the failed read of [transcript] on [null], and
    the world is left as it was.  Status 400 is kept for one case only: a
    body that is JSON, is not [null], and has neither a string [transcript]
    nor a string [image]; nothing is stored then. *)
Theorem X14_malformed_media_body host w :
  (forall message,
     WebServer.requestListener host "POST" "/media" (WebServer.InvalidJson message) w
     = (Returned (WebServer.mkReply 500 (JObj [("error", JStr message)])), w))
  /\ WebServer.requestListener host "POST" "/media" (WebServer.JsonBody JNull) w
     = (Returned (WebServer.mkReply 500
                    (JObj [("error",
                            JStr "Cannot read properties of null (reading 'transcript')")])),
        w)
  /\ (forall req reply w',
        WebServer.requestListener host "POST" "/media" req w = (Returned reply, w') ->
        WebServer.statusCode reply = 400%Z ->
        w' = w
        /\ exists body,
             req = WebServer.JsonBody body
             /\ body <> JNull
             /\ isString (fieldOf body "transcript") = false
             /\ isString (fieldOf body "image") = false).
Proof.
  split; [intros message; reflexivity|]. split; [reflexivity|].
  intros req reply w' H Hstatus.
  change (WebServer.requestListener host "POST" "/media" req w)
    with (WebServer.handleMediaRequest host req w) in H.
  destruct req as [message|body].
  { assert (E : WebServer.handleMediaRequest host (WebServer.InvalidJson message) w
                = (Returned (WebServer.mkReply 500 (JObj [("error", JStr message)])), w))
      by reflexivity.
    rewrite E in H. injection H as <- _. discriminate. }
  assert (Hnull : body <> JNull).
  { intros ->.
    assert (E : WebServer.handleMediaRequest host (WebServer.JsonBody JNull) w
                = (Returned (WebServer.mkReply 500
                               (JObj [("error",
                                       JStr "Cannot read properties of null (reading 'transcript')")])),
                   w))
      by reflexivity.
    rewrite E in H. injection H as <- _. discriminate. }
  destruct (isString (fieldOf body "transcript")) eqn:Ht.
  { rewrite (handleMediaRequest_transcript_run host body w Hnull Ht) in H.
    destruct (WebServer.handleTranscriptUpload host body w) as [[r|e] w1] eqn:E.
    - injection H as <- _.
      rewrite (handleTranscriptUpload_status _ _ _ _ _ E) in Hstatus. discriminate.
    - injection H as <- _. discriminate. }
  destruct (isString (fieldOf body "image")) eqn:Hi.
  { rewrite (handleMediaRequest_image host body w Hnull Ht Hi) in H.
    destruct (WebServer.handleImageUpload host body w) as [[r|e] w1] eqn:E.
    - injection H as <- _.
      rewrite (handleImageUpload_status _ _ _ _ _ E) in Hstatus. discriminate.
    - injection H as <- _. discriminate. }
  assert (E : WebServer.handleMediaRequest host (WebServer.JsonBody body) w
              = (Returned (WebServer.mkReply 400
                             (JObj [("error", JStr WebServer.missingFieldMessage)])), w)).
  { unfold WebServer.handleMediaRequest, tryCatch, WebServer.consumeJSON.
    unfold bind at 1. unfold ret at 1.
    rewrite (getProp_fieldOf body "transcript" Hnull).
    unfold bind at 1. unfold ret at 1. rewrite Ht.
    rewrite (getProp_fieldOf body "image" Hnull).
    unfold bind at 1. unfold ret at 1. rewrite Hi. reflexivity. }
  rewrite E in H. injection H as _ <-.
  split; [reflexivity|]. exists body. repeat split; assumption.
Qed.

(** ** Image uploads that succeed, and the errors of those that fail *)

Lemma find_first_text pre block post :
  Forall notText pre -> blockType block = "text" ->
  find (fun c => blockType c =? "text") (pre ++ block :: post)%list = Some block.
Proof.
  intros Hpre Hb. induction Hpre as [|x pre Hx _ IH]; cbn [app find].
  - rewrite Hb. reflexivity.
  - apply String.eqb_neq in Hx. rewrite Hx. exact IH.
Qed.

Lemma find_no_text blocks :
  Forall notText blocks -> find (fun c => blockType c =? "text") blocks = None.
Proof.
  intros H. induction H as [|x l Hx _ IH]; cbn [find]; [reflexivity|].
  apply String.eqb_neq in Hx. rewrite Hx. exact IH.
Qed.

Lemma describe_ok host image m w resp data :
  keyMissing host = false ->
  remote host (describeRequest host image m) = Fetched resp ->
  respOk resp = true ->
  respJson resp = Some data ->
  WebServer.describeImageWithAnthropic host image m w
  = (Returned (match WebServer.findTextBlock data with
               | Some block =>
                   match blockText block with
                   | Some text => text
                   | None => "No description returned."
                   end
               | None => "No description returned."
               end), record EvFetch w).
Proof.
  intros Hkey Hremote Hok Hjson.
  unfold WebServer.describeImageWithAnthropic. rewrite Hkey.
  unfold describeRequest in Hremote.
  unfold bind at 1. unfold fetch. rewrite Hremote, Hok. cbn [negb].
  unfold bind, json. rewrite Hjson. reflexivity.
Qed.

Lemma lookupFile_storeFile_not_faulty name content d other :
  (forall err, lookupFile other d <> Some (Faulty err)) ->
  forall err, lookupFile other (storeFile name content d) <> Some (Faulty err).
Proof.
  intros H err. destruct (String.eqb_spec other name) as [->|Hne].
  - rewrite lookupFile_storeFile_same. discriminate.
  - rewrite lookupFile_storeFile_other by exact Hne. apply H.
Qed.

(** An upload whose description succeeds: the reply and the store. *)
Lemma handleMediaRequest_image_ok host body image m resp data w :
  body <> JNull ->
  isString (fieldOf body "transcript") = false ->
  fieldOf body "image" = Some (JStr image) ->
  effectiveMediaType body = Some m ->
  let t := WebServer.formatTimestamp host (clock w) in
  writable (images w) (imageName t m) ->
  (forall err, lookupFile (t ++ ".txt") (entriesOf (images w)) <> Some (Faulty err)) ->
  keyMissing host = false ->
  remote host (describeRequest host image m) = Fetched resp ->
  respOk resp = true ->
  respJson resp = Some data ->
  let description := match WebServer.findTextBlock data with
                     | Some block =>
                         match blockText block with
                         | Some text => text
                         | None => "No description returned."
                         end
                     | None => "No description returned."
                     end in
  exists w',
    WebServer.handleMediaRequest host (WebServer.JsonBody body) w
    = (Returned (WebServer.mkReply 200
                   (JObj [("saved_image", JStr ("images/" ++ imageName t m));
                          ("description_file", JStr ("images/" ++ t ++ ".txt"))])),
       w')
    /\ images w'
       = Present (storeFile (t ++ ".txt") (utf8Encode description)
                    (storeFile (imageName t m) (Base64.decode image)
                       (entriesOf (images w))))
    /\ transcripts w' = transcripts w.
Proof.
  intros Hnull Ht Himage Hmedia t Hw Htxt Hkey Hremote Hok Hjson description.
  destruct (handleImageUpload_run host body image m w Hnull Himage Hmedia Hw)
    as (w1 & D1 & T1 & Erun).
  fold t in D1, Erun.
  assert (Hi : isString (fieldOf body "image") = true) by (rewrite Himage; reflexivity).
  rewrite (handleMediaRequest_image host body w Hnull Ht Hi), Erun.
  rewrite (bind_Returned _ _ _ _ _
             (describe_ok host image m w1 resp data Hkey Hremote Hok Hjson)).
  fold description.
  set (stored := storeFile (imageName t m) (Base64.decode image) (entriesOf (images w)))
    in *.
  assert (D2 : dirState IMAGES_DIR (record EvFetch w1) = Present stored) by exact D1.
  destruct (writeFile_run host IMAGES_DIR (t ++ ".txt") (utf8Encode description)
              (record EvFetch w1) stored D2) as (w2 & E2 & D3 & O3 & _).
  { apply lookupFile_storeFile_not_faulty. exact Htxt. }
  rewrite (bind_Returned _ _ _ _ _ E2).
  exists w2. split; [reflexivity|]. split; [exact D3|].
  change (dirState TRANSCRIPTS_DIR w2 = transcripts w).
  rewrite (O3 TRANSCRIPTS_DIR) by discriminate. exact T1.
Qed.

(** X15.  An upload with an image that can be written, when the reasoning
    API answers, is replied 200 with the two saved paths; the image
    directory then holds the image under the timestamp and the extension
    taken from the media type, with the decoded bytes, and the description
    under the same timestamp with [.txt].  The description is the text of
    the first block of type [text], blocks of other types before it being
    skipped, and the fixed text [No description returned.] when that block
    has no text or when no block is of type [text]. *)
Theorem X15_image_upload_stores_both host body image m resp data w :
  body <> JNull ->
  isString (fieldOf body "transcript") = false ->
  fieldOf body "image" = Some (JStr image) ->
  effectiveMediaType body = Some m ->
  let t := WebServer.formatTimestamp host (clock w) in
  writable (images w) (imageName t m) ->
  (forall err, lookupFile (t ++ ".txt") (entriesOf (images w)) <> Some (Faulty err)) ->
  keyMissing host = false ->
  remote host (describeRequest host image m) = Fetched resp ->
  respOk resp = true ->
  respJson resp = Some data ->
  exists description w',
    WebServer.handleMediaRequest host (WebServer.JsonBody body) w
    = (Returned (WebServer.mkReply 200
                   (JObj [("saved_image", JStr ("images/" ++ imageName t m));
                          ("description_file", JStr ("images/" ++ t ++ ".txt"))])),
       w')
    /\ images w'
       = Present (storeFile (t ++ ".txt") (utf8Encode description)
                    (storeFile (imageName t m) (Base64.decode image)
                       (entriesOf (images w))))
    /\ transcripts w' = transcripts w
    /\ (forall pre block post,
          apiContent data = Some (pre ++ block :: post)%list ->
          Forall notText pre -> blockType block = "text" ->
          description = match blockText block with
                        | Some text => text
                        | None => "No description returned."
                        end)
    /\ ((forall blocks, apiContent data = Some blocks -> Forall notText blocks) ->
        description = "No description returned.").
Proof.
  intros Hnull Ht Himage Hmedia t Hw Htxt Hkey Hremote Hok Hjson.
  destruct (handleMediaRequest_image_ok host body image m resp data w
              Hnull Ht Himage Hmedia Hw Htxt Hkey Hremote Hok Hjson)
    as (w' & E & D & T).
  eexists. exists w'. split; [exact E|]. split; [exact D|]. split; [exact T|].
  split.
  - intros pre block post Hc Hpre Hb. unfold WebServer.findTextBlock.
    rewrite Hc, (find_first_text pre block post Hpre Hb). reflexivity.
  - intros Hnone. unfold WebServer.findTextBlock.
    destruct (apiContent data) as [blocks|]; [|reflexivity].
    rewrite (find_no_text blocks (Hnone blocks eq_refl)). reflexivity.
Qed.

Lemma X15_witness :
  (JObj [("image", JStr "TWFu")] <> JNull
   /\ isString (fieldOf (JObj [("image", JStr "TWFu")]) "transcript") = false
   /\ fieldOf (JObj [("image", JStr "TWFu")]) "image" = Some (JStr "TWFu")
   /\ effectiveMediaType (JObj [("image", JStr "TWFu")]) = Some "image/png"
   /\ writable (images emptyWorld) "2025-05-17-02-40-24.png"
   /\ (forall err, lookupFile "2025-05-17-02-40-24.txt" (entriesOf (images emptyWorld))
                   <> Some (Faulty err))
   /\ keyMissing describingHost = false)
  /\ exists description w',
       WebServer.handleMediaRequest describingHost
         (WebServer.JsonBody (JObj [("image", JStr "TWFu")])) emptyWorld
       = (Returned (WebServer.mkReply 200
                      (JObj [("saved_image", JStr "images/2025-05-17-02-40-24.png");
                             ("description_file", JStr "images/2025-05-17-02-40-24.txt")])),
          w')
       /\ images w'
          = Present [("2025-05-17-02-40-24.png", Regular "Man");
                     ("2025-05-17-02-40-24.txt", Regular (utf8Encode description))]
       /\ transcripts w' = Missing
       /\ (forall pre block post,
             Some [mkBlock "thinking" None;
                   mkBlock "text" (Some "A man at a desk.");
                   mkBlock "text" (Some "Second thoughts.")]
             = Some (pre ++ block :: post)%list ->
             Forall notText pre -> blockType block = "text" ->
             description = match blockText block with
                           | Some text => text
                           | None => "No description returned."
                           end)
       /\ ((forall blocks,
              Some [mkBlock "thinking" None;
                    mkBlock "text" (Some "A man at a desk.");
                    mkBlock "text" (Some "Second thoughts.")] = Some blocks ->
              Forall notText blocks) ->
           description = "No description returned.").
Proof.
  assert (Hnull : JObj [("image", JStr "TWFu")] <> JNull) by discriminate.
  assert (Htxt : forall err,
            lookupFile "2025-05-17-02-40-24.txt" (entriesOf (images emptyWorld))
            <> Some (Faulty err)) by discriminate.
  split.
  - split; [exact Hnull|]. repeat (split; [reflexivity|]).
    split; [exact Htxt | reflexivity].
  - exact (X15_image_upload_stores_both describingHost _ "TWFu" "image/png" _ _ emptyWorld
             Hnull eq_refl eq_refl eq_refl I Htxt eq_refl eq_refl eq_refl eq_refl).
Defined.

Lemma describe_error host image m w :
  (keyMissing host = true ->
   fst (WebServer.describeImageWithAnthropic host image m w) = Thrown keyMissingMessage)
  /\ (keyMissing host = false ->
      forall message,
      remote host (describeRequest host image m) = FetchFailed message ->
      fst (WebServer.describeImageWithAnthropic host image m w) = Thrown message)
  /\ (keyMissing host = false ->
      forall resp,
      remote host (describeRequest host image m) = Fetched resp ->
      respOk resp = false ->
      fst (WebServer.describeImageWithAnthropic host image m w)
      = Thrown (apiError (respStatus resp) (respText resp))).
Proof.
  unfold WebServer.describeImageWithAnthropic, describeRequest.
  split; [intros ->; reflexivity|].
  split.
  - intros -> message Hremote. unfold bind at 1. unfold fetch.
    rewrite Hremote. reflexivity.
  - intros -> resp Hremote Hok. unfold bind at 1. unfold fetch.
    rewrite Hremote, Hok. reflexivity.
Qed.

Lemma handleImageUpload_broken host body err w :
  body <> JNull ->
  images w = Broken err ->
  WebServer.handleImageUpload host body w
  = (Thrown err, record (EvMkdir IMAGES_DIR) w).
Proof.
  intros Hnull Hbroken. unfold WebServer.handleImageUpload.
  rewrite (getProp_fieldOf body "mediaType" Hnull).
  unfold bind at 1. unfold ret at 1. cbv beta iota zeta.
  unfold bind at 1. unfold WebServer.ensureDir, mkdirRecursive.
  simpl dirState. rewrite Hbroken. reflexivity.
Qed.

(** X16.  The 500 reply to an upload with an image names the cause.  When
    the image directory cannot be used, the cause is the error of the file
    system and no file is written.  When the image has been written: the
    message that names the missing variable, when the API key is not set;
    the error of the transport, when the request fails; and
    [Anthropic API error: ], the status, a dash and the body of the
    response, when the API answers with a failure. *)
Theorem X16_upload_error_names_the_cause host body image m w :
  body <> JNull ->
  isString (fieldOf body "transcript") = false ->
  fieldOf body "image" = Some (JStr image) ->
  effectiveMediaType body = Some m ->
  let t := WebServer.formatTimestamp host (clock w) in
  let reply := fst (WebServer.handleMediaRequest host (WebServer.JsonBody body) w) in
  let failure := fun message =>
    Returned (WebServer.mkReply 500 (JObj [("error", JStr message)])) in
  (forall err, images w = Broken err ->
     reply = failure err
     /\ images (snd (WebServer.handleMediaRequest host (WebServer.JsonBody body) w))
        = Broken err)
  /\ (writable (images w) (imageName t m) ->
      (keyMissing host = true -> reply = failure keyMissingMessage)
      /\ (keyMissing host = false ->
          forall message,
          remote host (describeRequest host image m) = FetchFailed message ->
          reply = failure message)
      /\ (keyMissing host = false ->
          forall resp,
          remote host (describeRequest host image m) = Fetched resp ->
          respOk resp = false ->
          reply = failure (apiError (respStatus resp) (respText resp)))).
Proof.
  intros Hnull Ht Himage Hmedia t reply failure.
  assert (Hi : isString (fieldOf body "image") = true) by (rewrite Himage; reflexivity).
  unfold reply. rewrite (handleMediaRequest_image host body w Hnull Ht Hi).
  split.
  - intros err Hbroken.
    rewrite (handleImageUpload_broken host body err w Hnull Hbroken).
    split; [reflexivity | exact Hbroken].
  - intros Hw.
    destruct (handleImageUpload_run host body image m w Hnull Himage Hmedia Hw)
      as (w1 & _ & _ & ->).
    destruct (describe_error host image m w1) as (Hk & Hf & Hr).
    assert (Hthrown : forall e,
              fst (WebServer.describeImageWithAnthropic host image m w1) = Thrown e ->
              fst (let '(o, w') :=
                     bind (WebServer.describeImageWithAnthropic host image m)
                       (fun description =>
                          bind (writeFile host IMAGES_DIR (t ++ ".txt") (utf8Encode description))
                            (fun _ =>
                               ret (WebServer.mkReply 200
                                      (JObj [("saved_image",
                                              JStr (WebServer.relativePath IMAGES_DIR
                                                      (imageName t m)));
                                             ("description_file",
                                              JStr (WebServer.relativePath IMAGES_DIR
                                                      (t ++ ".txt")))])))) w1 in
                   match o with
                   | Returned r => (Returned r, w')
                   | Thrown err =>
                       (Returned (WebServer.mkReply 500 (JObj [("error", JStr err)])), w')
                   end) = failure e).
    { intros e He. unfold bind at 1.
      destruct (WebServer.describeImageWithAnthropic host image m w1) as [o w2].
      cbn [fst] in He. subst o. reflexivity. }
    split; [intros Hkey; apply Hthrown; exact (Hk Hkey)|].
    split.
    + intros Hkey message Hremote. apply Hthrown. exact (Hf Hkey message Hremote).
    + intros Hkey resp Hremote Hok. apply Hthrown. exact (Hr Hkey resp Hremote Hok).
Qed.

Lemma X16_witness :
  (JObj [("image", JStr "TWFu")] <> JNull
   /\ isString (fieldOf (JObj [("image", JStr "TWFu")]) "transcript") = false
   /\ fieldOf (JObj [("image", JStr "TWFu")]) "image" = Some (JStr "TWFu")
   /\ effectiveMediaType (JObj [("image", JStr "TWFu")]) = Some "image/png")
  /\ fst (WebServer.handleMediaRequest refusingHost
            (WebServer.JsonBody (JObj [("image", JStr "TWFu")])) emptyWorld)
     = Returned (WebServer.mkReply 500
                   (JObj [("error", JStr (apiError 529 "overloaded"))]))
  /\ (forall err,
        fst (WebServer.handleMediaRequest refusingHost
               (WebServer.JsonBody (JObj [("image", JStr "TWFu")])) brokenImagesWorld)
        = Returned (WebServer.mkReply 500 (JObj [("error", JStr err)]))
        -> err = "EACCES: permission denied").
Proof.
  assert (Hnull : JObj [("image", JStr "TWFu")] <> JNull) by discriminate.
  split; [split; [exact Hnull | repeat split]|].
  split.
  - destruct (X16_upload_error_names_the_cause refusingHost _ "TWFu" "image/png" emptyWorld
                Hnull eq_refl eq_refl eq_refl) as (_ & Hwritten).
    destruct (Hwritten I) as (_ & _ & Hrefused).
    exact (Hrefused eq_refl _ eq_refl eq_refl).
  - intros err Herr.
    destruct (X16_upload_error_names_the_cause refusingHost _ "TWFu" "image/png"
                brokenImagesWorld Hnull eq_refl eq_refl eq_refl) as (Hbroken & _).
    destruct (Hbroken _ eq_refl) as (Hreply & _).
    rewrite Hreply in Herr. injection Herr as Herr. symmetry. exact Herr.
Defined.

(** ** From an upload to the lookup, for any media type *)

Lemma split_slash kind ext :
  noChar "/" kind = true ->
  JS.split "/" (kind ++ "/" ++ ext) = kind :: JS.split "/" ext.
Proof.
  induction kind as [|c kind IH]; intros H; [reflexivity|].
  cbn [noChar JS.allChars] in H. apply andb_true_iff in H. destruct H as [Hc Hk].
  apply negb_true_iff in Hc.
  change (String c kind ++ "/" ++ ext) with (String c (kind ++ "/" ++ ext)).
  cbn [JS.split]. rewrite Hc.
  rewrite (IH Hk). reflexivity.
Qed.

Lemma imageName_slash t kind ext :
  noChar "/" kind = true -> noChar "/" ext = true ->
  imageName t (kind ++ "/" ++ ext) = t ++ "." ++ ext.
Proof.
  intros Hk He. unfold imageName.
  rewrite (split_slash kind ext Hk), (split_noChar "/" ext He). reflexivity.
Qed.

Lemma imageName_no_slash t m :
  noChar "/" m = true -> imageName t m = t ++ "." ++ "undefined".
Proof. intros H. unfold imageName. rewrite (split_noChar "/" m H). reflexivity. Qed.

Lemma matchesBaseName_ext t ext :
  noChar "." ext = true -> ext <> "txt" ->
  McpServer.matchesBaseName t (t ++ "." ++ ext) = true.
Proof.
  intros Hd Hne. unfold McpServer.matchesBaseName, JS.startsWith.
  rewrite prefix_append.
  destruct (JS.endsWith (t ++ "." ++ ext) ".txt") eqn:E; [|reflexivity].
  apply endsWith_txt_ext in E; [contradiction | exact Hd].
Qed.

Lemma append_ext_neq_txt t ext : ext <> "txt" -> t ++ "." ++ ext <> t ++ ".txt".
Proof.
  intros Hne H. change (t ++ ".txt") with (t ++ "." ++ "txt") in H.
  apply append_inv_length in H; [|reflexivity].
  destruct H as [_ H]. injection H as H. contradiction.
Qed.

(** An image uploaded at a free timestamp is what the lookup of that
    timestamp returns. *)
Lemma upload_then_lookup host body image m ext w :
  body <> JNull ->
  isString (fieldOf body "transcript") = false ->
  fieldOf body "image" = Some (JStr image) ->
  effectiveMediaType body = Some m ->
  let t := WebServer.formatTimestamp host (clock w) in
  imageName t m = t ++ "." ++ ext ->
  noChar "." ext = true -> noChar "/" ext = true -> ext <> "txt" ->
  (forall err, images w <> Broken err) ->
  freeTimestamp (images w) t ->
  let w1 := snd (WebServer.handleMediaRequest host (WebServer.JsonBody body) w) in
  exists w2,
    McpServer.getCorrespondingImage host (t ++ ".txt") w1
    = (Returned (Some (McpServer.mkImageFile
                         (dirPath host IMAGES_DIR ++ "/" ++ t ++ "." ++ ext)
                         (Base64.encode (Base64.decode image))
                         (McpServer.mediaTypeOfExt (JS.toLowerCase ext)))), w2)
    /\ sameFiles w1 w2.
Proof.
  intros Hnull Ht Himage Hmedia t Hname Hed Hes Hntxt Hb Hfresh w1.
  destruct (formatTimestamp_plain host (clock w)) as (Hs & Hd & Hne).
  fold t in Hs, Hd, Hne.
  assert (Hold : forall x, In x (map fst (entriesOf (images w))) ->
                           McpServer.matchesBaseName t x = false).
  { intros x Hx. unfold McpServer.matchesBaseName.
    destruct (JS.startsWith x t) eqn:Hp; [|reflexivity].
    rewrite (Hfresh x Hx Hp). reflexivity. }
  assert (Hw : writable (images w) (imageName t m)).
  { rewrite Hname. destruct (images w) as [|err|entries] eqn:Ei; cbn [writable].
    - exact I.
    - exfalso. apply (Hb err). reflexivity.
    - intros err Hl. apply lookupFile_Some_In in Hl.
      pose proof (Hold _ Hl) as Hm.
      rewrite (matchesBaseName_ext t ext Hed Hntxt) in Hm. discriminate. }
  set (stored := storeFile (t ++ "." ++ ext) (Base64.decode image)
                           (entriesOf (images w))).
  assert (Hi : isString (fieldOf body "image") = true) by (rewrite Himage; reflexivity).
  assert (Hentries : exists entries,
            images w1 = Present entries
            /\ find (McpServer.matchesBaseName t) (map fst entries)
               = Some (t ++ "." ++ ext)
            /\ lookupFile (t ++ "." ++ ext) entries
               = Some (Regular (Base64.decode image))).
  { unfold w1. rewrite (handleMediaRequest_image_world host body w Hnull Ht Hi).
    destruct (handleImageUpload_images host body _ _ w Hnull Himage Hmedia Hw)
      as [E | [description E]]; fold t in E; rewrite Hname in E; fold stored in E.
    - exists stored. split; [exact E|]. split.
      + apply find_storeFile_new; [exact Hold | apply matchesBaseName_ext; assumption].
      + apply lookupFile_storeFile_same.
    - exists (storeFile (t ++ ".txt") description stored). split; [exact E|]. split.
      + rewrite find_storeFile_skip by apply matchesBaseName_txt.
        apply find_storeFile_new; [exact Hold | apply matchesBaseName_ext; assumption].
      + rewrite lookupFile_storeFile_other by (apply append_ext_neq_txt; exact Hntxt).
        apply lookupFile_storeFile_same. }
  destruct Hentries as (entries & Ei & Hfind & Hlook).
  destruct (getCorrespondingImage_spec host (t ++ ".txt") w1) as (w2 & E & S).
  exists w2. split; [|exact S].
  rewrite E, Ei. unfold findImage.
  rewrite (basename_txt t Hs Hne), Hfind.
  assert (Hnonempty : (t ++ "." ++ ext =? "") = false).
  { apply String.eqb_neq. apply append_nonempty. exact Hne. }
  rewrite Hnonempty, Hlook.
  rewrite (extname_simple t ext Hs Hd Hne Hes Hed), toLowerCase_dot.
  reflexivity.
Qed.

Lemma mediaTypeOfExt_plain ext :
  ext <> "jpg" -> McpServer.mediaTypeOfExt ext = "image/" ++ ext.
Proof.
  intros Hne. unfold McpServer.mediaTypeOfExt.
  apply String.eqb_neq in Hne. rewrite Hne. cbn [orb].
  destruct (String.eqb_spec ext "jpeg") as [->|_]; [reflexivity|].
  destruct (String.eqb_spec ext "png") as [->|_]; reflexivity.
Qed.

(** X17.  A media type without a slash has no second part, and the image
    is written under the extension [undefined]: uploaded at a free
    timestamp, it is what the lookup of that timestamp returns, at the
    path that ends in [.undefined], with the bytes that were sent and the
    media type [image/undefined]. *)
Theorem X17_media_type_without_slash host body image m w :
  body <> JNull ->
  isString (fieldOf body "transcript") = false ->
  fieldOf body "image" = Some (JStr image) ->
  effectiveMediaType body = Some m ->
  noChar "/" m = true ->
  let t := WebServer.formatTimestamp host (clock w) in
  (forall err, images w <> Broken err) ->
  freeTimestamp (images w) t ->
  let w1 := snd (WebServer.handleMediaRequest host (WebServer.JsonBody body) w) in
  exists imageFile w2,
    McpServer.getCorrespondingImage host (t ++ ".txt") w1 = (Returned (Some imageFile), w2)
    /\ McpServer.filepath imageFile = dirPath host IMAGES_DIR ++ "/" ++ t ++ ".undefined"
    /\ Base64.decode (McpServer.base64 imageFile) = Base64.decode image
    /\ McpServer.mediaType imageFile = "image/undefined".
Proof.
  intros Hnull Ht Himage Hmedia Hm t Hb Hfresh w1.
  destruct (upload_then_lookup host body image m "undefined" w Hnull Ht Himage Hmedia
              (imageName_no_slash _ m Hm) eq_refl eq_refl ltac:(discriminate) Hb Hfresh)
    as (w2 & E & _).
  eexists. exists w2. split; [exact E|].
  cbn [McpServer.filepath McpServer.base64 McpServer.mediaType].
  split; [reflexivity|]. split; [apply base64_round_trip | reflexivity].
Qed.

Lemma X17_witness :
  (JObj [("image", JStr "TWFu"); ("mediaType", JStr "png")] <> JNull
   /\ effectiveMediaType (JObj [("image", JStr "TWFu"); ("mediaType", JStr "png")])
      = Some "png"
   /\ noChar "/" "png" = true
   /\ (forall err, images emptyWorld <> Broken err)
   /\ freeTimestamp (images emptyWorld) "2025-05-17-02-40-24")
  /\ exists imageFile w2,
       McpServer.getCorrespondingImage sampleHost "2025-05-17-02-40-24.txt"
         (snd (WebServer.handleMediaRequest sampleHost
                 (WebServer.JsonBody
                    (JObj [("image", JStr "TWFu"); ("mediaType", JStr "png")]))
                 emptyWorld))
       = (Returned (Some imageFile), w2)
       /\ McpServer.filepath imageFile
          = "/srv/web-server/images/2025-05-17-02-40-24.undefined"
       /\ Base64.decode (McpServer.base64 imageFile) = "Man"
       /\ McpServer.mediaType imageFile = "image/undefined".
Proof.
  assert (Hnull : JObj [("image", JStr "TWFu"); ("mediaType", JStr "png")] <> JNull)
    by discriminate.
  assert (Hb : forall err, images emptyWorld <> Broken err) by discriminate.
  assert (Hfresh : freeTimestamp (images emptyWorld) "2025-05-17-02-40-24")
    by (intros name []).
  split; [split; [exact Hnull | split; [reflexivity | split; [reflexivity | split; assumption]]]|].
  exact (X17_media_type_without_slash sampleHost _ "TWFu" "png" emptyWorld
           Hnull eq_refl eq_refl eq_refl eq_refl Hb Hfresh).
Defined.

(** X18.  An image uploaded with a media type [kind/ext] at a free
    timestamp, [ext] being made of ASCII characters, holding no dot and
    not being [txt], is what the lookup of that timestamp returns: at the
    path made of the timestamp and [ext], with the bytes the upload
    decoded to, and with the media type of [ext] put in lower case.  Only
    the second part of the media type survives; the media type itself
    comes back when its first part is [image] and the second is in lower
    case and is not [jpg]. *)
Theorem X18_upload_then_lookup host body image kind ext w :
  body <> JNull ->
  isString (fieldOf body "transcript") = false ->
  fieldOf body "image" = Some (JStr image) ->
  effectiveMediaType body = Some (kind ++ "/" ++ ext) ->
  noChar "/" kind = true -> noChar "/" ext = true ->
  noChar "." ext = true -> ext <> "txt" ->
  isAscii ext = true ->
  let t := WebServer.formatTimestamp host (clock w) in
  (forall err, images w <> Broken err) ->
  freeTimestamp (images w) t ->
  let w1 := snd (WebServer.handleMediaRequest host (WebServer.JsonBody body) w) in
  exists imageFile w2,
    McpServer.getCorrespondingImage host (t ++ ".txt") w1 = (Returned (Some imageFile), w2)
    /\ McpServer.filepath imageFile = dirPath host IMAGES_DIR ++ "/" ++ t ++ "." ++ ext
    /\ Base64.decode (McpServer.base64 imageFile) = Base64.decode image
    /\ McpServer.mediaType imageFile = McpServer.mediaTypeOfExt (JS.toLowerCase ext)
    /\ (kind = "image" -> JS.toLowerCase ext = ext -> ext <> "jpg" ->
        McpServer.mediaType imageFile = kind ++ "/" ++ ext).
Proof.
  intros Hnull Ht Himage Hmedia Hk Hes Hed Hntxt _ t Hb Hfresh w1.
  destruct (upload_then_lookup host body image (kind ++ "/" ++ ext) ext w
              Hnull Ht Himage Hmedia (imageName_slash _ kind ext Hk Hes)
              Hed Hes Hntxt Hb Hfresh) as (w2 & E & _).
  eexists. exists w2. split; [exact E|].
  cbn [McpServer.filepath McpServer.base64 McpServer.mediaType].
  split; [reflexivity|]. split; [apply base64_round_trip|]. split; [reflexivity|].
  intros -> -> Hjpg. apply mediaTypeOfExt_plain. exact Hjpg.
Qed.

Lemma X18_witness :
  (JObj [("image", JStr "TWFu"); ("mediaType", JStr "image/webp")] <> JNull
   /\ effectiveMediaType (JObj [("image", JStr "TWFu"); ("mediaType", JStr "image/webp")])
      = Some ("image" ++ "/" ++ "webp")
   /\ isAscii "webp" = true
   /\ (forall err, images emptyWorld <> Broken err)
   /\ freeTimestamp (images emptyWorld) "2025-05-17-02-40-24")
  /\ exists imageFile w2,
       McpServer.getCorrespondingImage sampleHost "2025-05-17-02-40-24.txt"
         (snd (WebServer.handleMediaRequest sampleHost
                 (WebServer.JsonBody
                    (JObj [("image", JStr "TWFu"); ("mediaType", JStr "image/webp")]))
                 emptyWorld))
       = (Returned (Some imageFile), w2)
       /\ McpServer.filepath imageFile
          = "/srv/web-server/images/2025-05-17-02-40-24.webp"
       /\ Base64.decode (McpServer.base64 imageFile) = "Man"
       /\ McpServer.mediaType imageFile = "image/webp"
       /\ ("image" = "image" -> JS.toLowerCase "webp" = "webp" -> "webp" <> "jpg" ->
           McpServer.mediaType imageFile = "image/webp").
Proof.
  assert (Hnull : JObj [("image", JStr "TWFu"); ("mediaType", JStr "image/webp")] <> JNull)
    by discriminate.
  assert (Hb : forall err, images emptyWorld <> Broken err) by discriminate.
  assert (Hfresh : freeTimestamp (images emptyWorld) "2025-05-17-02-40-24")
    by (intros name []).
  split; [split; [exact Hnull | split; [reflexivity | split; [reflexivity | split; assumption]]]|].
  exact (X18_upload_then_lookup sampleHost _ "TWFu" "image" "webp" emptyWorld
           Hnull eq_refl eq_refl eq_refl eq_refl eq_refl eq_refl ltac:(discriminate)
           eq_refl Hb Hfresh).
Defined.

(** ** Triples *)

Lemma hoare_ret {A} (a : A) (Q : A -> World -> Prop) E :
  hoare (Q a) (ret a) Q E.
Proof. intros w H. exact H. Qed.

Lemma hoare_throw {A} message (Q : A -> World -> Prop) (E : World -> Prop) :
  hoare E (throw message) Q E.
Proof. intros w H. exact H. Qed.

Lemma hoare_bind {A B} P (c : IO A) Q (k : A -> IO B) R E :
  hoare P c Q E -> (forall a, hoare (Q a) (k a) R E) -> hoare P (bind c k) R E.
Proof.
  intros Hc Hk w Hw. unfold bind. specialize (Hc w Hw).
  destruct (c w) as [[a|e] w1]; [exact (Hk a w1 Hc) | exact Hc].
Qed.

Lemma hoare_weaken {A} (P P' : World -> Prop) (c : IO A)
    (Q Q' : A -> World -> Prop) (E E' : World -> Prop) :
  hoare P c Q E ->
  (forall w, P' w -> P w) -> (forall a w, Q a w -> Q' a w) ->
  (forall w, E w -> E' w) ->
  hoare P' c Q' E'.
Proof.
  intros H HP HQ HE w Hw. specialize (H w (HP w Hw)).
  destruct (c w) as [[a|e] w1]; auto.
Qed.

Lemma hoare_tryCatch {A} P (body : IO A) Q E (handler : string -> IO A) E' :
  hoare P body Q E -> (forall e, hoare E (handler e) Q E') ->
  hoare P (tryCatch body handler) Q E'.
Proof.
  intros Hb Hh w Hw. unfold tryCatch. specialize (Hb w Hw).
  destruct (body w) as [[a|e] w1]; [exact Hb | exact (Hh e w1 Hb)].
Qed.

Lemma hoare_assume {A} (P : World -> Prop) (fact : Prop) (c : IO A) Q E :
  (fact -> hoare P c Q E) -> hoare (fun w => P w /\ fact) c Q E.
Proof. intros H w [Hw Hf]. exact (H Hf w Hw). Qed.

(** ** The store stays well named *)

Lemma storeName_timestamp t ext :
  validTimestamp t = true -> storeName (t ++ "." ++ ext).
Proof. intros H. exists t, ext. split; [exact H | reflexivity]. Qed.

Lemma storeFile_names name content (d : Dir) x :
  In x (map fst (storeFile name content d)) -> x = name \/ In x (map fst d).
Proof.
  induction d as [|[n f] d IH]; simpl.
  - intros [H | []]. auto.
  - destruct (String.eqb_spec n name) as [->|Hne]; simpl.
    + intros [H | H]; auto.
    + intros [H | H]; auto. destruct (IH H); auto.
Qed.

Lemma storeFile_wellNamed name content entries :
  storeName name ->
  wellNamed (Present entries) ->
  wellNamed (Present (storeFile name content entries)).
Proof.
  unfold wellNamed. cbn [entriesOf]. intros Hn [Hf Hd]. split.
  - apply Forall_forall. intros x Hx.
    destruct (storeFile_names _ _ _ _ Hx) as [-> | Hin]; [exact Hn|].
    rewrite Forall_forall in Hf. exact (Hf x Hin).
  - clear Hf. induction entries as [|[n f] d IH]; simpl.
    + constructor; [intros [] | constructor].
    + simpl in Hd. inversion Hd as [|? ? Hnotin Hd']; subst.
      destruct (String.eqb_spec n name) as [->|Hne]; simpl.
      * constructor; assumption.
      * constructor; [|exact (IH Hd')].
        intros Hin. destruct (storeFile_names _ _ _ _ Hin) as [-> | Hin'];
          [congruence | contradiction].
Qed.

Lemma wellNamed_empty : wellNamed (Present []).
Proof. split; constructor. Qed.

Lemma tidy_sameFiles now w w' : sameFiles w w' -> tidy now w -> tidy now w'.
Proof.
  intros (Ht & Hi & Hc) (C & T & I). unfold tidy. rewrite Ht, Hi, Hc. auto.
Qed.

Section Tidy.

Variable host : Host.
Variable now : Z.
Hypothesis year :
  (1000 <= DateTime.getFullYear (utcOffset host) now <= 9999)%Z.

Lemma ensureDir_tidy d : hoare (tidy now) (WebServer.ensureDir d) (fun _ => (tidy now)) (tidy now).
Proof.
  intros w (C & T & I). unfold WebServer.ensureDir, mkdirRecursive.
  destruct d; cbn [dirState].
  - destruct (transcripts w) as [|err|entries] eqn:E.
    + split; [exact C|]. split; [apply wellNamed_empty | exact I].
    + split; [exact C|]. split; [cbn; rewrite E; exact T | exact I].
    + split; [exact C|]. split; [cbn; rewrite E; exact T | exact I].
  - destruct (images w) as [|err|entries] eqn:E.
    + split; [exact C|]. split; [exact T | apply wellNamed_empty].
    + split; [exact C|]. split; [exact T | cbn; rewrite E; exact I].
    + split; [exact C|]. split; [exact T | cbn; rewrite E; exact I].
Qed.

Lemma timestampName_tidy :
  hoare (tidy now) (WebServer.timestampName host)
        (fun t w => (tidy now) w /\ validTimestamp t = true) (tidy now).
Proof.
  intros w Hw. rewrite timestampName_run. split; [exact Hw|].
  destruct Hw as (C & _). rewrite C. apply formatTimestamp_valid. exact year.
Qed.

Lemma getProp_tidy body k : hoare (tidy now) (getProp body k) (fun _ => (tidy now)) (tidy now).
Proof. intros w Hw. destruct body; exact Hw. Qed.

Lemma consumeJSON_tidy req : hoare (tidy now) (WebServer.consumeJSON req) (fun _ => (tidy now)) (tidy now).
Proof. intros w Hw. destruct req; exact Hw. Qed.

Lemma writeFile_tidy d name content :
  storeName name -> hoare (tidy now) (writeFile host d name content) (fun _ => (tidy now)) (tidy now).
Proof.
  intros Hn w (C & T & I). unfold writeFile.
  destruct d; cbn [dirState].
  - destruct (transcripts w) as [|err|entries] eqn:E.
    + split; [exact C|]. split; [cbn; rewrite E; exact T | exact I].
    + split; [exact C|]. split; [cbn; rewrite E; exact T | exact I].
    + destruct (lookupFile name entries) as [[c|err]|].
      * split; [exact C|]. split; [apply storeFile_wellNamed; assumption | exact I].
      * split; [exact C|]. split; [cbn; rewrite E; exact T | exact I].
      * split; [exact C|]. split; [apply storeFile_wellNamed; assumption | exact I].
  - destruct (images w) as [|err|entries] eqn:E.
    + split; [exact C|]. split; [exact T | cbn; rewrite E; exact I].
    + split; [exact C|]. split; [exact T | cbn; rewrite E; exact I].
    + destruct (lookupFile name entries) as [[c|err]|].
      * split; [exact C|]. split; [exact T | apply storeFile_wellNamed; assumption].
      * split; [exact C|]. split; [exact T | cbn; rewrite E; exact I].
      * split; [exact C|]. split; [exact T | apply storeFile_wellNamed; assumption].
Qed.

Lemma describe_tidy image m :
  hoare (tidy now) (WebServer.describeImageWithAnthropic host image m) (fun _ => (tidy now)) (tidy now).
Proof.
  intros w Hw. pose proof (describe_sameFiles host image m w) as Hs.
  destruct (WebServer.describeImageWithAnthropic host image m w) as [[a|e] w1];
    exact (tidy_sameFiles _ _ _ Hs Hw).
Qed.

Lemma handleTranscriptUpload_tidy body :
  hoare (tidy now) (WebServer.handleTranscriptUpload host body) (fun _ => (tidy now)) (tidy now).
Proof.
  unfold WebServer.handleTranscriptUpload.
  eapply hoare_bind; [apply ensureDir_tidy|]. intros ?.
  eapply hoare_bind; [apply timestampName_tidy|]. intros t.
  apply hoare_assume. intros Hv.
  eapply hoare_bind; [apply getProp_tidy|]. intros transcript.
  destruct transcript as [[| b | n | text | items | fields]|];
    try apply hoare_throw.
  eapply hoare_bind; [apply writeFile_tidy; apply (storeName_timestamp t "txt" Hv)|].
  intros ?. apply (hoare_ret _ (fun _ => (tidy now))).
Qed.

Lemma handleImageUpload_tidy body :
  hoare (tidy now) (WebServer.handleImageUpload host body) (fun _ => (tidy now)) (tidy now).
Proof.
  unfold WebServer.handleImageUpload.
  eapply hoare_bind; [apply getProp_tidy|]. intros given. cbv zeta.
  eapply hoare_bind; [apply ensureDir_tidy|]. intros ?.
  eapply hoare_bind; [apply timestampName_tidy|]. intros t.
  apply hoare_assume. intros Hv.
  destruct (match given with
            | None | Some JNull => JStr "image/png"
            | Some v => v
            end) as [| b | n | mediaType | items | fields];
    try apply hoare_throw.
  eapply hoare_bind; [apply getProp_tidy|]. intros image.
  destruct image as [[| b | n | image | items | fields]|];
    try apply hoare_throw.
  eapply hoare_bind; [apply writeFile_tidy; apply storeName_timestamp; exact Hv|].
  intros ?.
  eapply hoare_bind; [apply describe_tidy|]. intros description.
  eapply hoare_bind; [apply writeFile_tidy; apply (storeName_timestamp t "txt" Hv)|].
  intros ?. apply (hoare_ret _ (fun _ => (tidy now))).
Qed.

Lemma handleMediaRequest_tidy req :
  hoare (tidy now) (WebServer.handleMediaRequest host req) (fun _ => (tidy now)) (tidy now).
Proof.
  unfold WebServer.handleMediaRequest.
  eapply hoare_tryCatch with (E := (tidy now)).
  - eapply hoare_bind; [apply consumeJSON_tidy|]. intros body.
    eapply hoare_bind; [apply getProp_tidy|]. intros transcript.
    destruct (isString transcript); [apply handleTranscriptUpload_tidy|].
    eapply hoare_bind; [apply getProp_tidy|]. intros image.
    destruct (isString image); [apply handleImageUpload_tidy|].
    apply (hoare_ret _ (fun _ => (tidy now))).
  - intros e. apply (hoare_ret _ (fun _ => (tidy now))).
Qed.

Lemma requestListener_tidy method pathname req :
  hoare (tidy now) (WebServer.requestListener host method pathname req) (fun _ => (tidy now)) (tidy now).
Proof.
  unfold WebServer.requestListener.
  destruct ((method =? "POST") && (pathname =? "/echo")).
  - intros w Hw. rewrite handleEchoRequest_run. exact Hw.
  - destruct ((method =? "POST") && (pathname =? "/media"));
      [apply handleMediaRequest_tidy | apply (hoare_ret _ (fun _ => (tidy now)))].
Qed.

End Tidy.

(** X19.  The ingestion server keeps the store well named.  In a year of
    four digits, when every entry of the two directories has a name made
    of a canonical timestamp, a dot and an extension, and no name is
    listed twice, the same holds after any request, whatever its method,
    path and body, whether it is answered 200 or fails half way; the
    clock is not touched. *)
Theorem X19_store_stays_well_named host method pathname req w :
  (1000 <= DateTime.getFullYear (utcOffset host) (clock w) <= 9999)%Z ->
  wellNamed (transcripts w) ->
  wellNamed (images w) ->
  let w' := snd (WebServer.requestListener host method pathname req w) in
  wellNamed (transcripts w') /\ wellNamed (images w') /\ clock w' = clock w.
Proof.
  intros Hy Ht Hi w'.
  pose proof (requestListener_tidy host (clock w) Hy method pathname req w
                (conj eq_refl (conj Ht Hi))) as H.
  unfold w'.
  destruct (WebServer.requestListener host method pathname req w) as [[r|e] w1];
    cbn [snd]; destruct H as (C & T & I); auto.
Qed.

Lemma X19_witness :
  ((1000 <= DateTime.getFullYear (utcOffset describingHost) (clock emptyWorld) <= 9999)%Z
   /\ wellNamed (transcripts emptyWorld)
   /\ wellNamed (images emptyWorld))
  /\ wellNamed
       (images (snd (WebServer.requestListener describingHost "POST" "/media"
                       (WebServer.JsonBody (JObj [("image", JStr "TWFu")])) emptyWorld)))
  /\ images (snd (WebServer.requestListener describingHost "POST" "/media"
                    (WebServer.JsonBody (JObj [("image", JStr "TWFu")])) emptyWorld))
     = Present [("2025-05-17-02-40-24.png", Regular "Man");
                ("2025-05-17-02-40-24.txt", Regular "A man at a desk.")].
Proof.
  assert (Hy : (1000 <= DateTime.getFullYear (utcOffset describingHost) (clock emptyWorld)
                <= 9999)%Z) by (vm_compute; split; discriminate).
  assert (He : wellNamed Missing) by (split; constructor).
  split; [split; [exact Hy | split; exact He]|].
  split; [|reflexivity].
  exact (proj1 (proj2 (X19_store_stays_well_named describingHost "POST" "/media"
                         (WebServer.JsonBody (JObj [("image", JStr "TWFu")]))
                         emptyWorld Hy He He))).
Defined.

(** ** Trimming twice *)

Lemma rev_append a b : JS.rev (a ++ b) = JS.rev b ++ JS.rev a.
Proof.
  induction a as [|c a IH]; cbn [append JS.rev].
  - rewrite append_nil_r. reflexivity.
  - rewrite IH, append_assoc. reflexivity.
Qed.

Lemma rev_involutive s : JS.rev (JS.rev s) = s.
Proof.
  induction s as [|c s IH]; [reflexivity|].
  cbn [JS.rev]. rewrite rev_append, IH. reflexivity.
Qed.

Section Strip.

Variable w2 : ascii -> ascii -> bool.
Variable w3 : ascii -> ascii -> ascii -> bool.

Lemma stripWs_unfold s :
  JS.stripWs w2 w3 s =
  match s with
  | String c1 s1 =>
      if JS.ws1 c1 then JS.stripWs w2 w3 s1
      else match s1 with
           | String c2 s2 =>
               if w2 c1 c2 then JS.stripWs w2 w3 s2
               else match s2 with
                    | String c3 s3 =>
                        if w3 c1 c2 c3 then JS.stripWs w2 w3 s3 else s
                    | EmptyString => s
                    end
           | EmptyString => s
           end
  | EmptyString => s
  end.
Proof. destruct s as [|c1 [|c2 [|c3 s3]]]; reflexivity. Qed.

(** Stripping gives a suffix that no white space begins. *)
Lemma stripWs_spec n :
  forall s, String.length s <= n ->
  stops w2 w3 (JS.stripWs w2 w3 s) = true
  /\ exists p, s = p ++ JS.stripWs w2 w3 s.
Proof.
  induction n as [|n IH]; intros s Hlen.
  - destruct s; [|cbn in Hlen; lia]. split; [reflexivity | exists ""; reflexivity].
  - rewrite stripWs_unfold.
    destruct s as [|c1 s1]; [split; [reflexivity | exists ""; reflexivity]|].
    cbn [String.length] in Hlen.
    destruct (JS.ws1 c1) eqn:H1.
    { destruct (IH s1 ltac:(lia)) as (Hs & p & Hp).
      split; [exact Hs|]. exists (String c1 p). cbn [append]. rewrite <- Hp. reflexivity. }
    destruct s1 as [|c2 s2].
    { split; [cbn [stops]; rewrite H1; reflexivity | exists ""; reflexivity]. }
    cbn [String.length] in Hlen.
    destruct (w2 c1 c2) eqn:H2.
    { destruct (IH s2 ltac:(lia)) as (Hs & p & Hp).
      split; [exact Hs|]. exists (String c1 (String c2 p)). cbn [append].
      rewrite <- Hp. reflexivity. }
    destruct s2 as [|c3 s3].
    { split; [cbn [stops]; rewrite H1, H2; reflexivity | exists ""; reflexivity]. }
    cbn [String.length] in Hlen.
    destruct (w3 c1 c2 c3) eqn:H3.
    { destruct (IH s3 ltac:(lia)) as (Hs & p & Hp).
      split; [exact Hs|]. exists (String c1 (String c2 (String c3 p))). cbn [append].
      rewrite <- Hp. reflexivity. }
    split; [cbn [stops]; rewrite H1, H2, H3; reflexivity | exists ""; reflexivity].
Qed.

Lemma stripWs_stops s : stops w2 w3 (JS.stripWs w2 w3 s) = true.
Proof. exact (proj1 (stripWs_spec (String.length s) s (Nat.le_refl _))). Qed.

Lemma stripWs_suffix s : exists p, s = p ++ JS.stripWs w2 w3 s.
Proof. exact (proj2 (stripWs_spec (String.length s) s (Nat.le_refl _))). Qed.

Lemma stops_fixed s : stops w2 w3 s = true -> JS.stripWs w2 w3 s = s.
Proof.
  intros H. rewrite stripWs_unfold.
  destruct s as [|c1 s1]; [reflexivity|].
  cbn [stops] in H. apply andb_true_iff in H. destruct H as [H1 H].
  apply negb_true_iff in H1. rewrite H1.
  destruct s1 as [|c2 s2]; [reflexivity|].
  apply andb_true_iff in H. destruct H as [H2 H].
  apply negb_true_iff in H2. rewrite H2.
  destruct s2 as [|c3 s3]; [reflexivity|].
  apply negb_true_iff in H. rewrite H. reflexivity.
Qed.

Lemma stops_prefix x y : stops w2 w3 (x ++ y) = true -> stops w2 w3 x = true.
Proof.
  destruct x as [|c1 [|c2 [|c3 x]]]; cbn [append stops]; intros H.
  - reflexivity.
  - apply andb_true_iff in H. destruct H as [H1 _]. rewrite H1. reflexivity.
  - apply andb_true_iff in H. destruct H as [H1 H]. rewrite H1.
    destruct y; [exact H|].
    apply andb_true_iff in H. destruct H as [H2 _]. rewrite H2. reflexivity.
  - exact H.
Qed.

End Strip.

(** Trimming what is trimmed changes nothing. *)
Lemma trim_idempotent s : JS.trim (JS.trim s) = JS.trim s.
Proof.
  unfold JS.trim, JS.trimEnd, JS.trimStart.
  set (r2 := fun c2 c1 => JS.ws2 c1 c2).
  set (r3 := fun c3 c2 c1 => JS.ws3 c1 c2 c3).
  set (a := JS.stripWs JS.ws2 JS.ws3 s).
  set (b := JS.stripWs r2 r3 (JS.rev a)).
  assert (Ha : stops JS.ws2 JS.ws3 a = true) by apply stripWs_stops.
  assert (Hb : stops r2 r3 b = true) by apply stripWs_stops.
  destruct (stripWs_suffix r2 r3 (JS.rev a)) as [p Hp]. fold b in Hp.
  assert (Hprefix : a = JS.rev b ++ JS.rev p).
  { rewrite <- (rev_involutive a), Hp, rev_append. reflexivity. }
  assert (Hstart : JS.stripWs JS.ws2 JS.ws3 (JS.rev b) = JS.rev b).
  { apply stops_fixed. apply (stops_prefix _ _ _ (JS.rev p)).
    rewrite <- Hprefix. exact Ha. }
  rewrite Hstart, rev_involutive, (stops_fixed r2 r3 b Hb). reflexivity.
Qed.

(** ** From the glasses to the store, and to the response of a query *)

Lemma handleMediaRequest_transcript host body text w :
  body <> JNull ->
  fieldOf body "transcript" = Some (JStr text) ->
  let name := (WebServer.formatTimestamp host (clock w) ++ ".txt")%string in
  writable (transcripts w) name ->
  exists w',
    WebServer.handleMediaRequest host (WebServer.JsonBody body) w
    = (Returned (WebServer.mkReply 200
                   (JObj [("saved", JStr ("transcripts/" ++ name))])), w')
    /\ transcripts w'
       = Present (storeFile name (utf8Encode text) (entriesOf (transcripts w)))
    /\ images w' = images w.
Proof.
  intros Hnull Hfield name Hw.
  destruct (writable_inv _ _ Hw) as (Hb & Hf).
  destruct (ensureDir_run TRANSCRIPTS_DIR w Hb) as (w1 & E1 & D1 & O1 & C1).
  destruct (writeFile_run host TRANSCRIPTS_DIR name (utf8Encode text) w1 _ D1 Hf)
    as (w2 & E2 & D2 & O2 & C2).
  exists w2. split; [|split].
  - unfold WebServer.handleMediaRequest, tryCatch, WebServer.consumeJSON.
    unfold bind at 1. unfold ret at 1.
    rewrite (getProp_fieldOf body "transcript" Hnull), Hfield.
    unfold bind at 1. unfold ret at 1. cbn [isString].
    unfold WebServer.handleTranscriptUpload.
    rewrite (bind_Returned _ _ _ _ _ E1).
    rewrite (bind_Returned _ _ _ _ _ (timestampName_run host w1)).
    rewrite (getProp_fieldOf body "transcript" Hnull), Hfield.
    unfold bind at 1. unfold ret at 1. rewrite C1. fold name.
    rewrite (bind_Returned _ _ _ _ _ E2). reflexivity.
  - exact D2.
  - change (dirState IMAGES_DIR w2 = dirState IMAGES_DIR w).
    rewrite (O2 IMAGES_DIR), (O1 IMAGES_DIR); [reflexivity | discriminate | discriminate].
Qed.

(** X20.  The glasses post a transcription exactly when it is final and
    its text, trimmed, has at least five UTF-16 code units; what they post
    is the trimmed text, which is not empty and which trimming leaves as
    it is: no white space begins or ends it.  Posted to [/media] of a
    server whose transcript directory can be written, it is answered 200
    and stored as it is under the timestamp, the image directory left
    alone.  The text shown by the component follows every update, final
    or not. *)
Theorem X20_spoken_transcripts host transcriptionText eventArgs w :
  let reaction := Speech.onTranscriptionUpdate transcriptionText eventArgs in
  let said := JS.trim (Speech.text eventArgs) in
  let name := (WebServer.formatTimestamp host (clock w) ++ ".txt")%string in
  (snd reaction <> None
   <-> Speech.isFinal eventArgs = true /\ 5 <= JS.length said)
  /\ (forall body,
        snd reaction = Some body ->
        body = JObj [("transcript", JStr said)]
        /\ said <> ""
        /\ JS.trim said = said
        /\ (writable (transcripts w) name ->
            exists w',
              WebServer.requestListener host "POST" "/media" (WebServer.JsonBody body) w
              = (Returned (WebServer.mkReply 200
                             (JObj [("saved", JStr ("transcripts/" ++ name))])), w')
              /\ transcripts w'
                 = Present (storeFile name said (entriesOf (transcripts w)))
              /\ images w' = images w))
  /\ fst reaction = match transcriptionText with
                    | Some _ => Some (Speech.text eventArgs)
                    | None => None
                    end.
Proof.
  intros reaction said name. unfold reaction, Speech.onTranscriptionUpdate.
  fold said. unfold Speech.MIN_TRANSCRIPT_LENGTH.
  destruct (Speech.isFinal eventArgs).
  - destruct (Nat.leb_spec 5 (JS.length said)) as [Hlen|Hlen]; cbn [fst snd].
    + split; [split; [auto | discriminate]|]. split; [|reflexivity].
      intros body Hbody. injection Hbody as <-.
      unfold Speech.sendTranscriptionToLocalServer.
      split; [reflexivity|]. split; [|split].
      * intros Hempty. rewrite Hempty in Hlen. cbn in Hlen. lia.
      * apply trim_idempotent.
      * intros Hw.
        exact (handleMediaRequest_transcript host (JObj [("transcript", JStr said)])
                 said w ltac:(discriminate) eq_refl Hw).
    + split; [split; [intros H; exfalso; apply H; reflexivity | intros [_ H]; lia]|].
      split; [intros body H; discriminate | reflexivity].
  - cbn [fst snd].
    split; [split; [intros H; exfalso; apply H; reflexivity | intros [H _]; discriminate]|].
    split; [intros body H; discriminate | reflexivity].
Qed.

(** X21.  An image the glasses post, at a timestamp that is free in an
    image directory that can be used, is served by the query server:
    a response that cites the timestamp gets, as its image part, the
    canonical base64 text of the bytes the posted text decodes to, with
    the media type [image/jpeg], whether or not the description succeeded. *)
Theorem X21_glasses_image_is_served host base64Image w :
  let t := WebServer.formatTimestamp host (clock w) in
  (forall err, images w <> Broken err) ->
  freeTimestamp (images w) t ->
  let w1 := snd (WebServer.requestListener host "POST" "/media"
                   (WebServer.JsonBody (CameraOutput.sendToLocalServer base64Image)) w) in
  exists w2,
    McpServer.addImageIfRelevant host [] (Some t) w1
    = (Returned [McpServer.ImageContent (Base64.encode (Base64.decode base64Image))
                                        "image/jpeg"
                                        "Relevant image for your query"], w2).
Proof.
  intros t Hb Hfresh w1.
  destruct (upload_then_lookup host (CameraOutput.sendToLocalServer base64Image)
              base64Image "image/jpeg" "jpeg" w
              ltac:(discriminate) eq_refl eq_refl eq_refl
              (imageName_slash _ "image" "jpeg" eq_refl eq_refl)
              eq_refl eq_refl ltac:(discriminate) Hb Hfresh) as (w2 & E & _).
  exists w2. unfold McpServer.addImageIfRelevant.
  destruct (formatTimestamp_plain host (clock w)) as (_ & _ & Hne).
  fold t in Hne. apply String.eqb_neq in Hne. rewrite Hne.
  change (WebServer.requestListener host "POST" "/media"
            (WebServer.JsonBody (CameraOutput.sendToLocalServer base64Image)) w)
    with (WebServer.handleMediaRequest host
            (WebServer.JsonBody (CameraOutput.sendToLocalServer base64Image)) w) in w1.
  fold t in E. unfold w1. rewrite (bind_Returned _ _ _ _ _ E). reflexivity.
Qed.

Lemma X21_witness :
  ((forall err, images emptyWorld <> Broken err)
   /\ freeTimestamp (images emptyWorld) "2025-05-17-02-40-24")
  /\ exists w2,
       McpServer.addImageIfRelevant keylessHost [] (Some "2025-05-17-02-40-24")
         (snd (WebServer.requestListener keylessHost "POST" "/media"
                 (WebServer.JsonBody (CameraOutput.sendToLocalServer "TWFu")) emptyWorld))
       = (Returned [McpServer.ImageContent "TWFu" "image/jpeg"
                                           "Relevant image for your query"], w2).
Proof.
  assert (Hb : forall err, images emptyWorld <> Broken err) by discriminate.
  assert (Hfresh : freeTimestamp (images emptyWorld) "2025-05-17-02-40-24")
    by (intros name []).
  split; [split; assumption|].
  exact (X21_glasses_image_is_served keylessHost "TWFu" emptyWorld Hb Hfresh).
Defined.

(** ** What a query writes to its log *)

Lemma logSection_infoLog title content w :
  infoLog (snd (McpServer.logSection title content w))
  = (infoLog w ++ [(nl ++ "===== " ++ title ++ " =====")%string; content;
                   JS.repeat "=" (String.length title + 12)])%list.
Proof.
  unfold McpServer.logSection, bind, McpServer.logToFile. cbn [snd infoLog].
  rewrite <- !app_assoc. reflexivity.
Qed.

Lemma askAnthropicWithContext_infoLog host q ctx w :
  keyMissing host = false ->
  exists rest,
    infoLog (snd (McpServer.askAnthropicWithContext host q ctx w))
    = (infoLog w
         ++ [(nl ++ "===== PROMPT SENT TO CLAUDE =====")%string;
             McpServer.constructPrompt q ctx;
             JS.repeat "=" 33]
         ++ rest)%list.
Proof.
  intros Hkey. unfold McpServer.askAnthropicWithContext. rewrite Hkey.
  pose proof (logSection_infoLog "PROMPT SENT TO CLAUDE"
                (McpServer.constructPrompt q ctx) w) as Hlog.
  destruct (logSection_run "PROMPT SENT TO CLAUDE"
              (McpServer.constructPrompt q ctx) w) as (w1 & E1 & _ & _).
  rewrite E1 in Hlog. cbn [snd] in Hlog.
  change (String.length "PROMPT SENT TO CLAUDE" + 12) with 33 in Hlog.
  change (nl ++ "===== " ++ "PROMPT SENT TO CLAUDE" ++ " =====")
    with (nl ++ "===== PROMPT SENT TO CLAUDE =====") in Hlog.
  rewrite (bind_Returned _ _ _ _ _ E1).
  unfold bind at 1. unfold fetch.
  destruct (remote host _) as [message|resp];
    [exists []; cbn [snd record infoLog]; rewrite app_nil_r; exact Hlog|].
  destruct (respOk resp); cbn [negb];
    [|exists []; cbn [snd record infoLog]; rewrite app_nil_r; exact Hlog].
  unfold bind at 1. unfold json.
  destruct (respJson resp) as [data|];
    [|exists []; cbn [snd record infoLog]; rewrite app_nil_r; exact Hlog].
  unfold ret at 1. unfold McpServer.processResponse. cbv zeta.
  match goal with
  | |- context [bind (McpServer.logSection ?title ?content) ?k ?w0] =>
      pose proof (logSection_infoLog title content w0) as Hlog2;
      destruct (logSection_run title content w0) as (w2 & E2 & _ & _);
      rewrite E2 in Hlog2; rewrite (bind_Returned _ _ _ _ _ E2)
  end.
  cbn [snd record infoLog ret] in Hlog2 |- *. unfold ret. cbn [snd].
  rewrite Hlog2, Hlog. eexists. rewrite <- !app_assoc. reflexivity.
Qed.

(** X22.  A query with a valid question and a key writes its prompt to the
    log before the request is sent, whether or not the API then answers:
    the log of prompts and responses gains the header of the section, the
    prompt and a rule of 33 signs, and what follows them.  The prompt
    holds the context assembled from the store, that is the text of every
    transcript and description listed, and the question, as they are. *)
Theorem X22_prompt_is_logged host q w :
  q <> "" ->
  keyMissing host = false ->
  let w' := snd (McpServer.answerFromContext host (Some (JStr q)) w) in
  let prompt := McpServer.constructPrompt q (contextOf w) in
  (exists rest,
     infoLog w'
     = (infoLog w
          ++ [(nl ++ "===== PROMPT SENT TO CLAUDE =====")%string; prompt;
              JS.repeat "=" 33]
          ++ rest)%list)
  /\ (exists before between after,
        prompt = before ++ contextOf w ++ between ++ q ++ after)
  /\ reqContent (sentRequest host q w) = [TextPart prompt].
Proof.
  intros Hq Hkey w' prompt.
  split; [|split; [|reflexivity]].
  - unfold w'.
    destruct (answerFromContext_run host q w Hq) as (w1 & _ & (_ & _ & L1) & ->).
    destruct (askAnthropicWithContext_infoLog host q (contextOf w) w1 Hkey)
      as (rest & Hlog).
    rewrite L1 in Hlog. fold prompt in Hlog.
    destruct (McpServer.askAnthropicWithContext host q (contextOf w) w1)
      as [[r|e] w2]; cbn [snd] in Hlog |- *.
    + destruct (buildResponse_onlyRead host (McpServer.answer r)
                  (McpServer.relevantImageTimestamp r) w2) as (_ & _ & L3).
      exists rest. rewrite L3. exact Hlog.
    + exists rest. exact Hlog.
  - unfold prompt, McpServer.constructPrompt.
    exists ("<context>" ++ nl),
      (nl ++ "</context>" ++ nl ++ nl ++ McpServer.instructions ++ nl ++ nl
          ++ "<question>" ++ nl),
      (nl ++ "</question>").
    rewrite !append_assoc. reflexivity.
Qed.

Lemma X22_witness :
  ("Where are my keys?" <> "" /\ keyMissing refusingHost = false)
  /\ exists rest,
       infoLog (snd (McpServer.answerFromContext refusingHost
                       (Some (JStr "Where are my keys?")) sampleWorld))
       = ([(nl ++ "===== PROMPT SENT TO CLAUDE =====")%string;
           McpServer.constructPrompt "Where are my keys?" (contextOf sampleWorld);
           JS.repeat "=" 33] ++ rest)%list.
Proof.
  assert (Hq : "Where are my keys?" <> "") by discriminate.
  split; [split; [exact Hq | reflexivity]|].
  exact (proj1 (X22_prompt_is_logged refusingHost "Where are my keys?" sampleWorld
                  Hq eq_refl)).
Defined.

(** ** Two uploads with one timestamp *)

Lemma storeFile_twice name c1 c2 (d : Dir) :
  storeFile name c2 (storeFile name c1 d) = storeFile name c2 d.
Proof.
  induction d as [|[n f] d IH]; simpl.
  - rewrite String.eqb_refl. reflexivity.
  - destruct (n =? name) eqn:E; simpl; rewrite E; [reflexivity|].
    rewrite IH. reflexivity.
Qed.

Lemma writable_storeFile name content entries :
  writable (Present (storeFile name content entries)) name.
Proof. intros err. rewrite lookupFile_storeFile_same. discriminate. Qed.

(** X23.  Timestamps have the precision of a second, and a name is given
    without looking at the directory: a transcript uploaded at an instant
    that renders to the same timestamp as an earlier upload is written
    over it.  Both uploads are answered 200 with the same path; afterwards
    the directory is what it would be had only the second text been
    uploaded, and the file holds the second text. *)
Theorem X23_same_second_transcripts_collide host text1 text2 later w :
  let t := WebServer.formatTimestamp host (clock w) in
  WebServer.formatTimestamp host later = t ->
  writable (transcripts w) (t ++ ".txt") ->
  let saved := Returned (WebServer.mkReply 200
                           (JObj [("saved", JStr ("transcripts/" ++ t ++ ".txt"))])) in
  let first := WebServer.handleMediaRequest host
                 (WebServer.JsonBody (JObj [("transcript", JStr text1)])) w in
  let second := WebServer.handleMediaRequest host
                  (WebServer.JsonBody (JObj [("transcript", JStr text2)]))
                  (atClock later (snd first)) in
  fst first = saved
  /\ fst second = saved
  /\ transcripts (snd second)
     = Present (storeFile (t ++ ".txt") text2 (entriesOf (transcripts w)))
  /\ lookupFile (t ++ ".txt") (entriesOf (transcripts (snd second)))
     = Some (Regular text2).
Proof.
  intros t Hsame Hw saved first second.
  destruct (handleMediaRequest_transcript host (JObj [("transcript", JStr text1)])
              text1 w ltac:(discriminate) eq_refl Hw) as (w1 & E1 & T1 & _).
  fold t in E1, T1.
  assert (Hw2 : writable (transcripts (atClock later w1))
                         (WebServer.formatTimestamp host (clock (atClock later w1))
                            ++ ".txt")).
  { cbn [atClock transcripts clock]. rewrite Hsame, T1. apply writable_storeFile. }
  destruct (handleMediaRequest_transcript host (JObj [("transcript", JStr text2)])
              text2 (atClock later w1) ltac:(discriminate) eq_refl Hw2)
    as (w2 & E2 & T2 & _).
  cbn [atClock transcripts clock] in E2, T2. rewrite Hsame in E2, T2.
  rewrite T1 in T2. cbn [entriesOf] in T2. rewrite storeFile_twice in T2.
  unfold second, first. rewrite E1. cbn [fst snd]. rewrite E2. cbn [fst snd].
  split; [reflexivity|]. split; [reflexivity|]. split; [exact T2|].
  rewrite T2. apply lookupFile_storeFile_same.
Qed.

Lemma X23_witness :
  (WebServer.formatTimestamp sampleHost 1747446024900
   = WebServer.formatTimestamp sampleHost (clock emptyWorld)
   /\ writable (transcripts emptyWorld) "2025-05-17-02-40-24.txt")
  /\ transcripts
       (snd (WebServer.handleMediaRequest sampleHost
               (WebServer.JsonBody (JObj [("transcript", JStr "Found them.")]))
               (atClock 1747446024900
                  (snd (WebServer.handleMediaRequest sampleHost
                          (WebServer.JsonBody (JObj [("transcript", JStr "Where are my keys?")]))
                          emptyWorld)))))
     = Present [("2025-05-17-02-40-24.txt", Regular "Found them.")].
Proof.
  split; [split; [reflexivity | exact I]|].
  exact (proj1 (proj2 (proj2
           (X23_same_second_transcripts_collide sampleHost "Where are my keys?"
              "Found them." 1747446024900 emptyWorld eq_refl I)))).
Defined.

(** ** What the lookup of an image returns *)

Lemma find_split {A} (f : A -> bool) l x :
  find f l = Some x ->
  exists pre post,
    l = (pre ++ x :: post)%list /\ f x = true
    /\ forall y, In y pre -> f y = false.
Proof.
  induction l as [|a l IH]; cbn [find]; [discriminate|].
  destruct (f a) eqn:Ha.
  - intros H. injection H as <-. exists [], l.
    split; [reflexivity|]. split; [exact Ha | intros y []].
  - intros H. destruct (IH H) as (pre & post & -> & Hx & Hpre).
    exists (a :: pre), post. split; [reflexivity|]. split; [exact Hx|].
    intros y [<- | Hy]; [exact Ha | exact (Hpre y Hy)].
Qed.

(** X24.  An image the lookup returns is always an entry of the image
    directory, and the first in the order of the listing whose name begins
    with the base name of the request without ending in [.txt]: no entry
    listed before it does.  The path is that entry in the image directory
    and the data the base64 text of its bytes; when the extension of the
    entry is made of ASCII characters, the media type is that of the
    extension in lower case.  The lookup tests the beginning of the name,
    not the whole base name. *)
Theorem X24_lookup_returns_first_match host textFilename image w w' :
  McpServer.getCorrespondingImage host textFilename w = (Returned (Some image), w') ->
  let baseName := JS.basename textFilename ".txt" in
  exists entries pre name post bytes,
    images w = Present entries
    /\ map fst entries = (pre ++ name :: post)%list
    /\ (forall x, In x pre ->
          JS.startsWith x baseName = false \/ JS.endsWith x ".txt" = true)
    /\ JS.startsWith name baseName = true
    /\ JS.endsWith name ".txt" = false
    /\ lookupFile name entries = Some (Regular bytes)
    /\ McpServer.filepath image = dirPath host IMAGES_DIR ++ "/" ++ name
    /\ McpServer.base64 image = Base64.encode bytes
    /\ (isAscii (JS.extname name) = true ->
        McpServer.mediaType image
        = McpServer.mediaTypeOfExt
            (JS.substring 1 (JS.toLowerCase (JS.extname name)))).
Proof.
  intros H baseName.
  destruct (getCorrespondingImage_spec host textFilename w) as (w2 & E & _).
  rewrite E in H. injection H as H _. unfold findImage in H.
  destruct (images w) as [|err|entries]; try discriminate.
  fold baseName in H.
  destruct (find (McpServer.matchesBaseName baseName) (map fst entries))
    as [name|] eqn:Hfind; [|discriminate].
  destruct (name =? ""); [discriminate|].
  destruct (lookupFile name entries) as [[bytes|err]|] eqn:Hl; try discriminate.
  injection H as <-.
  destruct (find_split _ _ _ Hfind) as (pre & post & Hsplit & Hmatch & Hpre).
  unfold McpServer.matchesBaseName in Hmatch.
  apply andb_true_iff in Hmatch. destruct Hmatch as [Hs He].
  apply negb_true_iff in He.
  exists entries, pre, name, post, bytes.
  split; [reflexivity|]. split; [exact Hsplit|]. split.
  - intros x Hx. specialize (Hpre x Hx). unfold McpServer.matchesBaseName in Hpre.
    apply andb_false_iff in Hpre. destruct Hpre as [Hp | Hp]; [left; exact Hp|].
    right. apply negb_false_iff in Hp. exact Hp.
  - repeat split; assumption.
Qed.

Lemma X24_witness :
  McpServer.getCorrespondingImage sampleHost "2025-05-17-02-40-24.txt" strayWorld
  = (Returned (Some (McpServer.mkImageFile
                       "/srv/web-server/images/2025-05-17-02-40-24-edited.png"
                       "TWFu" "image/png")),
     snd (McpServer.getCorrespondingImage sampleHost "2025-05-17-02-40-24.txt" strayWorld))
  /\ isAscii (JS.extname "2025-05-17-02-40-24-edited.png") = true
  /\ exists entries pre name post bytes,
       images strayWorld = Present entries
       /\ map fst entries = (pre ++ name :: post)%list
       /\ (forall x, In x pre ->
             JS.startsWith x (JS.basename "2025-05-17-02-40-24.txt" ".txt") = false
             \/ JS.endsWith x ".txt" = true)
       /\ JS.startsWith name (JS.basename "2025-05-17-02-40-24.txt" ".txt") = true
       /\ JS.endsWith name ".txt" = false
       /\ lookupFile name entries = Some (Regular bytes)
       /\ "/srv/web-server/images/2025-05-17-02-40-24-edited.png"
          = dirPath sampleHost IMAGES_DIR ++ "/" ++ name
       /\ "TWFu" = Base64.encode bytes
       /\ (isAscii (JS.extname name) = true ->
           "image/png"
           = McpServer.mediaTypeOfExt
               (JS.substring 1 (JS.toLowerCase (JS.extname name)))).
Proof.
  assert (H : McpServer.getCorrespondingImage sampleHost "2025-05-17-02-40-24.txt" strayWorld
              = (Returned (Some (McpServer.mkImageFile
                       "/srv/web-server/images/2025-05-17-02-40-24-edited.png"
                       "TWFu" "image/png")),
                 snd (McpServer.getCorrespondingImage sampleHost
                        "2025-05-17-02-40-24.txt" strayWorld))) by reflexivity.
  split; [exact H|]. split; [reflexivity|].
  exact (X24_lookup_returns_first_match sampleHost _ _ strayWorld _ H).
Defined.

(** ** From an upload to the context of the next query *)

Lemma storeFile_NoDup name content (d : Dir) :
  NoDup (map fst d) -> NoDup (map fst (storeFile name content d)).
Proof.
  induction d as [|[n f] d IH]; simpl; intros Hd.
  - constructor; [intros [] | constructor].
  - inversion Hd as [|? ? Hnotin Hd']; subst.
    destruct (String.eqb_spec n name) as [->|Hne]; simpl.
    + constructor; assumption.
    + constructor; [|exact (IH Hd')].
      intros Hin. destruct (storeFile_names _ _ _ _ Hin) as [-> | Hin'];
        [congruence | contradiction].
Qed.

Lemma storeFile_In name content (d : Dir) :
  In (name, Regular content) (storeFile name content d).
Proof.
  induction d as [|[n f] d IH]; simpl; [auto|].
  destruct (n =? name) eqn:E; simpl; [|auto].
  apply String.eqb_eq in E. subst n. auto.
Qed.

Lemma storeFile_readable name content (d : Dir) :
  forallb (readableb d) (textNames d) = true ->
  forallb (readableb (storeFile name content d))
          (textNames (storeFile name content d)) = true.
Proof.
  intros Hall. apply forallb_forall. intros x Hx.
  apply textNames_In in Hx. destruct Hx as [Hin Hends].
  unfold readableb. destruct (String.eqb_spec x name) as [->|Hne].
  - rewrite lookupFile_storeFile_same. reflexivity.
  - rewrite lookupFile_storeFile_other by exact Hne.
    destruct (storeFile_names _ _ _ _ Hin) as [-> | Hin']; [congruence|].
    rewrite forallb_forall in Hall.
    apply (Hall x). apply textNames_In. auto.
Qed.

(** A directory that is missing or healthy is healthy after a file has
    been stored in it. *)
Lemma storeFile_healthy name content st :
  st = Missing \/ healthy st ->
  healthy (Present (storeFile name content (entriesOf st))).
Proof.
  intros [-> | (entries & -> & Hnd & Hall)]; cbn [entriesOf].
  - exists [(name, Regular content)]. split; [reflexivity|].
    split; [constructor; [intros [] | constructor]|].
    apply (storeFile_readable name content []). reflexivity.
  - eexists. split; [reflexivity|].
    split; [apply storeFile_NoDup; exact Hnd | apply storeFile_readable; exact Hall].
Qed.

Lemma healthy_writable st t :
  st = Missing \/ healthy st -> writable st (t ++ ".txt").
Proof.
  intros [-> | (entries & -> & _ & Hall)]; cbn [writable]; [exact I|].
  intros err Hl. pose proof (lookupFile_Some_In _ _ _ Hl) as Hin.
  rewrite forallb_forall in Hall.
  assert (Hr : readableb entries (t ++ ".txt") = true).
  { apply Hall. apply textNames_In. split; [exact Hin | apply endsWith_append]. }
  unfold readableb in Hr. rewrite Hl in Hr. discriminate.
Qed.

Lemma renderContext_holds_transcript F1 f F2 imageDescFiles :
  exists pre post,
    McpServer.renderContext (F1 ++ f :: F2) imageDescFiles
    = pre ++ JS.join nl (McpServer.transcriptBlock f) ++ post.
Proof.
  unfold McpServer.renderContext.
  rewrite addTranscripts_nonempty by apply app_cons_nonempty.
  destruct (addImageDescriptions_extends
              ([] ++ ["<transcripts>"]
                  ++ flat_map McpServer.transcriptBlock (F1 ++ f :: F2)
                  ++ ["</transcripts>"])%list imageDescFiles) as [rest ->].
  rewrite <- !app_assoc.
  rewrite (parts_one McpServer.transcriptBlock [] "<transcripts>" "</transcripts>" rest).
  destruct (join_inside nl
              ([] ++ "<transcripts>" :: flat_map McpServer.transcriptBlock F1)%list
              (McpServer.transcriptBlock f)
              (flat_map McpServer.transcriptBlock F2 ++ "</transcripts>" :: rest)%list
              (transcriptBlock_nonempty f)) as (pre & post & E & _).
  exists pre, post. exact E.
Qed.

Lemma renderContext_holds_description transcriptFiles F1 f F2 :
  exists pre post,
    McpServer.renderContext transcriptFiles (F1 ++ f :: F2)
    = pre ++ JS.join nl (McpServer.imageDescriptionBlock f) ++ post.
Proof.
  unfold McpServer.renderContext.
  rewrite addImageDescriptions_nonempty by apply app_cons_nonempty.
  rewrite (parts_one McpServer.imageDescriptionBlock _
             "<image_descriptions>" "</image_descriptions>" []).
  destruct (join_inside nl
              (McpServer.addTranscriptsToContext [] transcriptFiles
                 ++ "<image_descriptions>" :: flat_map McpServer.imageDescriptionBlock F1)%list
              (McpServer.imageDescriptionBlock f)
              (flat_map McpServer.imageDescriptionBlock F2 ++ ["</image_descriptions>"])%list
              (imageDescriptionBlock_nonempty f)) as (pre & post & E & _).
  exists pre, post. exact E.
Qed.

(** X25.  What is uploaded as a transcript is in the context of the next
    query.  In a year of four digits, after a transcript has been posted
    to a server whose transcript directory is missing or healthy, the
    context the query server builds holds the transcript as it was sent,
    between the tags that carry its timestamp. *)
Theorem X25_uploaded_transcript_is_in_the_context host body text w :
  body <> JNull ->
  fieldOf body "transcript" = Some (JStr text) ->
  (1000 <= DateTime.getFullYear (utcOffset host) (clock w) <= 9999)%Z ->
  transcripts w = Missing \/ healthy (transcripts w) ->
  let t := WebServer.formatTimestamp host (clock w) in
  let w1 := snd (WebServer.requestListener host "POST" "/media"
                   (WebServer.JsonBody body) w) in
  exists before after w2,
    McpServer.buildFullContext host w1
    = (Returned (before ++ artifactText TRANSCRIPTS_DIR t text ++ after), w2).
Proof.
  intros Hnull Hfield Hy Hst t w1.
  destruct (handleMediaRequest_transcript host body text w Hnull Hfield
              (healthy_writable _ _ Hst)) as (w' & E & T & _).
  fold t in E, T.
  assert (Hw1 : w1 = w').
  { unfold w1.
    change (WebServer.requestListener host "POST" "/media" (WebServer.JsonBody body) w)
      with (WebServer.handleMediaRequest host (WebServer.JsonBody body) w).
    rewrite E. reflexivity. }
  destruct (buildFullContext_spec host w1) as (w2 & Eb & _).
  rewrite Hw1 in Eb |- *. rewrite T in Eb.
  destruct (listText_holds
              (Present (storeFile (t ++ ".txt") (utf8Encode text)
                          (entriesOf (transcripts w))))
              t (utf8Encode text)) as (F1 & F2 & Hl).
  { apply storeFile_healthy. exact Hst. }
  { unfold holds. cbn [entriesOf]. apply storeFile_In. }
  rewrite Hl in Eb.
  destruct (renderContext_holds_transcript F1
              (McpServer.mkTextFile (t ++ ".txt") (utf8Decode (utf8Encode text)))
              F2 (listText (images w'))) as (pre & post & Hr).
  rewrite Hr in Eb.
  rewrite (transcriptBlock_text t _ (formatTimestamp_valid host (clock w) Hy)) in Eb.
  exists pre, post, w2. exact Eb.
Qed.

Lemma X25_witness :
  (JObj [("transcript", JStr "Where are my keys?")] <> JNull
   /\ (1000 <= DateTime.getFullYear (utcOffset sampleHost) (clock emptyWorld) <= 9999)%Z
   /\ (transcripts emptyWorld = Missing \/ healthy (transcripts emptyWorld)))
  /\ exists before after w2,
       McpServer.buildFullContext sampleHost
         (snd (WebServer.requestListener sampleHost "POST" "/media"
                 (WebServer.JsonBody (JObj [("transcript", JStr "Where are my keys?")]))
                 emptyWorld))
       = (Returned (before
                      ++ artifactText TRANSCRIPTS_DIR "2025-05-17-02-40-24"
                           "Where are my keys?"
                      ++ after), w2).
Proof.
  assert (Hnull : JObj [("transcript", JStr "Where are my keys?")] <> JNull)
    by discriminate.
  assert (Hy : (1000 <= DateTime.getFullYear (utcOffset sampleHost) (clock emptyWorld)
                <= 9999)%Z) by (vm_compute; split; discriminate).
  assert (Hst : transcripts emptyWorld = Missing \/ healthy (transcripts emptyWorld))
    by (left; reflexivity).
  split; [split; [exact Hnull | split; [exact Hy | exact Hst]]|].
  exact (X25_uploaded_transcript_is_in_the_context sampleHost _ "Where are my keys?"
           emptyWorld Hnull eq_refl Hy Hst).
Defined.

(** X26.  The description of an uploaded image is in the context of the
    next query.  In a year of four digits, after an image has been posted
    to a server whose image directory is missing or healthy and the
    reasoning API has described it, the description is in the file the
    reply names, and the context the query server builds holds it between
    the tags that carry the timestamp of the image. *)
Theorem X26_image_description_is_in_the_context host body image kind ext resp data w :
  body <> JNull ->
  isString (fieldOf body "transcript") = false ->
  fieldOf body "image" = Some (JStr image) ->
  effectiveMediaType body = Some (kind ++ "/" ++ ext) ->
  noChar "/" kind = true -> noChar "/" ext = true ->
  (1000 <= DateTime.getFullYear (utcOffset host) (clock w) <= 9999)%Z ->
  images w = Missing \/ healthy (images w) ->
  let t := WebServer.formatTimestamp host (clock w) in
  (forall err, lookupFile (t ++ "." ++ ext) (entriesOf (images w)) <> Some (Faulty err)) ->
  keyMissing host = false ->
  remote host (describeRequest host image (kind ++ "/" ++ ext)) = Fetched resp ->
  respOk resp = true ->
  respJson resp = Some data ->
  let w1 := snd (WebServer.requestListener host "POST" "/media"
                   (WebServer.JsonBody body) w) in
  exists description before after w2,
    lookupFile (t ++ ".txt") (entriesOf (images w1)) = Some (Regular description)
    /\ McpServer.buildFullContext host w1
       = (Returned (before ++ artifactText IMAGES_DIR t description ++ after), w2).
Proof.
  intros Hnull Ht Himage Hmedia Hk Hes Hy Hst t Himg Hkey Hremote Hok Hjson w1.
  assert (Hname : imageName t (kind ++ "/" ++ ext) = t ++ "." ++ ext)
    by (apply imageName_slash; assumption).
  assert (Hw : writable (images w) (imageName t (kind ++ "/" ++ ext))).
  { rewrite Hname. destruct Hst as [-> | (entries & He & _)]; [exact I|].
    rewrite He in Himg |- *. exact Himg. }
  destruct (handleMediaRequest_image_ok host body image (kind ++ "/" ++ ext) resp data w
              Hnull Ht Himage Hmedia Hw
              (let '(conj _ H) := writable_inv _ _ (healthy_writable _ t Hst) in H)
              Hkey Hremote Hok Hjson) as (w' & E & D & _).
  fold t in E, D. rewrite Hname in D.
  set (description := match WebServer.findTextBlock data with
                      | Some block =>
                          match blockText block with
                          | Some text => text
                          | None => "No description returned."
                          end
                      | None => "No description returned."
                      end) in *.
  assert (Hw1 : w1 = w').
  { unfold w1.
    change (WebServer.requestListener host "POST" "/media" (WebServer.JsonBody body) w)
      with (WebServer.handleMediaRequest host (WebServer.JsonBody body) w).
    rewrite E. reflexivity. }
  set (stored := storeFile (t ++ "." ++ ext) (Base64.decode image) (entriesOf (images w)))
    in *.
  assert (Hstored : healthy (Present stored)) by (apply storeFile_healthy; exact Hst).
  assert (Hfinal : healthy (Present (storeFile (t ++ ".txt") (utf8Encode description)
                                       stored))).
  { apply (storeFile_healthy _ _ (Present stored)). right. exact Hstored. }
  exists description.
  destruct (buildFullContext_spec host w1) as (w2 & Eb & _).
  rewrite Hw1 in Eb |- *. rewrite D in Eb |- *.
  destruct (listText_holds _ t (utf8Encode description) Hfinal)
    as (F1 & F2 & Hl).
  { unfold holds. cbn [entriesOf]. apply storeFile_In. }
  rewrite Hl in Eb.
  destruct (renderContext_holds_description (listText (transcripts w')) F1
              (McpServer.mkTextFile (t ++ ".txt") (utf8Decode (utf8Encode description)))
              F2) as (pre & post & Hr).
  rewrite Hr in Eb.
  rewrite (imageDescriptionBlock_text t _ (formatTimestamp_valid host (clock w) Hy)) in Eb.
  exists pre, post, w2. split; [|exact Eb].
  cbn [entriesOf]. apply lookupFile_storeFile_same.
Qed.

Lemma X26_witness :
  (JObj [("image", JStr "TWFu")] <> JNull
   /\ effectiveMediaType (JObj [("image", JStr "TWFu")]) = Some ("image" ++ "/" ++ "png")
   /\ (1000 <= DateTime.getFullYear (utcOffset describingHost) (clock emptyWorld) <= 9999)%Z
   /\ (images emptyWorld = Missing \/ healthy (images emptyWorld))
   /\ keyMissing describingHost = false)
  /\ exists description before after w2,
       lookupFile "2025-05-17-02-40-24.txt"
         (entriesOf (images (snd (WebServer.requestListener describingHost "POST" "/media"
                                    (WebServer.JsonBody (JObj [("image", JStr "TWFu")]))
                                    emptyWorld))))
       = Some (Regular description)
       /\ McpServer.buildFullContext describingHost
            (snd (WebServer.requestListener describingHost "POST" "/media"
                    (WebServer.JsonBody (JObj [("image", JStr "TWFu")])) emptyWorld))
          = (Returned (before
                         ++ artifactText IMAGES_DIR "2025-05-17-02-40-24" description
                         ++ after), w2).
Proof.
  assert (Hnull : JObj [("image", JStr "TWFu")] <> JNull) by discriminate.
  assert (Hy : (1000 <= DateTime.getFullYear (utcOffset describingHost) (clock emptyWorld)
                <= 9999)%Z) by (vm_compute; split; discriminate).
  assert (Hst : images emptyWorld = Missing \/ healthy (images emptyWorld))
    by (left; reflexivity).
  assert (Himg : forall err,
            lookupFile ("2025-05-17-02-40-24" ++ "." ++ "png")
                       (entriesOf (images emptyWorld)) <> Some (Faulty err))
    by discriminate.
  split; [split; [exact Hnull | split; [reflexivity | split; [exact Hy | split;
            [exact Hst | reflexivity]]]]|].
  exact (X26_image_description_is_in_the_context describingHost _ "TWFu" "image" "png"
           _ _ emptyWorld Hnull eq_refl eq_refl eq_refl eq_refl eq_refl Hy Hst Himg
           eq_refl eq_refl eq_refl eq_refl).
Defined.
